(** * Clarity Layer: capture, transform and overlay core

    A shallow embedding of the GPU transform pipeline
    ([src/overlay/ShaderPipeline.cpp]), the invert pixel shader
    ([src/overlay/shaders/invert.hlsl]), the capture manager
    ([src/overlay/CaptureManager.cpp]) and the overlay window
    ([src/overlay/OverlayWindow.cpp]).

    Conventions.
    - A C++ [float] is an IEEE-754 binary32 value, represented by
      [spec_float] with precision 24 and maximal exponent 128; arithmetic
      and comparisons are the ones of [SpecFloat], so NaN, infinities and
      signed zeros behave as on the machine.
    - A COM pointer ([ComPtr<T>], [T*], a WinRT reference) is an
      [option]: [None] is the null pointer, [Some h] an object.  Objects
      created by the platform get a fresh identity.
    - Platform calls that can fail take their result from an environment
      record (one [HRESULT] per call site), so every failure path of the
      source can be exercised.  The shader files are looked up by name in
      that environment; the directory they are read from is stored and not
      interpreted.
    - Every method is a function from the object's state to its new state
      in a small monad that allocates identities and records the calls made
      on the platform (the event trace). *)

From Stdlib Require Import ZArith List Bool Lia QArith Qabs.
From Stdlib Require Import SpecFloat.
From Stdlib Require Import Strings.Byte String.
Import ListNotations.

Open Scope Z_scope.

(** ** Platform monad: fresh identities and an event trace *)

Definition Handle := nat.

Section PlatformMonad.
Context {E : Type}.

Definition M (A : Type) : Type := Handle -> (A * Handle) * list E.

Definition ret {A} (a : A) : M A := fun n => ((a, n), []).

Definition bind {A B} (m : M A) (k : A -> M B) : M B :=
  fun n =>
    let '(a, n1, e1) := m n in
    let '(b, n2, e2) := k a n1 in
    (b, n2, e1 ++ e2).

Definition emit (e : E) : M unit := fun n => ((tt, n), [e]).

Definition fresh : M Handle := fun n => ((n, S n), []).

Definition value {A} (r : (A * Handle) * list E) : A := fst (fst r).
Definition events {A} (r : (A * Handle) * list E) : list E := snd r.
End PlatformMonad.

Arguments M : clear implicits.

Notation "x <- m ;; k" := (bind m (fun x => k))
  (at level 61, m at next level, right associativity).
Notation "m ;;; k" := (bind m (fun _ => k))
  (at level 61, right associativity).

(** ** HRESULT *)

Definition HRESULT := Z.
Definition S_OK : HRESULT := 0.
Definition E_FAIL : HRESULT := 0x80004005 - 2 ^ 32.
Definition DXGI_ERROR_DEVICE_REMOVED : HRESULT := 0x887A0005 - 2 ^ 32.
Definition DXGI_ERROR_DEVICE_RESET : HRESULT := 0x887A0007 - 2 ^ 32.
Definition FAILED (hr : HRESULT) : bool := hr <? 0.
Definition SUCCEEDED (hr : HRESULT) : bool := 0 <=? hr.

(** ** Pointers *)

(** [p != nullptr], the [operator bool] of a smart pointer. *)
Definition is_object {A} (p : option A) : bool :=
  match p with Some _ => true | None => false end.

(** ** 32-bit integer conversions ([UINT] <-> [int]) *)

Definition to_uint32 (z : Z) : Z := z mod 2 ^ 32.
Definition to_int32 (z : Z) : Z :=
  let m := z mod 2 ^ 32 in if m <? 2 ^ 31 then m else m - 2 ^ 32.
Definition is_uint32 (z : Z) : Prop := 0 <= z < 2 ^ 32.

(** ** [RECT] *)

Record RECT := { left : Z; top : Z; right : Z; bottom : Z }.

(** ** binary32 floating point *)

Module Float32.

Definition float := spec_float.
Definition prec : Z := 24.
Definition emax : Z := 128.

Definition is_binary32 (x : float) : bool := valid_binary prec emax x.

Definition of_Z (z : Z) : float := binary_normalize prec emax z 0 false.
Definition add : float -> float -> float := SFadd prec emax.
Definition sub : float -> float -> float := SFsub prec emax.
Definition mul : float -> float -> float := SFmul prec emax.
Definition div : float -> float -> float := SFdiv prec emax.
Definition ltb : float -> float -> bool := SFltb.
Definition leb : float -> float -> bool := SFleb.
Definition eqb : float -> float -> bool := SFeqb.

Definition is_nan (x : float) : bool :=
    match x with S754_nan => true | _ => false end.

  (** A decimal literal [n/d] is the binary32 value nearest to the
      quotient, which is what correctly rounded division of the two exact
      integers gives. *)
Definition lit (n d : Z) : float := div (of_Z n) (of_Z d).

Definition f0_0 : float := S754_zero false.     (* 0.0f *)
Definition f1_0 : float := of_Z 1.              (* 1.0f *)
Definition f2_0 : float := of_Z 2.              (* 2.0f *)
Definition f4_0 : float := of_Z 4.              (* 4.0f *)
Definition f6_0 : float := of_Z 6.              (* 6.0f *)
Definition f10_0 : float := of_Z 10.            (* 10.0f *)
Definition fm1_0 : float := of_Z (-1).          (* -1.0f *)
Definition f0_1 : float := lit 1 10.            (* 0.1f *)
Definition f0_5 : float := lit 1 2.             (* 0.5f *)
Definition f0_0001 : float := lit 1 10000.      (* 0.0001f *)
Definition NaN : float := S754_nan.

  (** [std::clamp(v, lo, hi)]: [lo] if [v < lo], [hi] if [hi < v],
      otherwise [v]. *)
Definition clamp (v lo hi : float) : float :=
    if ltb v lo then lo else if ltb hi v then hi else v.

  (** [lo <= x && x <= hi] with the float comparison. *)
Definition in_range (lo hi x : float) : bool := leb lo x && leb x hi.

  (** Exact rational value of a finite float (0 for the others). *)
Definition to_Q (x : float) : Q :=
    match x with
    | S754_finite s m e =>
        let v := match e with
                 | Z0 => inject_Z (Zpos m)
                 | Zpos p => inject_Z (Zpos m * 2 ^ Zpos p)
                 | Zneg p => Qmake (Zpos m) (2 ^ p)%positive
                 end in
        if s then Qopp v else v
    | _ => 0%Q
    end.

  (** Truncation towards zero of a non-negative finite float. *)
Definition trunc (x : float) : Z :=
    match x with
    | S754_finite false m e =>
        match e with
        | Z0 => Zpos m
        | Zpos p => Zpos m * 2 ^ Zpos p
        | Zneg p => Zpos m / 2 ^ Zpos p
        end
    | _ => 0
    end.

End Float32.


(** ** ShaderPipeline (src/overlay/ShaderPipeline.h, ShaderPipeline.cpp) *)

Module ShaderPipeline.
Import Float32.

(** [enum class InvertMode { None = 0, Full, BrightnessOnly }]
    (core/ProfileManager.h). *)
Inductive InvertMode := InvertMode_None | InvertMode_Full | InvertMode_BrightnessOnly.

Definition InvertMode_to_int (m : InvertMode) : Z :=
  match m with
  | InvertMode_None => 0
  | InvertMode_Full => 1
  | InvertMode_BrightnessOnly => 2
  end.

(** [struct TransformParams] (the padding carries no data). *)
Record TransformParams := {
  contrast : float;
  brightness : float;
  gamma : float;
  saturation : float;
  invertMode : Z;
  edgeStrength : float
}.

Definition default_params : TransformParams :=
  {| contrast := f1_0; brightness := f0_0; gamma := f1_0;
     saturation := f1_0; invertMode := 0; edgeStrength := f0_0 |}.

(** [struct VisualSettings] (core/ProfileManager.h), the fields
    [ApplyProfile] reads. *)
Record VisualSettings := {
  vs_contrast : float;
  vs_brightness : float;
  vs_gamma : float;
  vs_saturation : float;
  vs_invertMode : InvertMode;
  vs_edgeStrength : float
}.

(** The compiled shader files [Initialize] loads. *)
Inductive ShaderFile :=
| fullscreen_vs_cso | contrast_cso | invert_cso | edge_enhance_cso | passthrough_cso.

(** D3D objects.  A texture carries the part of its description that
    [GetDesc] is read for; a view remembers the texture it was created on;
    a shader remembers the file it was compiled from. *)
Record Texture2D := { tex_id : Handle; Width : Z; Height : Z }.
Record View := { view_id : Handle; view_of : Handle }.
Record Shader := { shader_id : Handle; shader_file : ShaderFile }.

(** Pointer comparison [a == b] of two view pointers. *)
Definition ptr_eqb (a b : option View) : bool :=
  match a, b with
  | None, None => true
  | Some x, Some y => Nat.eqb (view_id x) (view_id y)
  | _, _ => false
  end.

(** The device calls whose [HRESULT] the source tests, one per call site. *)
Inductive D3DCall :=
| CreateVertexShader
| CreateInputLayout
| CreatePixelShader (f : ShaderFile)
| CreateBuffer_constant
| CreateBuffer_vertex
| CreateBuffer_index
| CreateSamplerState
| CreateTexture2D_intermediate
| CreateRenderTargetView_intermediate
| CreateShaderResourceView_intermediate
| CreateTexture2D_output
| CreateRenderTargetView_output
| CreateShaderResourceView_output
| Map_constantBuffer
| CreateShaderResourceView_input.

Record Env := {
  file_opens : ShaderFile -> bool;
  hr : D3DCall -> HRESULT
}.

(** What the pipeline does on the device context. *)
Inductive Event :=
| EvReleaseSurfaces
| EvCreateTexture2D (w h : Z) (result : option Handle)
| EvUpload (p : TransformParams)
| EvRenderPass (input output : option View) (shader : option Shader)
    (width height : Z).

Record ShaderPipeline := {
  m_device : option Handle;
  m_context : option Handle;
  m_shadersPath : string;
  m_ready : bool;
  m_params : TransformParams;
  m_paramsDirty : bool;
  m_vertexShader : option Shader;
  m_contrastShader : option Shader;
  m_invertShader : option Shader;
  m_edgeShader : option Shader;
  m_passthroughShader : option Shader;
  m_inputLayout : option Handle;
  m_constantBuffer : option Handle;
  m_intermediateTexture : option Texture2D;
  m_intermediateRTV : option View;
  m_intermediateSRV : option View;
  m_outputTexture : option Texture2D;
  m_outputRTV : option View;
  m_outputSRV : option View;
  m_outputWidth : Z;
  m_outputHeight : Z;
  m_vertexBuffer : option Handle;
  m_indexBuffer : option Handle;
  m_sampler : option Handle
}.

(** The default-constructed pipeline (member initialisers of the class). *)
Definition new_pipeline : ShaderPipeline :=
  {| m_device := None; m_context := None; m_shadersPath := EmptyString;
     m_ready := false;
     m_params := default_params; m_paramsDirty := true;
     m_vertexShader := None; m_contrastShader := None; m_invertShader := None;
     m_edgeShader := None; m_passthroughShader := None; m_inputLayout := None;
     m_constantBuffer := None;
     m_intermediateTexture := None; m_intermediateRTV := None;
     m_intermediateSRV := None;
     m_outputTexture := None; m_outputRTV := None; m_outputSRV := None;
     m_outputWidth := 0; m_outputHeight := 0;
     m_vertexBuffer := None; m_indexBuffer := None; m_sampler := None |}.

(** Field updates. *)
Definition set_device (d c : option Handle) (path : string)
    (t : ShaderPipeline) :=
  {| m_device := d; m_context := c; m_shadersPath := path;
     m_ready := m_ready t;
     m_params := m_params t; m_paramsDirty := m_paramsDirty t;
     m_vertexShader := m_vertexShader t; m_contrastShader := m_contrastShader t;
     m_invertShader := m_invertShader t; m_edgeShader := m_edgeShader t;
     m_passthroughShader := m_passthroughShader t;
     m_inputLayout := m_inputLayout t; m_constantBuffer := m_constantBuffer t;
     m_intermediateTexture := m_intermediateTexture t;
     m_intermediateRTV := m_intermediateRTV t;
     m_intermediateSRV := m_intermediateSRV t;
     m_outputTexture := m_outputTexture t; m_outputRTV := m_outputRTV t;
     m_outputSRV := m_outputSRV t;
     m_outputWidth := m_outputWidth t; m_outputHeight := m_outputHeight t;
     m_vertexBuffer := m_vertexBuffer t; m_indexBuffer := m_indexBuffer t;
     m_sampler := m_sampler t |}.

Definition set_ready (b : bool) (t : ShaderPipeline) :=
  {| m_device := m_device t; m_context := m_context t;
     m_shadersPath := m_shadersPath t; m_ready := b;
     m_params := m_params t; m_paramsDirty := m_paramsDirty t;
     m_vertexShader := m_vertexShader t; m_contrastShader := m_contrastShader t;
     m_invertShader := m_invertShader t; m_edgeShader := m_edgeShader t;
     m_passthroughShader := m_passthroughShader t;
     m_inputLayout := m_inputLayout t; m_constantBuffer := m_constantBuffer t;
     m_intermediateTexture := m_intermediateTexture t;
     m_intermediateRTV := m_intermediateRTV t;
     m_intermediateSRV := m_intermediateSRV t;
     m_outputTexture := m_outputTexture t; m_outputRTV := m_outputRTV t;
     m_outputSRV := m_outputSRV t;
     m_outputWidth := m_outputWidth t; m_outputHeight := m_outputHeight t;
     m_vertexBuffer := m_vertexBuffer t; m_indexBuffer := m_indexBuffer t;
     m_sampler := m_sampler t |}.

Definition set_params (p : TransformParams) (dirty : bool) (t : ShaderPipeline) :=
  {| m_device := m_device t; m_context := m_context t;
     m_shadersPath := m_shadersPath t; m_ready := m_ready t;
     m_params := p; m_paramsDirty := dirty;
     m_vertexShader := m_vertexShader t; m_contrastShader := m_contrastShader t;
     m_invertShader := m_invertShader t; m_edgeShader := m_edgeShader t;
     m_passthroughShader := m_passthroughShader t;
     m_inputLayout := m_inputLayout t; m_constantBuffer := m_constantBuffer t;
     m_intermediateTexture := m_intermediateTexture t;
     m_intermediateRTV := m_intermediateRTV t;
     m_intermediateSRV := m_intermediateSRV t;
     m_outputTexture := m_outputTexture t; m_outputRTV := m_outputRTV t;
     m_outputSRV := m_outputSRV t;
     m_outputWidth := m_outputWidth t; m_outputHeight := m_outputHeight t;
     m_vertexBuffer := m_vertexBuffer t; m_indexBuffer := m_indexBuffer t;
     m_sampler := m_sampler t |}.

Definition set_shaders (vsh csh ish esh psh : option Shader) (il : option Handle)
    (t : ShaderPipeline) :=
  {| m_device := m_device t; m_context := m_context t;
     m_shadersPath := m_shadersPath t; m_ready := m_ready t;
     m_params := m_params t; m_paramsDirty := m_paramsDirty t;
     m_vertexShader := vsh; m_contrastShader := csh;
     m_invertShader := ish; m_edgeShader := esh;
     m_passthroughShader := psh;
     m_inputLayout := il; m_constantBuffer := m_constantBuffer t;
     m_intermediateTexture := m_intermediateTexture t;
     m_intermediateRTV := m_intermediateRTV t;
     m_intermediateSRV := m_intermediateSRV t;
     m_outputTexture := m_outputTexture t; m_outputRTV := m_outputRTV t;
     m_outputSRV := m_outputSRV t;
     m_outputWidth := m_outputWidth t; m_outputHeight := m_outputHeight t;
     m_vertexBuffer := m_vertexBuffer t; m_indexBuffer := m_indexBuffer t;
     m_sampler := m_sampler t |}.

Definition set_buffers (cb vb ib sm : option Handle) (t : ShaderPipeline) :=
  {| m_device := m_device t; m_context := m_context t;
     m_shadersPath := m_shadersPath t; m_ready := m_ready t;
     m_params := m_params t; m_paramsDirty := m_paramsDirty t;
     m_vertexShader := m_vertexShader t; m_contrastShader := m_contrastShader t;
     m_invertShader := m_invertShader t; m_edgeShader := m_edgeShader t;
     m_passthroughShader := m_passthroughShader t;
     m_inputLayout := m_inputLayout t; m_constantBuffer := cb;
     m_intermediateTexture := m_intermediateTexture t;
     m_intermediateRTV := m_intermediateRTV t;
     m_intermediateSRV := m_intermediateSRV t;
     m_outputTexture := m_outputTexture t; m_outputRTV := m_outputRTV t;
     m_outputSRV := m_outputSRV t;
     m_outputWidth := m_outputWidth t; m_outputHeight := m_outputHeight t;
     m_vertexBuffer := vb; m_indexBuffer := ib; m_sampler := sm |}.

Definition set_surfaces (it : option Texture2D) (ir isv : option View)
    (ot : option Texture2D) (ort osv : option View) (w h : Z)
    (t : ShaderPipeline) :=
  {| m_device := m_device t; m_context := m_context t;
     m_shadersPath := m_shadersPath t; m_ready := m_ready t;
     m_params := m_params t; m_paramsDirty := m_paramsDirty t;
     m_vertexShader := m_vertexShader t; m_contrastShader := m_contrastShader t;
     m_invertShader := m_invertShader t; m_edgeShader := m_edgeShader t;
     m_passthroughShader := m_passthroughShader t;
     m_inputLayout := m_inputLayout t; m_constantBuffer := m_constantBuffer t;
     m_intermediateTexture := it; m_intermediateRTV := ir;
     m_intermediateSRV := isv;
     m_outputTexture := ot; m_outputRTV := ort; m_outputSRV := osv;
     m_outputWidth := w; m_outputHeight := h;
     m_vertexBuffer := m_vertexBuffer t; m_indexBuffer := m_indexBuffer t;
     m_sampler := m_sampler t |}.

(** *** Parameter setters (ShaderPipeline.cpp:161-198) *)

Definition SetContrast (v : float) (this : ShaderPipeline) : ShaderPipeline :=
  let p := m_params this in
  set_params
    {| contrast := clamp v f0_0 f4_0; brightness := brightness p;
       gamma := gamma p; saturation := saturation p;
       invertMode := invertMode p; edgeStrength := edgeStrength p |}
    true this.

Definition SetBrightness (v : float) (this : ShaderPipeline) : ShaderPipeline :=
  let p := m_params this in
  set_params
    {| contrast := contrast p; brightness := clamp v fm1_0 f1_0;
       gamma := gamma p; saturation := saturation p;
       invertMode := invertMode p; edgeStrength := edgeStrength p |}
    true this.

Definition SetGamma (v : float) (this : ShaderPipeline) : ShaderPipeline :=
  let p := m_params this in
  set_params
    {| contrast := contrast p; brightness := brightness p;
       gamma := clamp v f0_1 f4_0; saturation := saturation p;
       invertMode := invertMode p; edgeStrength := edgeStrength p |}
    true this.

Definition SetSaturation (v : float) (this : ShaderPipeline) : ShaderPipeline :=
  let p := m_params this in
  set_params
    {| contrast := contrast p; brightness := brightness p;
       gamma := gamma p; saturation := clamp v f0_0 f2_0;
       invertMode := invertMode p; edgeStrength := edgeStrength p |}
    true this.

Definition SetInvertMode (mode : InvertMode) (this : ShaderPipeline) : ShaderPipeline :=
  let p := m_params this in
  set_params
    {| contrast := contrast p; brightness := brightness p;
       gamma := gamma p; saturation := saturation p;
       invertMode := InvertMode_to_int mode; edgeStrength := edgeStrength p |}
    true this.

Definition SetEdgeStrength (v : float) (this : ShaderPipeline) : ShaderPipeline :=
  let p := m_params this in
  set_params
    {| contrast := contrast p; brightness := brightness p;
       gamma := gamma p; saturation := saturation p;
       invertMode := invertMode p; edgeStrength := clamp v f0_0 f1_0 |}
    true this.

Definition ApplyProfile (settings : VisualSettings) (this : ShaderPipeline)
  : ShaderPipeline :=
  SetEdgeStrength (vs_edgeStrength settings)
    (SetInvertMode (vs_invertMode settings)
       (SetSaturation (vs_saturation settings)
          (SetGamma (vs_gamma settings)
             (SetBrightness (vs_brightness settings)
                (SetContrast (vs_contrast settings) this))))).

(** One call of a setter, and a sequence of such calls. *)
Inductive SetterCall :=
| CallSetContrast (v : float)
| CallSetBrightness (v : float)
| CallSetGamma (v : float)
| CallSetSaturation (v : float)
| CallSetInvertMode (mode : InvertMode)
| CallSetEdgeStrength (v : float).

Definition run_setter (c : SetterCall) (this : ShaderPipeline) : ShaderPipeline :=
  match c with
  | CallSetContrast v => SetContrast v this
  | CallSetBrightness v => SetBrightness v this
  | CallSetGamma v => SetGamma v this
  | CallSetSaturation v => SetSaturation v this
  | CallSetInvertMode mode => SetInvertMode mode this
  | CallSetEdgeStrength v => SetEdgeStrength v this
  end.

Definition run_setters (cs : list SetterCall) (this : ShaderPipeline)
  : ShaderPipeline :=
  fold_left (fun t c => run_setter c t) cs this.

(** The float argument of a call is not a NaN. *)
Definition setter_arg_ordered (c : SetterCall) : bool :=
  match c with
  | CallSetContrast v | CallSetBrightness v | CallSetGamma v
  | CallSetSaturation v | CallSetEdgeStrength v => negb (is_nan v)
  | CallSetInvertMode _ => true
  end.

(** The declared ranges of [TransformParams]. *)
Definition params_in_range (p : TransformParams) : bool :=
  in_range f0_0 f4_0 (contrast p) &&
  in_range fm1_0 f1_0 (brightness p) &&
  in_range f0_1 f4_0 (gamma p) &&
  in_range f0_0 f2_0 (saturation p) &&
  in_range f0_0 f1_0 (edgeStrength p).

(** *** Initialisation (ShaderPipeline.cpp:23-74, 212-270, 324-397) *)

Definition LoadVertexShader (env : Env) (this : ShaderPipeline)
  : M Event (bool * ShaderPipeline) :=
  if negb (file_opens env fullscreen_vs_cso) then ret (false, this) else
  if FAILED (hr env CreateVertexShader) then
    ret (false, set_shaders None (m_contrastShader this) (m_invertShader this)
                  (m_edgeShader this) (m_passthroughShader this)
                  (m_inputLayout this) this)
  else
    id <- fresh ;;
    let vs := Some {| shader_id := id; shader_file := fullscreen_vs_cso |} in
    if FAILED (hr env CreateInputLayout) then
      ret (false, set_shaders vs (m_contrastShader this) (m_invertShader this)
                    (m_edgeShader this) (m_passthroughShader this) None this)
    else
      il <- fresh ;;
      ret (true, set_shaders vs (m_contrastShader this) (m_invertShader this)
                   (m_edgeShader this) (m_passthroughShader this) (Some il) this).

(** [LoadPixelShader(filename, shader)]: the result and the new value of
    the [shader] out-parameter. *)
Definition LoadPixelShader (env : Env) (filename : ShaderFile)
    (shader : option Shader) : M Event (bool * option Shader) :=
  if negb (file_opens env filename) then ret (false, shader) else
  if FAILED (hr env (CreatePixelShader filename)) then ret (false, None) else
    id <- fresh ;;
    ret (true, Some {| shader_id := id; shader_file := filename |}).

Definition CreateConstantBuffer (env : Env) (this : ShaderPipeline)
  : M Event (bool * ShaderPipeline) :=
  if FAILED (hr env CreateBuffer_constant) then
    ret (false, set_buffers None (m_vertexBuffer this) (m_indexBuffer this)
                  (m_sampler this) this)
  else
    cb <- fresh ;;
    ret (true, set_buffers (Some cb) (m_vertexBuffer this) (m_indexBuffer this)
                 (m_sampler this) this).

Definition CreateFullscreenQuad (env : Env) (this : ShaderPipeline)
  : M Event (bool * ShaderPipeline) :=
  if FAILED (hr env CreateBuffer_vertex) then
    ret (false, set_buffers (m_constantBuffer this) None (m_indexBuffer this)
                  (m_sampler this) this)
  else
    vb <- fresh ;;
    if FAILED (hr env CreateBuffer_index) then
      ret (false, set_buffers (m_constantBuffer this) (Some vb) None
                    (m_sampler this) this)
    else
      ib <- fresh ;;
      if FAILED (hr env CreateSamplerState) then
        ret (false, set_buffers (m_constantBuffer this) (Some vb) (Some ib)
                      None this)
      else
        sm <- fresh ;;
        ret (true, set_buffers (m_constantBuffer this) (Some vb) (Some ib)
                     (Some sm) this).

Definition Initialize (env : Env) (device : option Handle)
    (shadersPath : string) (this : ShaderPipeline)
  : M Event (bool * ShaderPipeline) :=
  match device with
  | None => ret (false, this)
  | Some _ =>
    ctx <- fresh ;;
    let this := set_device device (Some ctx) shadersPath this in
    r <- LoadVertexShader env this ;;
    let this := snd r in
    if negb (fst r) then ret (false, this) else
    c <- LoadPixelShader env contrast_cso (m_contrastShader this) ;;
    let this := set_shaders (m_vertexShader this) (snd c) (m_invertShader this)
                  (m_edgeShader this) (m_passthroughShader this)
                  (m_inputLayout this) this in
    if negb (fst c) then ret (false, this) else
    i <- LoadPixelShader env invert_cso (m_invertShader this) ;;
    let this := set_shaders (m_vertexShader this) (m_contrastShader this) (snd i)
                  (m_edgeShader this) (m_passthroughShader this)
                  (m_inputLayout this) this in
    if negb (fst i) then ret (false, this) else
    e <- LoadPixelShader env edge_enhance_cso (m_edgeShader this) ;;
    (* Not fatal - edge enhancement is optional *)
    let this := set_shaders (m_vertexShader this) (m_contrastShader this)
                  (m_invertShader this) (snd e) (m_passthroughShader this)
                  (m_inputLayout this) this in
    p <- LoadPixelShader env passthrough_cso (m_passthroughShader this) ;;
    let this := set_shaders (m_vertexShader this) (m_contrastShader this)
                  (m_invertShader this) (m_edgeShader this) (snd p)
                  (m_inputLayout this) this in
    if negb (fst p) then ret (false, this) else
    cb <- CreateConstantBuffer env this ;;
    let this := snd cb in
    if negb (fst cb) then ret (false, this) else
    q <- CreateFullscreenQuad env this ;;
    let this := snd q in
    if negb (fst q) then ret (false, this) else
    ret (true, set_ready true this)
  end.

(** *** Frame processing (ShaderPipeline.cpp:76-159, 200-210, 272-322, 399-427) *)

Definition UpdateParameters (env : Env) (this : ShaderPipeline)
  : M Event ShaderPipeline :=
  match m_constantBuffer this with
  | None => ret this
  | Some _ =>
    if SUCCEEDED (hr env Map_constantBuffer) then
      emit (EvUpload (m_params this)) ;;;
      ret (set_params (m_params this) false this)
    else ret this
  end.

Definition CreateIntermediateTextures (env : Env) (width height : Z)
    (this : ShaderPipeline) : M Event (bool * ShaderPipeline) :=
  (* m_outputWidth = width; m_outputHeight = height; release old textures *)
  emit EvReleaseSurfaces ;;;
  let w := to_uint32 width in
  let h := to_uint32 height in
  let surf it ir isv ot ort osv :=
    set_surfaces it ir isv ot ort osv width height this in
  if FAILED (hr env CreateTexture2D_intermediate) then
    emit (EvCreateTexture2D w h None) ;;;
    ret (false, surf None None None None None None)
  else
  t1 <- fresh ;;
  emit (EvCreateTexture2D w h (Some t1)) ;;;
  let it := Some {| tex_id := t1; Width := w; Height := h |} in
  if FAILED (hr env CreateRenderTargetView_intermediate) then
    ret (false, surf it None None None None None)
  else
  r1 <- fresh ;;
  let ir := Some {| view_id := r1; view_of := t1 |} in
  if FAILED (hr env CreateShaderResourceView_intermediate) then
    ret (false, surf it ir None None None None)
  else
  s1 <- fresh ;;
  let isv := Some {| view_id := s1; view_of := t1 |} in
  if FAILED (hr env CreateTexture2D_output) then
    emit (EvCreateTexture2D w h None) ;;;
    ret (false, surf it ir isv None None None)
  else
  t2 <- fresh ;;
  emit (EvCreateTexture2D w h (Some t2)) ;;;
  let ot := Some {| tex_id := t2; Width := w; Height := h |} in
  if FAILED (hr env CreateRenderTargetView_output) then
    ret (false, surf it ir isv ot None None)
  else
  r2 <- fresh ;;
  let ort := Some {| view_id := r2; view_of := t2 |} in
  if FAILED (hr env CreateShaderResourceView_output) then
    ret (false, surf it ir isv ot ort None)
  else
  s2 <- fresh ;;
  let osv := Some {| view_id := s2; view_of := t2 |} in
  ret (true, surf it ir isv ot ort osv).

Definition RenderPass (input output : option View) (shader : option Shader)
    (width height : Z) : M Event unit :=
  emit (EvRenderPass input output shader width height).

(** [inputDesc.Width != m_outputWidth || inputDesc.Height != m_outputHeight]:
    the [UINT] of the description against the [int] member. *)
Definition size_differs (inputDesc : Texture2D) (this : ShaderPipeline) : bool :=
  negb (Width inputDesc =? to_uint32 (m_outputWidth this)) ||
  negb (Height inputDesc =? to_uint32 (m_outputHeight this)).

(** The block "Multi-pass rendering" of [Process] (lines 122-158): the
    passes on the bound input view, and the texture [Process] returns. *)
Definition MultiPassRendering (inputSRV : option View) (this : ShaderPipeline)
  : M Event (option Texture2D) :=
  let W := m_outputWidth this in
  let H := m_outputHeight this in
  let currentInput := inputSRV in
  (* Pass 1: Contrast/brightness/gamma/saturation adjustment *)
  RenderPass currentInput (m_intermediateRTV this) (m_contrastShader this) W H ;;;
  let currentInput := m_intermediateSRV this in
  (* Pass 2: Inversion (if enabled) *)
  currentInput <-
    (if negb (invertMode (m_params this) =? 0) then
       RenderPass currentInput (m_outputRTV this) (m_invertShader this) W H ;;;
       ret (m_outputSRV this)
     else ret currentInput) ;;
  (* If we ended on intermediate, copy to output *)
  let finish :=
    (if ptr_eqb currentInput (m_intermediateSRV this) then
       RenderPass currentInput (m_outputRTV this)
         (m_passthroughShader this) W H
     else ret tt) ;;;
    ret (m_outputTexture this) in
  (* Pass 3: Edge enhancement (if enabled and shader available) *)
  match ltb f0_0 (edgeStrength (m_params this)), m_edgeShader this with
  | true, Some _ =>
    let finalTarget :=
      if ptr_eqb currentInput (m_outputSRV this)
      then m_intermediateRTV this else m_outputRTV this in
    RenderPass currentInput finalTarget (m_edgeShader this) W H ;;;
    if ptr_eqb finalTarget (m_intermediateRTV this)
    then ret (m_intermediateTexture this)
    else finish
  | _, _ => finish
  end.

Definition Process (env : Env) (input : option Texture2D)
    (this : ShaderPipeline) : M Event (option Texture2D * ShaderPipeline) :=
  if negb (m_ready this) then ret (input, this) else
  match input with
  | None => ret (input, this)
  | Some inputDesc =>
    (* Resize intermediate textures if needed *)
    r <- (if size_differs inputDesc this
          then CreateIntermediateTextures env (to_int32 (Width inputDesc))
                 (to_int32 (Height inputDesc)) this
          else ret (true, this)) ;;
    let this := snd r in
    if negb (fst r) then ret (input, this) else
    (* Update constant buffer if parameters changed *)
    this <- (if m_paramsDirty this then UpdateParameters env this
             else ret this) ;;
    (* Create SRV for input texture *)
    if FAILED (hr env CreateShaderResourceView_input) then ret (input, this)
    else
    v <- fresh ;;
    let inputSRV := Some {| view_id := v; view_of := tex_id inputDesc |} in
    out <- MultiPassRendering inputSRV this ;;
    ret (out, this)
  end.

(** Reading a trace. *)
Definition is_pass (e : Event) : bool :=
  match e with EvRenderPass _ _ _ _ _ => true | _ => false end.

Definition is_realloc (e : Event) : bool :=
  match e with
  | EvReleaseSurfaces | EvCreateTexture2D _ _ _ => true
  | _ => false
  end.

(** The shader files of the passes of a trace, in order of execution. *)
Fixpoint passes (tr : list Event) : list (option ShaderFile) :=
  match tr with
  | [] => []
  | EvRenderPass _ _ sh _ _ :: tr' => option_map shader_file sh :: passes tr'
  | _ :: tr' => passes tr'
  end.

(** The render targets of the passes of a trace. *)
Fixpoint targets (tr : list Event) : list (option View) :=
  match tr with
  | [] => []
  | EvRenderPass _ out _ _ _ :: tr' => out :: targets tr'
  | _ :: tr' => targets tr'
  end.

(** The surfaces are reallocated somewhere in the trace. *)
Definition reallocates (tr : list Event) : bool := existsb is_realloc tr.


(** Every texture creation of the trace asks for [w] x [h]. *)
Definition creations_sized (w h : Z) (tr : list Event) : bool :=
  forallb (fun e => match e with
                    | EvCreateTexture2D w' h' _ => (w' =? w) && (h' =? h)
                    | _ => true
                    end) tr.

(** The six surface members. *)
Definition surfaces (t : ShaderPipeline) :=
  (m_intermediateTexture t, m_intermediateRTV t, m_intermediateSRV t,
   m_outputTexture t, m_outputRTV t, m_outputSRV t).

(** Both surfaces are allocated at [w] x [h]. *)
Definition surfaces_sized (w h : Z) (t : ShaderPipeline) : Prop :=
  exists ti to_,
    m_intermediateTexture t = Some ti /\ m_outputTexture t = Some to_ /\
    Width ti = w /\ Height ti = h /\ Width to_ = w /\ Height to_ = h.

(** A pipeline whose surfaces are allocated: all six members are objects,
    the views are distinct objects, and the shaders come from their
    files.  This is what a successful [Initialize] followed by a successful
    [CreateIntermediateTextures] leaves. *)
Record pipeline_ok (t : ShaderPipeline) : Prop := {
  ok_ready : m_ready t = true;
  ok_contrast : option_map shader_file (m_contrastShader t) = Some contrast_cso;
  ok_invert : option_map shader_file (m_invertShader t) = Some invert_cso;
  ok_passthrough :
    option_map shader_file (m_passthroughShader t) = Some passthrough_cso;
  ok_edge : m_edgeShader t = None \/
            option_map shader_file (m_edgeShader t) = Some edge_enhance_cso;
  ok_srvs : ptr_eqb (m_intermediateSRV t) (m_outputSRV t) = false;
  ok_rtvs : ptr_eqb (m_intermediateRTV t) (m_outputRTV t) = false;
  ok_isrv : m_intermediateSRV t <> None;
  ok_osrv : m_outputSRV t <> None
}.

(** Every call of [CreateIntermediateTextures] on the device succeeds. *)
Definition allocation_succeeds (env : Env) : bool :=
  negb (FAILED (hr env CreateTexture2D_intermediate)) &&
  negb (FAILED (hr env CreateRenderTargetView_intermediate)) &&
  negb (FAILED (hr env CreateShaderResourceView_intermediate)) &&
  negb (FAILED (hr env CreateTexture2D_output)) &&
  negb (FAILED (hr env CreateRenderTargetView_output)) &&
  negb (FAILED (hr env CreateShaderResourceView_output)).

(** *** Scenarios *)

(** An environment in which every file opens and every call succeeds. *)
Definition env_ok : Env :=
  {| file_opens := fun _ => true; hr := fun _ => S_OK |}.

(** The same, with the invert shader file missing. *)
Definition env_no_invert : Env :=
  {| file_opens := fun f => match f with invert_cso => false | _ => true end;
     hr := fun _ => S_OK |}.

(** The same, with a failing allocation of the intermediate texture. *)
Definition env_alloc_fails : Env :=
  {| file_opens := fun _ => true;
     hr := fun c => match c with
                    | CreateTexture2D_intermediate => E_FAIL
                    | _ => S_OK
                    end |}.

(** The device is object 0; the pipeline is constructed and initialised
    with every shader present. *)
Definition device0 : option Handle := Some 0%nat.

Definition shaders_dir : string := "shaders".
Definition run_initialize :=
  Initialize env_ok device0 shaders_dir new_pipeline 1%nat.
Definition pipeline_ready : ShaderPipeline := snd (value run_initialize).

(** A pipeline whose initialisation failed on the invert shader. *)
Definition pipeline_not_ready : ShaderPipeline :=
  snd (value (Initialize env_no_invert device0 shaders_dir new_pipeline 1%nat)).

(** A captured frame, an object of the capture subsystem. *)
Definition frame (id : Handle) (w h : Z) : option Texture2D :=
  Some {| tex_id := id; Width := w; Height := h |}.

(** [pipeline_ready] after one processed 1920x1080 frame. *)
Definition run_first_frame :=
  Process env_ok (frame 1000%nat 1920 1080) pipeline_ready
    (snd (fst run_initialize)).
Definition pipeline_sized : ShaderPipeline := snd (value run_first_frame).

(** Edge enhancement at one half, inversion off, and the next frame. *)
Definition pipeline_edge_only : ShaderPipeline :=
  SetEdgeStrength f0_5 pipeline_sized.

Definition run_edge_only_frame :=
  Process env_ok (frame 1001%nat 1920 1080) pipeline_edge_only
    (snd (fst run_first_frame)).

(** *** Further readings of states and traces *)

(** The files [Initialize] cannot do without open, and every device call it
    makes for them, for the constant buffer and for the quad succeeds. *)
Definition required_resources (env : Env) : bool :=
  file_opens env fullscreen_vs_cso &&
  negb (FAILED (hr env CreateVertexShader)) &&
  negb (FAILED (hr env CreateInputLayout)) &&
  file_opens env contrast_cso &&
  negb (FAILED (hr env (CreatePixelShader contrast_cso))) &&
  file_opens env invert_cso &&
  negb (FAILED (hr env (CreatePixelShader invert_cso))) &&
  file_opens env passthrough_cso &&
  negb (FAILED (hr env (CreatePixelShader passthrough_cso))) &&
  negb (FAILED (hr env CreateBuffer_constant)) &&
  negb (FAILED (hr env CreateBuffer_vertex)) &&
  negb (FAILED (hr env CreateBuffer_index)) &&
  negb (FAILED (hr env CreateSamplerState)).

(** The optional edge shader can be loaded. *)
Definition edge_available (env : Env) : bool :=
  file_opens env edge_enhance_cso &&
  negb (FAILED (hr env (CreatePixelShader edge_enhance_cso))).

(** The parameter blocks a trace copies into the constant buffer. *)
Fixpoint uploads (tr : list Event) : list TransformParams :=
  match tr with
  | [] => []
  | EvUpload p :: tr' => p :: uploads tr'
  | _ :: tr' => uploads tr'
  end.

(** [Process] gets as far as its surfaces: the pipeline is ready, the input
    is not null, and the surfaces either fit or can be allocated. *)
Definition surfaces_available (env : Env) (input : option Texture2D)
    (this : ShaderPipeline) : bool :=
  m_ready this &&
  match input with
  | None => false
  | Some inputDesc =>
      negb (size_differs inputDesc this) || allocation_succeeds env
  end.

(** [Process] gets as far as its passes. *)
Definition runs_passes (env : Env) (input : option Texture2D)
    (this : ShaderPipeline) : bool :=
  surfaces_available env input this &&
  negb (FAILED (hr env CreateShaderResourceView_input)).

(** [Process] copies the parameters into the constant buffer. *)
Definition upload_happens (env : Env) (input : option Texture2D)
    (this : ShaderPipeline) : bool :=
  surfaces_available env input this &&
  m_paramsDirty this && is_object (m_constantBuffer this) &&
  SUCCEEDED (hr env Map_constantBuffer).

(** Both surfaces exist, each with a render-target view and a
    shader-resource view on its own texture, and the views are four
    different objects. *)
Definition surfaces_linked (t : ShaderPipeline) : Prop :=
  exists ti ri si to_ ro so,
    m_intermediateTexture t = Some ti /\ m_intermediateRTV t = Some ri /\
    m_intermediateSRV t = Some si /\
    m_outputTexture t = Some to_ /\ m_outputRTV t = Some ro /\
    m_outputSRV t = Some so /\
    view_of ri = tex_id ti /\ view_of si = tex_id ti /\
    view_of ro = tex_id to_ /\ view_of so = tex_id to_ /\
    view_id ri <> view_id ro /\ view_id si <> view_id so.

(** A frame of the size of [pipeline_sized]'s surfaces, in an environment
    that cannot allocate, for a pipeline that has no surface yet. *)
Definition run_failed_allocation :=
  Process env_alloc_fails (frame 1000%nat 1920 1080) pipeline_ready
    (snd (fst run_initialize)).
Definition pipeline_unallocated : ShaderPipeline :=
  snd (value run_failed_allocation).

End ShaderPipeline.


(** ** The invert pixel shader (src/overlay/shaders/invert.hlsl)

    [main] is given the colour that [inputTex.Sample(sampler0, TexCoord)]
    returns and the [invertMode] of the constant buffer.  The pass runs on
    the pipeline's surfaces, which [CreateIntermediateTextures] creates as
    [DXGI_FORMAT_B8G8R8A8_UNORM]: a texel channel is a byte [k] read by
    the shader as the float [k / 255], and the float the shader returns is
    stored as the byte nearest to 255 times its value clamped to [0, 1]
    (Direct3D's UNORM conversion rules).  Source and target have the same
    size, so a pixel samples the centre of its own texel. *)

Module InvertShader.
Import Float32.

Record float3 := { x : float; y : float; z : float }.
Record float4 := { r : float; g : float; b : float; a : float }.

Definition rgb (c : float4) : float3 := {| x := r c; y := g c; z := b c |}.
Definition with_rgb (c : float4) (v : float3) : float4 :=
  {| r := x v; g := y v; b := z v; a := a c |}.

(** HLSL [max] and [min]: a NaN operand yields the other operand. *)
Definition fmax (u v : float) : float :=
  if is_nan u then v else if is_nan v then u else if ltb u v then v else u.
Definition fmin (u v : float) : float :=
  if is_nan u then v else if is_nan v then u else if ltb v u then v else u.

Definition f3_0 : float := of_Z 3.
Definition one_sixth : float := div f1_0 f6_0.     (* 1.0f / 6.0f *)
Definition one_third : float := div f1_0 f3_0.     (* 1.0f / 3.0f *)
Definition two_thirds : float := div f2_0 f3_0.    (* 2.0f / 3.0f *)

Definition RGBtoHSL (c : float3) : float3 :=
  let maxC := fmax (fmax (x c) (y c)) (z c) in
  let minC := fmin (fmin (x c) (y c)) (z c) in
  let delta := sub maxC minC in
  let L := mul (add maxC minC) f0_5 in
  if ltb f0_0001 delta then
    let S := if ltb L f0_5 then div delta (add maxC minC)
             else div delta (sub (sub f2_0 maxC) minC) in
    let H :=
      if eqb (x c) maxC then
        add (div (sub (y c) (z c)) delta)
            (if ltb (y c) (z c) then f6_0 else f0_0)
      else if eqb (y c) maxC then add (div (sub (z c) (x c)) delta) f2_0
      else add (div (sub (x c) (y c)) delta) f4_0 in
    {| x := div H f6_0; y := S; z := L |}
  else {| x := f0_0; y := f0_0; z := L |}.

Definition HueToRGB (p q t : float) : float :=
  let t := if ltb t f0_0 then add t f1_0 else t in
  let t := if ltb f1_0 t then sub t f1_0 else t in
  if ltb t one_sixth then add p (mul (mul (sub q p) f6_0) t)
  else if ltb t f0_5 then q
  else if ltb t two_thirds
       then add p (mul (mul (sub q p) (sub two_thirds t)) f6_0)
  else p.

Definition HSLtoRGB (hsl : float3) : float3 :=
  let H := x hsl in
  let S := y hsl in
  let L := z hsl in
  if ltb S f0_0001 then {| x := L; y := L; z := L |}
  else
    let q := if ltb L f0_5 then mul L (add f1_0 S)
             else sub (add L S) (mul L S) in
    let p := sub (mul f2_0 L) q in
    {| x := HueToRGB p q (add H one_third);
       y := HueToRGB p q H;
       z := HueToRGB p q (sub H one_third) |}.

(** [float4 main(PS_INPUT input)]: [color] is the sampled texel. *)
Definition main (color : float4) (invertMode : Z) : float4 :=
  if invertMode =? 1 then
    (* Full color inversion *)
    with_rgb color {| x := sub f1_0 (r color); y := sub f1_0 (g color);
                      z := sub f1_0 (b color) |}
  else if invertMode =? 2 then
    (* Brightness-only inversion (preserves hue) *)
    let hsl := RGBtoHSL (rgb color) in
    let hsl := {| x := x hsl; y := y hsl; z := sub f1_0 (z hsl) |} in
    with_rgb color (HSLtoRGB hsl)
  else color.

(** A texel of a [B8G8R8A8_UNORM] surface. *)
Record Texel := { tB : byte; tG : byte; tR : byte; tA : byte }.

Definition f255 : float := of_Z 255.

(** UNORM to float: [k / 255]. *)
Definition unorm8_to_float (k : byte) : float :=
  div (of_Z (Z.of_N (Byte.to_N k))) f255.

(** Float to UNORM: NaN gives 0, the value is clamped to [0, 1], scaled by
    255 and rounded to the nearest integer. *)
Definition float_to_unorm8 (v : float) : byte :=
  let c := if is_nan v then f0_0 else clamp v f0_0 f1_0 in
  let n := trunc (add (mul c f255) f0_5) in
  match Byte.of_N (Z.to_N n) with
  | Some k => k
  | None => xff
  end.

Definition Sample (t : Texel) : float4 :=
  {| r := unorm8_to_float (tR t); g := unorm8_to_float (tG t);
     b := unorm8_to_float (tB t); a := unorm8_to_float (tA t) |}.

Definition Store (c : float4) : Texel :=
  {| tB := float_to_unorm8 (b c); tG := float_to_unorm8 (g c);
     tR := float_to_unorm8 (r c); tA := float_to_unorm8 (a c) |}.

(** One invert pass over a texel of the surface. *)
Definition invert_pass (invertMode : Z) (t : Texel) : Texel :=
  Store (main (Sample t) invertMode).

(** Two floats differ by at most [2^-24] (half a unit in the last place
    at 1.0). *)
Definition within_rounding (u v : float) : bool :=
  Qle_bool (Qabs (to_Q u - to_Q v)) (1 # 16777216).

Definition close4 (u v : float4) : bool :=
  within_rounding (r u) (r v) && within_rounding (g u) (g v) &&
  within_rounding (b u) (b v) && within_rounding (a u) (a v).

(** A grey texel: the three colour channels hold the same byte. *)
Definition grey (k ka : byte) : Texel :=
  {| tB := k; tG := k; tR := k; tA := ka |}.

(** The value of a channel as an integer. *)
Definition level (k : byte) : Z := Z.of_N (Byte.to_N k).

End InvertShader.


(** ** CaptureManager (CaptureManager.h, src/overlay/CaptureManager.cpp) *)

Module CaptureManager.

Definition HMONITOR := Z.
Definition Callback := nat.

(** [struct MonitorInfo] (the device name is not modelled). *)
Record MonitorInfo := {
  handle : HMONITOR;
  bounds : RECT;
  isPrimary : bool;
  dpi : Z
}.

(** [struct MonitorCapture].  [frameArrivedToken] is the value of the
    [winrt::event_token]; its [operator bool] is [value != 0]. *)
Record MonitorCapture := {
  monitor : HMONITOR;
  item : option Handle;
  framePool : option Handle;
  session : option Handle;
  winrtDevice : option Handle;
  frameArrivedToken : Z
}.

Record CaptureManager := {
  m_device : option Handle;
  m_context : option Handle;
  m_captures : list MonitorCapture;
  m_monitors : list MonitorInfo;
  m_frameCallback : option Callback;
  m_running : bool
}.

Definition new_manager : CaptureManager :=
  {| m_device := None; m_context := None; m_captures := []; m_monitors := [];
     m_frameCallback := None; m_running := false |}.

(** A display as [EnumDisplayMonitors] reports it to [MonitorEnumProc]. *)
Record Display := {
  d_monitor : HMONITOR;
  d_rect : RECT;
  d_info : option bool;          (* GetMonitorInfoW: the primary flag, or failure *)
  d_dpi : option Z               (* GetDpiForMonitor: dpiX, or failure *)
}.

(** The step of [CreateCaptureForMonitor] that fails, if any. *)
Inductive Fault :=
| NoFault
| CreateWinRTDevice_null
| CreateForMonitor_fails
| CreateFreeThreaded_null
| CreateFreeThreaded_throws
| CreateCaptureSession_throws
| IsCursorCaptureEnabled_throws
| StartCapture_throws.

Scheme Equality for Fault.

Definition no_fault (f : Fault) : bool :=
  match f with NoFault => true | _ => false end.

Record Env := {
  graphics_capture_available : bool;     (* IsGraphicsCaptureAvailable() *)
  displays : list Display;
  fault : HMONITOR -> Fault;
  border_supported : HMONITOR -> bool    (* IsBorderRequired(false) does not throw *)
}.

(** What [TryGetNextFrame] and the accessors give [OnFrameArrived]. *)
Inductive Arrival :=
| TryGetNextFrame_throws
| TryGetNextFrame_null
| Surface_null
| Texture_null
| Texture (texture : Handle).

Inductive Event :=
| EvSubscribe (pool : Handle) (token : Z)        (* framePool.FrameArrived(handler) *)
| EvRevoke (pool : Handle) (token : Z)           (* framePool.FrameArrived(token) *)
| EvCreateSession (pool s : Handle)
| EvCursorCapture (s : Handle) (enabled : bool)
| EvBorderRequired (s : Handle) (required : bool)
| EvStartCapture (s : Handle)
| EvSessionClose (s : Handle)
| EvPoolClose (pool : Handle)
| EvAddRef (texture : Handle)
| EvFrameCallback (cb : Callback) (texture : Handle)
| EvRelease (texture : Handle).

Definition set_captures (cs : list MonitorCapture) (t : CaptureManager) :=
  {| m_device := m_device t; m_context := m_context t; m_captures := cs;
     m_monitors := m_monitors t; m_frameCallback := m_frameCallback t;
     m_running := m_running t |}.

Definition set_running (b : bool) (t : CaptureManager) :=
  {| m_device := m_device t; m_context := m_context t;
     m_captures := m_captures t; m_monitors := m_monitors t;
     m_frameCallback := m_frameCallback t; m_running := b |}.

Definition set_monitors (ms : list MonitorInfo) (t : CaptureManager) :=
  {| m_device := m_device t; m_context := m_context t;
     m_captures := m_captures t; m_monitors := ms;
     m_frameCallback := m_frameCallback t; m_running := m_running t |}.

(** [MonitorEnumProc]: a display whose [GetMonitorInfoW] fails is skipped;
    the DPI defaults to 96. *)
Definition MonitorEnumProc (d : Display) (ms : list MonitorInfo)
  : list MonitorInfo :=
  match d_info d with
  | None => ms
  | Some primary =>
      ms ++ [{| handle := d_monitor d; bounds := d_rect d;
                isPrimary := primary;
                dpi := match d_dpi d with Some v => v | None => 96 end |}]
  end.

Definition EnumerateMonitors (env : Env) (this : CaptureManager)
  : CaptureManager :=
  set_monitors (fold_left (fun ms d => MonitorEnumProc d ms) (displays env) [])
    this.

Definition Initialize (env : Env) (device : option Handle)
    (this : CaptureManager) : M Event (bool * CaptureManager) :=
  match device with
  | None => ret (false, this)
  | Some _ =>
    ctx <- fresh ;;
    let this :=
      {| m_device := device; m_context := Some ctx;
         m_captures := m_captures this; m_monitors := m_monitors this;
         m_frameCallback := m_frameCallback this;
         m_running := m_running this |} in
    ret (true, EnumerateMonitors env this)
  end.

(** [CreateCaptureForMonitor]: every failure, returned or thrown and
    caught, leaves [m_captures] as it was; the local [capture] and what it
    holds go out of scope. *)
Definition CreateCaptureForMonitor (env : Env) (mon : HMONITOR)
    (this : CaptureManager) : M Event (bool * CaptureManager) :=
  let fails := Fault_beq (fault env mon) in
  (* Create WinRT device *)
  if fails CreateWinRTDevice_null then ret (false, this) else
  dev <- fresh ;;
  (* Create capture item for monitor *)
  if fails CreateForMonitor_fails then ret (false, this) else
  it <- fresh ;;
  (* Create frame pool *)
  if fails CreateFreeThreaded_null || fails CreateFreeThreaded_throws
  then ret (false, this) else
  pool <- fresh ;;
  (* Subscribe to frame arrived *)
  tok <- fresh ;;
  let token := Z.of_nat (S tok) in
  emit (EvSubscribe pool token) ;;;
  (* Create session *)
  if fails CreateCaptureSession_throws then ret (false, this) else
  s <- fresh ;;
  emit (EvCreateSession pool s) ;;;
  (* Disable cursor capture *)
  if fails IsCursorCaptureEnabled_throws then ret (false, this) else
  emit (EvCursorCapture s false) ;;;
  (* Disable border; ignored where it is not available *)
  (if border_supported env mon
   then emit (EvBorderRequired s false) else ret tt) ;;;
  (* Start capture *)
  if fails StartCapture_throws then ret (false, this) else
  emit (EvStartCapture s) ;;;
  let capture :=
    {| monitor := mon; item := Some it; framePool := Some pool;
       session := Some s; winrtDevice := Some dev;
       frameArrivedToken := token |} in
  ret (true, set_captures (m_captures this ++ [capture]) this).

(** The loop of [Start] over [m_monitors]. *)
Fixpoint create_captures (env : Env) (ms : list MonitorInfo)
    (this : CaptureManager) : M Event CaptureManager :=
  match ms with
  | [] => ret this
  | m :: ms' =>
      r <- CreateCaptureForMonitor env (handle m) this ;;
      (* on failure: continue with other monitors *)
      create_captures env ms' (snd r)
  end.

Definition is_empty {A} (l : list A) : bool :=
  match l with [] => true | _ => false end.

Definition Start (env : Env) (this : CaptureManager)
  : M Event (bool * CaptureManager) :=
  if m_running this then ret (true, this) else
  if negb (graphics_capture_available env) then ret (false, this) else
  this <- create_captures env (m_monitors this) this ;;
  let this := set_running true this in
  ret (negb (is_empty (m_captures this)), this).

(** The body of the loop of [Stop] for one capture. *)
Definition stop_capture (c : MonitorCapture) : M Event unit :=
  (* Revoke the event handler first (before closing frame pool) *)
  match framePool c with
  | Some pool =>
      if negb (frameArrivedToken c =? 0)
      then emit (EvRevoke pool (frameArrivedToken c)) else ret tt
  | None => ret tt
  end ;;;
  match session c with
  | Some s => emit (EvSessionClose s)
  | None => ret tt
  end ;;;
  match framePool c with
  | Some pool => emit (EvPoolClose pool)
  | None => ret tt
  end.

Fixpoint stop_captures (cs : list MonitorCapture) : M Event unit :=
  match cs with
  | [] => ret tt
  | c :: cs' => stop_capture c ;;; stop_captures cs'
  end.

Definition Stop (this : CaptureManager) : M Event CaptureManager :=
  if negb (m_running this) then ret this else
  stop_captures (m_captures this) ;;;
  ret (set_running false (set_captures [] this)).

Definition Restart (env : Env) (this : CaptureManager) : M Event CaptureManager :=
  this <- Stop this ;;
  (* Re-enumerate monitors (may have changed) *)
  let this := EnumerateMonitors env this in
  r <- Start env this ;;
  ret (snd r).

Definition SetFrameCallback (callback : option Callback) (this : CaptureManager)
  : CaptureManager :=
  {| m_device := m_device this; m_context := m_context this;
     m_captures := m_captures this; m_monitors := m_monitors this;
     m_frameCallback := callback; m_running := m_running this |}.

Definition OnDisplayChange (env : Env) (this : CaptureManager)
  : M Event CaptureManager :=
  Restart env this.

Definition IsRunning (this : CaptureManager) : bool := m_running this.

(** [OnFrameArrived]: the handler every frame pool calls.  The manager's
    state is not changed. *)
Definition OnFrameArrived (arrival : Arrival) (this : CaptureManager)
  : M Event unit :=
  if negb (m_running this) then ret tt else
  match arrival with
  | Texture texture =>
      (* AddRef to ensure texture lifetime during callback *)
      emit (EvAddRef texture) ;;;
      match m_frameCallback this with
      | Some cb => emit (EvFrameCallback cb texture)
      | None => ret tt
      end ;;;
      emit (EvRelease texture)
  | _ => ret tt
  end.

(** Frame-arrived events delivered one after the other. *)
Fixpoint deliver (arrivals : list Arrival) (this : CaptureManager)
  : M Event unit :=
  match arrivals with
  | [] => ret tt
  | a :: rest => OnFrameArrived a this ;;; deliver rest this
  end.

Definition is_callback (e : Event) : bool :=
  match e with EvFrameCallback _ _ => true | _ => false end.

(** The calls [Stop] makes for a capture that holds a pool, a token and a
    session, in the order it makes them. *)
Definition teardown (c : MonitorCapture) (pool s : Handle) : list Event :=
  [EvRevoke pool (frameArrivedToken c); EvSessionClose s; EvPoolClose pool].

(** The operations a client (or the platform, for a frame) can apply to a
    manager. *)
Inductive Op :=
| OpInitialize (device : option Handle)
| OpStart
| OpStop
| OpRestart
| OpSetFrameCallback (callback : option Callback)
| OpOnDisplayChange
| OpOnFrameArrived (arrival : Arrival).

Definition apply_op (env : Env) (op : Op) (this : CaptureManager)
  : M Event CaptureManager :=
  match op with
  | OpInitialize device => r <- Initialize env device this ;; ret (snd r)
  | OpStart => r <- Start env this ;; ret (snd r)
  | OpStop => Stop this
  | OpRestart => Restart env this
  | OpSetFrameCallback cb => ret (SetFrameCallback cb this)
  | OpOnDisplayChange => OnDisplayChange env this
  | OpOnFrameArrived a => OnFrameArrived a this ;;; ret this
  end.

(** The managers reachable from a freshly constructed one; the environment
    may differ from call to call. *)
Inductive reachable : CaptureManager -> Prop :=
| reachable_new : reachable new_manager
| reachable_step (env : Env) (op : Op) (this : CaptureManager) (n : Handle) :
    reachable this -> reachable (value (apply_op env op this n)).

(** The invariant of the reachable states: a manager that is not running
    holds no capture. *)
Definition idle_is_empty (this : CaptureManager) : Prop :=
  m_running this = false -> m_captures this = [].

(** *** Scenarios *)

Definition rect0 : RECT := {| left := 0; top := 0; right := 1920; bottom := 1080 |}.

Definition display (h : HMONITOR) : Display :=
  {| d_monitor := h; d_rect := rect0; d_info := Some (h =? 1);
     d_dpi := Some 96 |}.

(** Three monitors; session creation fails on the second. *)
Definition env_second_fails : Env :=
  {| graphics_capture_available := true;
     displays := [display 1; display 2; display 3];
     fault := fun h => if h =? 2 then CreateForMonitor_fails else NoFault;
     border_supported := fun _ => true |}.

(** One monitor; session creation fails. *)
Definition env_all_fail : Env :=
  {| graphics_capture_available := true;
     displays := [display 1];
     fault := fun _ => StartCapture_throws;
     border_supported := fun _ => true |}.

(** One monitor; everything works. *)
Definition env_fine : Env :=
  {| graphics_capture_available := true;
     displays := [display 1];
     fault := fun _ => NoFault;
     border_supported := fun _ => true |}.

Definition run_init (env : Env) :=
  Initialize env (Some 0%nat) (SetFrameCallback (Some 7%nat) new_manager) 1%nat.

(** Initialised on three monitors, then started. *)
Definition run_start_three :=
  Start env_second_fails (snd (value (run_init env_second_fails)))
    (snd (fst (run_init env_second_fails))).
Definition manager_three : CaptureManager := snd (value run_start_three).

(** Initialised, then a [Start] whose only session fails. *)
Definition run_failed_start :=
  Start env_all_fail (snd (value (run_init env_all_fail)))
    (snd (fst (run_init env_all_fail))).
Definition manager_failed_start : CaptureManager := snd (value run_failed_start).

(** The next [Start], in an environment where the session would succeed. *)
Definition run_second_start :=
  Start env_fine manager_failed_start (snd (fst run_failed_start)).

(** *** Further readings of states and traces *)

(** [GetMonitorInfoW] succeeds on the display. *)
Definition has_info (d : Display) : bool := is_object (d_info d).

(** The DPI [MonitorEnumProc] records for the display. *)
Definition effective_dpi (d : Display) : Z :=
  match d_dpi d with Some v => v | None => 96 end.

(** A capture with everything [CreateCaptureForMonitor] puts into one:
    item, frame pool, session, device and a live handler token. *)
Definition complete (c : MonitorCapture) : bool :=
  is_object (item c) && is_object (framePool c) && is_object (session c) &&
  is_object (winrtDevice c) && negb (frameArrivedToken c =? 0).

(** The sessions and the handler registrations a list of captures holds. *)
Definition sessions (cs : list MonitorCapture) : list Handle :=
  flat_map (fun c => match session c with Some s => [s] | None => [] end) cs.

Definition registrations (cs : list MonitorCapture) : list (Handle * Z) :=
  flat_map (fun c => match framePool c with
                     | Some pool => [(pool, frameArrivedToken c)]
                     | None => []
                     end) cs.

(** The sessions a trace starts and closes, the handlers it registers and
    revokes, the pools it closes, in order. *)
Fixpoint started (tr : list Event) : list Handle :=
  match tr with
  | [] => []
  | EvStartCapture s :: tr' => s :: started tr'
  | _ :: tr' => started tr'
  end.

Fixpoint closed (tr : list Event) : list Handle :=
  match tr with
  | [] => []
  | EvSessionClose s :: tr' => s :: closed tr'
  | _ :: tr' => closed tr'
  end.

Fixpoint subscribed (tr : list Event) : list (Handle * Z) :=
  match tr with
  | [] => []
  | EvSubscribe pool token :: tr' => (pool, token) :: subscribed tr'
  | _ :: tr' => subscribed tr'
  end.

Fixpoint revoked (tr : list Event) : list (Handle * Z) :=
  match tr with
  | [] => []
  | EvRevoke pool token :: tr' => (pool, token) :: revoked tr'
  | _ :: tr' => revoked tr'
  end.

Fixpoint pools_closed (tr : list Event) : list Handle :=
  match tr with
  | [] => []
  | EvPoolClose pool :: tr' => pool :: pools_closed tr'
  | _ :: tr' => pools_closed tr'
  end.

(** The calls that build a capture. *)
Definition is_creation (e : Event) : bool :=
  match e with
  | EvSubscribe _ _ | EvCreateSession _ _ | EvCursorCapture _ _
  | EvBorderRequired _ _ | EvStartCapture _ => true
  | _ => false
  end.

(** The calls that take a capture down. *)
Definition is_teardown (e : Event) : bool :=
  match e with
  | EvRevoke _ _ | EvSessionClose _ | EvPoolClose _ => true
  | _ => false
  end.

(** The monitors whose session can be created. *)
Definition capturable (env : Env) (hs : list HMONITOR) : list HMONITOR :=
  filter (fun h => no_fault (fault env h)) hs.

(** Every capture the manager holds is complete. *)
Definition all_complete (this : CaptureManager) : Prop :=
  forallb complete (m_captures this) = true.

End CaptureManager.


(** ** OverlayWindow (src/overlay/OverlayWindow.h, OverlayWindow.cpp)

    The members [m_shadersPath], [m_vertexShader], [m_pixelShader],
    [m_allowTearing], [m_deviceLost] and [m_deviceLostCallback] are used by
    OverlayWindow.cpp and declared in a revision of the header that is not
    in the tree; their types are read off their uses.  Window coordinates
    are integers without wrap-around. *)

Module OverlayWindow.

Definition Callback := nat.

(** The device-dependent members [RecoverFromDeviceLost] resets. *)
Inductive Resource :=
| renderTarget | swapChain | vertexBuffer | indexBuffer | inputLayout
| sampler | blendState | context | device.

(** The platform calls whose [HRESULT] the source tests. *)
Inductive Call :=
| D3D11CreateDevice
| CheckFeatureSupport
| CreateSwapChainForComposition
| CreateSwapChainForHwnd
| GetBuffer
| CreateRenderTargetView
| CreateBuffer_vertex
| CreateBuffer_index
| CreateSamplerState
| CreateBlendState
| CreateVertexShader
| CreateInputLayout
| CreatePixelShader
| CreateShaderResourceView
| SwapChain_Present
| ResizeBuffers.

Inductive Metric :=
| SM_XVIRTUALSCREEN | SM_YVIRTUALSCREEN | SM_CXVIRTUALSCREEN | SM_CYVIRTUALSCREEN.

Record Env := {
  hr : Call -> HRESULT;
  GetSystemMetrics : Metric -> Z;
  RegisterClassExW : bool;        (* the class atom is not 0 *)
  CreateWindowExW : bool;         (* a window handle is returned *)
  dxgiFactory5 : bool;            (* GetParent gives an IDXGIFactory5 *)
  tearingSupport : bool;
  vs_file_opens : bool;           (* fullscreen_vs.cso *)
  ps_file_opens : bool            (* passthrough.cso *)
}.

Inductive ShowCmd := SW_HIDE | SW_SHOWNOACTIVATE.

Inductive Event :=
| EvCreateWindow (x y cx cy : Z)
| EvExcludeFromCapture
| EvShowWindow (cmd : ShowCmd)
| EvSetWindowPos (x y cx cy : Z)
| EvDraw (texture : Handle)
| EvPresent (syncInterval : Z) (allowTearing : bool)
| EvGetDeviceRemovedReason
| EvReset (r : Resource)
| EvSleep (ms : Z)
| EvD3D11CreateDevice (ok : bool)
| EvCreateSwapChain (width height : Z) (allowTearing : bool)
| EvResizeBuffers (count width height : Z) (allowTearing : bool)
| EvDeviceLostCallback (cb : Callback).

Record OverlayWindow := {
  m_hInstance : option Handle;
  m_hwnd : option Handle;
  m_visible : bool;
  m_bounds : RECT;
  m_shadersPath : string;
  m_device : option Handle;
  m_context : option Handle;
  m_swapChain : option Handle;
  m_renderTarget : option Handle;
  m_vertexBuffer : option Handle;
  m_indexBuffer : option Handle;
  m_inputLayout : option Handle;
  m_sampler : option Handle;
  m_blendState : option Handle;
  m_vertexShader : option Handle;
  m_pixelShader : option Handle;
  m_allowTearing : bool;
  m_deviceLost : bool;
  m_deviceLostCallback : option Callback
}.

(** The default-constructed window. *)
Definition new_overlay : OverlayWindow :=
  {| m_hInstance := None; m_hwnd := None; m_visible := false;
     m_bounds := {| left := 0; top := 0; right := 0; bottom := 0 |};
     m_shadersPath := EmptyString; m_device := None; m_context := None;
     m_swapChain := None; m_renderTarget := None; m_vertexBuffer := None;
     m_indexBuffer := None; m_inputLayout := None; m_sampler := None;
     m_blendState := None; m_vertexShader := None; m_pixelShader := None;
     m_allowTearing := false; m_deviceLost := false;
     m_deviceLostCallback := None |}.

(** Field updates. *)
Definition set_hwnd (v : option Handle) (t : OverlayWindow) : OverlayWindow :=
  {| m_hInstance := m_hInstance t; m_hwnd := v; m_visible := m_visible t;
     m_bounds := m_bounds t; m_shadersPath := m_shadersPath t;
     m_device := m_device t; m_context := m_context t;
     m_swapChain := m_swapChain t; m_renderTarget := m_renderTarget t;
     m_vertexBuffer := m_vertexBuffer t; m_indexBuffer := m_indexBuffer t;
     m_inputLayout := m_inputLayout t; m_sampler := m_sampler t;
     m_blendState := m_blendState t; m_vertexShader := m_vertexShader t;
     m_pixelShader := m_pixelShader t; m_allowTearing := m_allowTearing t;
     m_deviceLost := m_deviceLost t;
     m_deviceLostCallback := m_deviceLostCallback t |}.

Definition set_visible (v : bool) (t : OverlayWindow) : OverlayWindow :=
  {| m_hInstance := m_hInstance t; m_hwnd := m_hwnd t; m_visible := v;
     m_bounds := m_bounds t; m_shadersPath := m_shadersPath t;
     m_device := m_device t; m_context := m_context t;
     m_swapChain := m_swapChain t; m_renderTarget := m_renderTarget t;
     m_vertexBuffer := m_vertexBuffer t; m_indexBuffer := m_indexBuffer t;
     m_inputLayout := m_inputLayout t; m_sampler := m_sampler t;
     m_blendState := m_blendState t; m_vertexShader := m_vertexShader t;
     m_pixelShader := m_pixelShader t; m_allowTearing := m_allowTearing t;
     m_deviceLost := m_deviceLost t;
     m_deviceLostCallback := m_deviceLostCallback t |}.

Definition set_bounds (v : RECT) (t : OverlayWindow) : OverlayWindow :=
  {| m_hInstance := m_hInstance t; m_hwnd := m_hwnd t;
     m_visible := m_visible t; m_bounds := v;
     m_shadersPath := m_shadersPath t; m_device := m_device t;
     m_context := m_context t; m_swapChain := m_swapChain t;
     m_renderTarget := m_renderTarget t; m_vertexBuffer := m_vertexBuffer t;
     m_indexBuffer := m_indexBuffer t; m_inputLayout := m_inputLayout t;
     m_sampler := m_sampler t; m_blendState := m_blendState t;
     m_vertexShader := m_vertexShader t; m_pixelShader := m_pixelShader t;
     m_allowTearing := m_allowTearing t; m_deviceLost := m_deviceLost t;
     m_deviceLostCallback := m_deviceLostCallback t |}.

Definition set_device (v : option Handle) (t : OverlayWindow) : OverlayWindow :=
  {| m_hInstance := m_hInstance t; m_hwnd := m_hwnd t;
     m_visible := m_visible t; m_bounds := m_bounds t;
     m_shadersPath := m_shadersPath t; m_device := v;
     m_context := m_context t; m_swapChain := m_swapChain t;
     m_renderTarget := m_renderTarget t; m_vertexBuffer := m_vertexBuffer t;
     m_indexBuffer := m_indexBuffer t; m_inputLayout := m_inputLayout t;
     m_sampler := m_sampler t; m_blendState := m_blendState t;
     m_vertexShader := m_vertexShader t; m_pixelShader := m_pixelShader t;
     m_allowTearing := m_allowTearing t; m_deviceLost := m_deviceLost t;
     m_deviceLostCallback := m_deviceLostCallback t |}.

Definition set_context (v : option Handle) (t : OverlayWindow) : OverlayWindow :=
  {| m_hInstance := m_hInstance t; m_hwnd := m_hwnd t;
     m_visible := m_visible t; m_bounds := m_bounds t;
     m_shadersPath := m_shadersPath t; m_device := m_device t;
     m_context := v; m_swapChain := m_swapChain t;
     m_renderTarget := m_renderTarget t; m_vertexBuffer := m_vertexBuffer t;
     m_indexBuffer := m_indexBuffer t; m_inputLayout := m_inputLayout t;
     m_sampler := m_sampler t; m_blendState := m_blendState t;
     m_vertexShader := m_vertexShader t; m_pixelShader := m_pixelShader t;
     m_allowTearing := m_allowTearing t; m_deviceLost := m_deviceLost t;
     m_deviceLostCallback := m_deviceLostCallback t |}.

Definition set_swapChain (v : option Handle) (t : OverlayWindow) : OverlayWindow :=
  {| m_hInstance := m_hInstance t; m_hwnd := m_hwnd t;
     m_visible := m_visible t; m_bounds := m_bounds t;
     m_shadersPath := m_shadersPath t; m_device := m_device t;
     m_context := m_context t; m_swapChain := v;
     m_renderTarget := m_renderTarget t; m_vertexBuffer := m_vertexBuffer t;
     m_indexBuffer := m_indexBuffer t; m_inputLayout := m_inputLayout t;
     m_sampler := m_sampler t; m_blendState := m_blendState t;
     m_vertexShader := m_vertexShader t; m_pixelShader := m_pixelShader t;
     m_allowTearing := m_allowTearing t; m_deviceLost := m_deviceLost t;
     m_deviceLostCallback := m_deviceLostCallback t |}.

Definition set_renderTarget (v : option Handle) (t : OverlayWindow) : OverlayWindow :=
  {| m_hInstance := m_hInstance t; m_hwnd := m_hwnd t;
     m_visible := m_visible t; m_bounds := m_bounds t;
     m_shadersPath := m_shadersPath t; m_device := m_device t;
     m_context := m_context t; m_swapChain := m_swapChain t;
     m_renderTarget := v; m_vertexBuffer := m_vertexBuffer t;
     m_indexBuffer := m_indexBuffer t; m_inputLayout := m_inputLayout t;
     m_sampler := m_sampler t; m_blendState := m_blendState t;
     m_vertexShader := m_vertexShader t; m_pixelShader := m_pixelShader t;
     m_allowTearing := m_allowTearing t; m_deviceLost := m_deviceLost t;
     m_deviceLostCallback := m_deviceLostCallback t |}.

Definition set_vertexBuffer (v : option Handle) (t : OverlayWindow) : OverlayWindow :=
  {| m_hInstance := m_hInstance t; m_hwnd := m_hwnd t;
     m_visible := m_visible t; m_bounds := m_bounds t;
     m_shadersPath := m_shadersPath t; m_device := m_device t;
     m_context := m_context t; m_swapChain := m_swapChain t;
     m_renderTarget := m_renderTarget t; m_vertexBuffer := v;
     m_indexBuffer := m_indexBuffer t; m_inputLayout := m_inputLayout t;
     m_sampler := m_sampler t; m_blendState := m_blendState t;
     m_vertexShader := m_vertexShader t; m_pixelShader := m_pixelShader t;
     m_allowTearing := m_allowTearing t; m_deviceLost := m_deviceLost t;
     m_deviceLostCallback := m_deviceLostCallback t |}.

Definition set_indexBuffer (v : option Handle) (t : OverlayWindow) : OverlayWindow :=
  {| m_hInstance := m_hInstance t; m_hwnd := m_hwnd t;
     m_visible := m_visible t; m_bounds := m_bounds t;
     m_shadersPath := m_shadersPath t; m_device := m_device t;
     m_context := m_context t; m_swapChain := m_swapChain t;
     m_renderTarget := m_renderTarget t; m_vertexBuffer := m_vertexBuffer t;
     m_indexBuffer := v; m_inputLayout := m_inputLayout t;
     m_sampler := m_sampler t; m_blendState := m_blendState t;
     m_vertexShader := m_vertexShader t; m_pixelShader := m_pixelShader t;
     m_allowTearing := m_allowTearing t; m_deviceLost := m_deviceLost t;
     m_deviceLostCallback := m_deviceLostCallback t |}.

Definition set_inputLayout (v : option Handle) (t : OverlayWindow) : OverlayWindow :=
  {| m_hInstance := m_hInstance t; m_hwnd := m_hwnd t;
     m_visible := m_visible t; m_bounds := m_bounds t;
     m_shadersPath := m_shadersPath t; m_device := m_device t;
     m_context := m_context t; m_swapChain := m_swapChain t;
     m_renderTarget := m_renderTarget t; m_vertexBuffer := m_vertexBuffer t;
     m_indexBuffer := m_indexBuffer t; m_inputLayout := v;
     m_sampler := m_sampler t; m_blendState := m_blendState t;
     m_vertexShader := m_vertexShader t; m_pixelShader := m_pixelShader t;
     m_allowTearing := m_allowTearing t; m_deviceLost := m_deviceLost t;
     m_deviceLostCallback := m_deviceLostCallback t |}.

Definition set_sampler (v : option Handle) (t : OverlayWindow) : OverlayWindow :=
  {| m_hInstance := m_hInstance t; m_hwnd := m_hwnd t;
     m_visible := m_visible t; m_bounds := m_bounds t;
     m_shadersPath := m_shadersPath t; m_device := m_device t;
     m_context := m_context t; m_swapChain := m_swapChain t;
     m_renderTarget := m_renderTarget t; m_vertexBuffer := m_vertexBuffer t;
     m_indexBuffer := m_indexBuffer t; m_inputLayout := m_inputLayout t;
     m_sampler := v; m_blendState := m_blendState t;
     m_vertexShader := m_vertexShader t; m_pixelShader := m_pixelShader t;
     m_allowTearing := m_allowTearing t; m_deviceLost := m_deviceLost t;
     m_deviceLostCallback := m_deviceLostCallback t |}.

Definition set_blendState (v : option Handle) (t : OverlayWindow) : OverlayWindow :=
  {| m_hInstance := m_hInstance t; m_hwnd := m_hwnd t;
     m_visible := m_visible t; m_bounds := m_bounds t;
     m_shadersPath := m_shadersPath t; m_device := m_device t;
     m_context := m_context t; m_swapChain := m_swapChain t;
     m_renderTarget := m_renderTarget t; m_vertexBuffer := m_vertexBuffer t;
     m_indexBuffer := m_indexBuffer t; m_inputLayout := m_inputLayout t;
     m_sampler := m_sampler t; m_blendState := v;
     m_vertexShader := m_vertexShader t; m_pixelShader := m_pixelShader t;
     m_allowTearing := m_allowTearing t; m_deviceLost := m_deviceLost t;
     m_deviceLostCallback := m_deviceLostCallback t |}.

Definition set_vertexShader (v : option Handle) (t : OverlayWindow) : OverlayWindow :=
  {| m_hInstance := m_hInstance t; m_hwnd := m_hwnd t;
     m_visible := m_visible t; m_bounds := m_bounds t;
     m_shadersPath := m_shadersPath t; m_device := m_device t;
     m_context := m_context t; m_swapChain := m_swapChain t;
     m_renderTarget := m_renderTarget t; m_vertexBuffer := m_vertexBuffer t;
     m_indexBuffer := m_indexBuffer t; m_inputLayout := m_inputLayout t;
     m_sampler := m_sampler t; m_blendState := m_blendState t;
     m_vertexShader := v; m_pixelShader := m_pixelShader t;
     m_allowTearing := m_allowTearing t; m_deviceLost := m_deviceLost t;
     m_deviceLostCallback := m_deviceLostCallback t |}.

Definition set_pixelShader (v : option Handle) (t : OverlayWindow) : OverlayWindow :=
  {| m_hInstance := m_hInstance t; m_hwnd := m_hwnd t;
     m_visible := m_visible t; m_bounds := m_bounds t;
     m_shadersPath := m_shadersPath t; m_device := m_device t;
     m_context := m_context t; m_swapChain := m_swapChain t;
     m_renderTarget := m_renderTarget t; m_vertexBuffer := m_vertexBuffer t;
     m_indexBuffer := m_indexBuffer t; m_inputLayout := m_inputLayout t;
     m_sampler := m_sampler t; m_blendState := m_blendState t;
     m_vertexShader := m_vertexShader t; m_pixelShader := v;
     m_allowTearing := m_allowTearing t; m_deviceLost := m_deviceLost t;
     m_deviceLostCallback := m_deviceLostCallback t |}.

Definition set_allowTearing (v : bool) (t : OverlayWindow) : OverlayWindow :=
  {| m_hInstance := m_hInstance t; m_hwnd := m_hwnd t;
     m_visible := m_visible t; m_bounds := m_bounds t;
     m_shadersPath := m_shadersPath t; m_device := m_device t;
     m_context := m_context t; m_swapChain := m_swapChain t;
     m_renderTarget := m_renderTarget t; m_vertexBuffer := m_vertexBuffer t;
     m_indexBuffer := m_indexBuffer t; m_inputLayout := m_inputLayout t;
     m_sampler := m_sampler t; m_blendState := m_blendState t;
     m_vertexShader := m_vertexShader t; m_pixelShader := m_pixelShader t;
     m_allowTearing := v; m_deviceLost := m_deviceLost t;
     m_deviceLostCallback := m_deviceLostCallback t |}.

Definition set_deviceLost (v : bool) (t : OverlayWindow) : OverlayWindow :=
  {| m_hInstance := m_hInstance t; m_hwnd := m_hwnd t;
     m_visible := m_visible t; m_bounds := m_bounds t;
     m_shadersPath := m_shadersPath t; m_device := m_device t;
     m_context := m_context t; m_swapChain := m_swapChain t;
     m_renderTarget := m_renderTarget t; m_vertexBuffer := m_vertexBuffer t;
     m_indexBuffer := m_indexBuffer t; m_inputLayout := m_inputLayout t;
     m_sampler := m_sampler t; m_blendState := m_blendState t;
     m_vertexShader := m_vertexShader t; m_pixelShader := m_pixelShader t;
     m_allowTearing := m_allowTearing t; m_deviceLost := v;
     m_deviceLostCallback := m_deviceLostCallback t |}.

Definition set_deviceLostCallback (v : option Callback) (t : OverlayWindow) : OverlayWindow :=
  {| m_hInstance := m_hInstance t; m_hwnd := m_hwnd t;
     m_visible := m_visible t; m_bounds := m_bounds t;
     m_shadersPath := m_shadersPath t; m_device := m_device t;
     m_context := m_context t; m_swapChain := m_swapChain t;
     m_renderTarget := m_renderTarget t; m_vertexBuffer := m_vertexBuffer t;
     m_indexBuffer := m_indexBuffer t; m_inputLayout := m_inputLayout t;
     m_sampler := m_sampler t; m_blendState := m_blendState t;
     m_vertexShader := m_vertexShader t; m_pixelShader := m_pixelShader t;
     m_allowTearing := m_allowTearing t; m_deviceLost := m_deviceLost t;
     m_deviceLostCallback := v |}.

Definition set_instance (h : option Handle) (path : string) (t : OverlayWindow)
  : OverlayWindow :=
  {| m_hInstance := h; m_hwnd := m_hwnd t; m_visible := m_visible t;
     m_bounds := m_bounds t; m_shadersPath := path; m_device := m_device t;
     m_context := m_context t; m_swapChain := m_swapChain t;
     m_renderTarget := m_renderTarget t; m_vertexBuffer := m_vertexBuffer t;
     m_indexBuffer := m_indexBuffer t; m_inputLayout := m_inputLayout t;
     m_sampler := m_sampler t; m_blendState := m_blendState t;
     m_vertexShader := m_vertexShader t; m_pixelShader := m_pixelShader t;
     m_allowTearing := m_allowTearing t; m_deviceLost := m_deviceLost t;
     m_deviceLostCallback := m_deviceLostCallback t |}.

(** *** Show and hide (OverlayWindow.cpp:75-91) *)

Definition Show (this : OverlayWindow) : M Event OverlayWindow :=
  match m_hwnd this with
  | None => ret this
  | Some _ =>
    if m_visible this then ret this else
    emit (EvShowWindow SW_SHOWNOACTIVATE) ;;;
    ret (set_visible true this)
  end.

Definition Hide (this : OverlayWindow) : M Event OverlayWindow :=
  match m_hwnd this with
  | None => ret this
  | Some _ =>
    if negb (m_visible this) then ret this else
    emit (EvShowWindow SW_HIDE) ;;;
    ret (set_visible false this)
  end.

(** *** Device and render resources (OverlayWindow.cpp:307-549) *)

Definition CalculateBounds (env : Env) (this : OverlayWindow) : OverlayWindow :=
  let l := GetSystemMetrics env SM_XVIRTUALSCREEN in
  let t := GetSystemMetrics env SM_YVIRTUALSCREEN in
  set_bounds {| left := l; top := t;
                right := l + GetSystemMetrics env SM_CXVIRTUALSCREEN;
                bottom := t + GetSystemMetrics env SM_CYVIRTUALSCREEN |} this.

Definition InitializeD3D (env : Env) (this : OverlayWindow)
  : M Event (bool * OverlayWindow) :=
  if FAILED (hr env D3D11CreateDevice) then
    emit (EvD3D11CreateDevice false) ;;;
    ret (false, set_context None (set_device None this))
  else
    emit (EvD3D11CreateDevice true) ;;;
    dev <- fresh ;;
    ctx <- fresh ;;
    let this := set_context (Some ctx) (set_device (Some dev) this) in
    (* Check for tearing support *)
    let this :=
      if dxgiFactory5 env then
        set_allowTearing
          (SUCCEEDED (hr env CheckFeatureSupport) && tearingSupport env) this
      else this in
    ret (true, this).

(** The optional shaders at the end of [CreateRenderResources]; a failure
    is logged and ignored. *)
Definition load_overlay_shaders (env : Env) (this : OverlayWindow)
  : M Event OverlayWindow :=
  if String.eqb (m_shadersPath this) EmptyString then ret this else
  this <-
    (if vs_file_opens env then
       this <- (if FAILED (hr env CreateVertexShader)
                then ret (set_vertexShader None this)
                else vs <- fresh ;; ret (set_vertexShader (Some vs) this)) ;;
       (* Recreate input layout with shader bytecode *)
       if FAILED (hr env CreateInputLayout)
       then ret (set_inputLayout None this)
       else il <- fresh ;; ret (set_inputLayout (Some il) this)
     else ret this) ;;
  if ps_file_opens env then
    if FAILED (hr env CreatePixelShader)
    then ret (set_pixelShader None this)
    else ps <- fresh ;; ret (set_pixelShader (Some ps) this)
  else ret this.

Definition CreateRenderResources (env : Env) (this : OverlayWindow)
  : M Event (bool * OverlayWindow) :=
  let width := right (m_bounds this) - left (m_bounds this) in
  let height := bottom (m_bounds this) - top (m_bounds this) in
  emit (EvCreateSwapChain width height (m_allowTearing this)) ;;;
  (* Composition swap chain, else fall back to HWND swap chain *)
  if FAILED (hr env CreateSwapChainForComposition)
     && FAILED (hr env CreateSwapChainForHwnd)
  then ret (false, set_swapChain None this) else
  sc <- fresh ;;
  let this := set_swapChain (Some sc) this in
  if FAILED (hr env GetBuffer) then ret (false, this) else
  if FAILED (hr env CreateRenderTargetView)
  then ret (false, set_renderTarget None this) else
  rt <- fresh ;;
  let this := set_renderTarget (Some rt) this in
  if FAILED (hr env CreateBuffer_vertex)
  then ret (false, set_vertexBuffer None this) else
  vb <- fresh ;;
  let this := set_vertexBuffer (Some vb) this in
  if FAILED (hr env CreateBuffer_index)
  then ret (false, set_indexBuffer None this) else
  ib <- fresh ;;
  let this := set_indexBuffer (Some ib) this in
  if FAILED (hr env CreateSamplerState)
  then ret (false, set_sampler None this) else
  sm <- fresh ;;
  let this := set_sampler (Some sm) this in
  if FAILED (hr env CreateBlendState)
  then ret (false, set_blendState None this) else
  bs <- fresh ;;
  let this := set_blendState (Some bs) this in
  this <- load_overlay_shaders env this ;;
  ret (true, this).

Definition RegisterWindowClass (env : Env) : bool := RegisterClassExW env.

Definition CreateOverlayWindow (env : Env) (this : OverlayWindow)
  : M Event (bool * OverlayWindow) :=
  let b := m_bounds this in
  emit (EvCreateWindow (left b) (top b) (right b - left b) (bottom b - top b)) ;;;
  if negb (CreateWindowExW env) then ret (false, set_hwnd None this) else
  h <- fresh ;;
  (* Exclude from capture to avoid feedback loop *)
  emit EvExcludeFromCapture ;;;
  ret (true, set_hwnd (Some h) this).

Definition Initialize (env : Env) (hInstance : option Handle)
    (shadersPath : string) (this : OverlayWindow)
  : M Event (bool * OverlayWindow) :=
  let this := set_instance hInstance shadersPath this in
  let this := CalculateBounds env this in
  r <- InitializeD3D env this ;;
  let this := snd r in
  if negb (fst r) then ret (false, this) else
  if negb (RegisterWindowClass env) then ret (false, this) else
  r <- CreateOverlayWindow env this ;;
  let this := snd r in
  if negb (fst r) then ret (false, this) else
  r <- CreateRenderResources env this ;;
  let this := snd r in
  if negb (fst r) then ret (false, this) else
  ret (true, this).

(** *** Rendering and presenting (OverlayWindow.cpp:93-224) *)

Definition RenderFrame (env : Env) (texture : option Handle)
    (this : OverlayWindow) : M Event unit :=
  if negb (m_visible this) then ret tt else
  match texture with
  | None => ret tt
  | Some t =>
    if FAILED (hr env CreateShaderResourceView) then ret tt
    else srv <- fresh ;; emit (EvDraw t)
  end.

Definition released : list Resource :=
  [renderTarget; swapChain; vertexBuffer; indexBuffer; inputLayout;
   sampler; blendState; context; device].

Definition release_all (this : OverlayWindow) : OverlayWindow :=
  set_device None (set_context None (set_blendState None (set_sampler None
    (set_inputLayout None (set_indexBuffer None (set_vertexBuffer None
      (set_swapChain None (set_renderTarget None this)))))))).

Fixpoint emit_all (es : list Event) : M Event unit :=
  match es with
  | [] => ret tt
  | e :: es' => emit e ;;; emit_all es'
  end.

Definition RecoverFromDeviceLost (env : Env) (this : OverlayWindow)
  : M Event (bool * OverlayWindow) :=
  (* Release all D3D resources *)
  emit_all (map EvReset released) ;;;
  let this := release_all this in
  (* Wait for GPU to recover *)
  emit (EvSleep 100) ;;;
  (* Reinitialize D3D *)
  r <- InitializeD3D env this ;;
  let this := snd r in
  if negb (fst r) then ret (false, this) else
  (* Recreate render resources *)
  r <- CreateRenderResources env this ;;
  let this := snd r in
  if negb (fst r) then ret (false, this) else
  ret (true, this).

Definition Present (env : Env) (this : OverlayWindow) : M Event OverlayWindow :=
  if negb (m_visible this) then ret this else
  match m_swapChain this with
  | None => ret this
  | Some _ =>
    emit (EvPresent 0 (m_allowTearing this)) ;;;
    let hres := hr env SwapChain_Present in
    if (hres =? DXGI_ERROR_DEVICE_REMOVED) || (hres =? DXGI_ERROR_DEVICE_RESET)
    then
      (* Get detailed removal reason *)
      match m_device this with
      | Some _ => emit EvGetDeviceRemovedReason
      | None => ret tt
      end ;;;
      let this := set_deviceLost true this in
      (* Attempt recovery *)
      r <- RecoverFromDeviceLost env this ;;
      let this := snd r in
      if fst r then
        let this := set_deviceLost false this in
        (* Notify controller to reinitialize dependent resources *)
        match m_deviceLostCallback this with
        | Some cb => emit (EvDeviceLostCallback cb)
        | None => ret tt
        end ;;;
        ret this
      else Hide this
    else ret this
  end.

(** *** Display changes (OverlayWindow.cpp:226-249, 551-594) *)

Definition Resize (env : Env) (this : OverlayWindow) : M Event OverlayWindow :=
  match m_swapChain this with
  | None => ret this
  | Some _ =>
    (* Release old render target *)
    emit (EvReset renderTarget) ;;;
    let this := set_renderTarget None this in
    let width := right (m_bounds this) - left (m_bounds this) in
    let height := bottom (m_bounds this) - top (m_bounds this) in
    (* Validate dimensions *)
    if (width <=? 0) || (height <=? 0) then ret this else
    emit (EvResizeBuffers 3 width height (m_allowTearing this)) ;;;
    if FAILED (hr env ResizeBuffers) then
      (* Hide overlay since we can't render without a valid swap chain *)
      Hide this
    else
    if FAILED (hr env GetBuffer) then Hide this else
    if FAILED (hr env CreateRenderTargetView) then Hide this else
    rt <- fresh ;;
    ret (set_renderTarget (Some rt) this)
  end.

Definition OnDisplayChange (env : Env) (this : OverlayWindow)
  : M Event OverlayWindow :=
  (* Recalculate bounds *)
  let this := CalculateBounds env this in
  (* Resize window *)
  match m_hwnd this with
  | Some _ =>
      let b := m_bounds this in
      emit (EvSetWindowPos (left b) (top b) (right b - left b)
              (bottom b - top b))
  | None => ret tt
  end ;;;
  (* Resize D3D resources *)
  Resize env this.

Definition OnDpiChange (env : Env) (dpi : Z) (this : OverlayWindow)
  : M Event OverlayWindow :=
  (* DPI changes are handled by display change for overlay *)
  OnDisplayChange env this.

(** *** Reading a trace *)

Definition is_device_creation (e : Event) : bool :=
  match e with EvD3D11CreateDevice _ => true | _ => false end.

Definition is_pause (e : Event) : bool :=
  match e with EvSleep _ => true | _ => false end.

Definition is_notification (e : Event) : bool :=
  match e with EvDeviceLostCallback _ => true | _ => false end.

Definition is_hide (e : Event) : bool :=
  match e with EvShowWindow SW_HIDE => true | _ => false end.

(** The callbacks a trace invokes, in order. *)
Fixpoint notifications (tr : list Event) : list Callback :=
  match tr with
  | [] => []
  | EvDeviceLostCallback cb :: tr' => cb :: notifications tr'
  | _ :: tr' => notifications tr'
  end.

(** The number of device recreations a trace attempts. *)
Definition recovery_attempts (tr : list Event) : nat :=
  List.length (filter is_device_creation tr).

(** The trace takes the device-loss path: it pauses for the driver or
    creates a device. *)
Definition treated_as_device_loss (tr : list Event) : bool :=
  existsb (fun e => is_device_creation e || is_pause e) tr.


(** Every render resource can be created on the device. *)
Definition render_resources_succeed (env : Env) : bool :=
  negb (FAILED (hr env CreateSwapChainForComposition)
        && FAILED (hr env CreateSwapChainForHwnd)) &&
  negb (FAILED (hr env GetBuffer)) &&
  negb (FAILED (hr env CreateRenderTargetView)) &&
  negb (FAILED (hr env CreateBuffer_vertex)) &&
  negb (FAILED (hr env CreateBuffer_index)) &&
  negb (FAILED (hr env CreateSamplerState)) &&
  negb (FAILED (hr env CreateBlendState)).


(** The members that are not device objects are the same in both states. *)
Definition window_kept (t t' : OverlayWindow) : Prop :=
  m_hwnd t' = m_hwnd t /\ m_visible t' = m_visible t /\
  m_deviceLost t' = m_deviceLost t /\
  m_deviceLostCallback t' = m_deviceLostCallback t /\
  m_bounds t' = m_bounds t /\ m_shadersPath t' = m_shadersPath t.

(** The swap chain can be resized and its render target recreated. *)
Definition resize_succeeds (env : Env) : bool :=
  negb (FAILED (hr env ResizeBuffers)) &&
  negb (FAILED (hr env GetBuffer)) &&
  negb (FAILED (hr env CreateRenderTargetView)).

(** The device objects an overlay needs to draw and present. *)
Definition usable (t : OverlayWindow) : Prop :=
  m_device t <> None /\ m_context t <> None /\ m_swapChain t <> None /\
  m_renderTarget t <> None /\ m_vertexBuffer t <> None /\
  m_indexBuffer t <> None /\ m_sampler t <> None /\ m_blendState t <> None.

(** *** Scenarios *)

Definition desktop (m : Metric) : Z :=
  match m with
  | SM_XVIRTUALSCREEN => 0
  | SM_YVIRTUALSCREEN => 0
  | SM_CXVIRTUALSCREEN => 3840
  | SM_CYVIRTUALSCREEN => 1080
  end.

(** Everything works; the next [Present] reports [present]. *)
Definition env_present (present : HRESULT) : Env :=
  {| hr := fun c => match c with SwapChain_Present => present | _ => S_OK end;
     GetSystemMetrics := desktop;
     RegisterClassExW := true; CreateWindowExW := true;
     dxgiFactory5 := true; tearingSupport := true;
     vs_file_opens := true; ps_file_opens := true |}.

(** The device is removed and cannot be created again. *)
Definition env_removed_for_good : Env :=
  {| hr := fun c => match c with
                    | SwapChain_Present => DXGI_ERROR_DEVICE_REMOVED
                    | D3D11CreateDevice => E_FAIL
                    | _ => S_OK
                    end;
     GetSystemMetrics := desktop;
     RegisterClassExW := true; CreateWindowExW := true;
     dxgiFactory5 := true; tearingSupport := true;
     vs_file_opens := true; ps_file_opens := true |}.

(** The swap chain refuses to resize. *)
Definition env_resize_fails : Env :=
  {| hr := fun c => match c with ResizeBuffers => E_FAIL | _ => S_OK end;
     GetSystemMetrics := desktop;
     RegisterClassExW := true; CreateWindowExW := true;
     dxgiFactory5 := true; tearingSupport := true;
     vs_file_opens := true; ps_file_opens := true |}.

(** An overlay that is initialised, has a device-lost callback and is
    shown. *)
Definition run_overlay_init :=
  Initialize (env_present S_OK) (Some 0%nat) "shaders" new_overlay 1%nat.
Definition run_overlay_show :=
  Show (set_deviceLostCallback (Some 5%nat) (snd (value run_overlay_init)))
    (snd (fst run_overlay_init)).
Definition overlay_shown : OverlayWindow := value run_overlay_show.
Definition next_handle : Handle := snd (fst run_overlay_show).

(** *** Further readings of states and traces *)

(** The rectangle of the virtual screen, as [CalculateBounds] reads it. *)
Definition virtual_screen (env : Env) : RECT :=
  {| left := GetSystemMetrics env SM_XVIRTUALSCREEN;
     top := GetSystemMetrics env SM_YVIRTUALSCREEN;
     right := GetSystemMetrics env SM_XVIRTUALSCREEN
              + GetSystemMetrics env SM_CXVIRTUALSCREEN;
     bottom := GetSystemMetrics env SM_YVIRTUALSCREEN
               + GetSystemMetrics env SM_CYVIRTUALSCREEN |}.

(** The device, the window class, the window and every render resource
    can be created. *)
Definition initialization_succeeds (env : Env) : bool :=
  negb (FAILED (hr env D3D11CreateDevice)) && RegisterClassExW env &&
  CreateWindowExW env && render_resources_succeed env.

(** A sequence of [Show] and [Hide] calls. *)
Inductive VisibilityCall := CallShow | CallHide.

Definition shows (c : VisibilityCall) : bool :=
  match c with CallShow => true | CallHide => false end.

Fixpoint run_visibility (cs : list VisibilityCall) (this : OverlayWindow)
  : M Event OverlayWindow :=
  match cs with
  | [] => ret this
  | CallShow :: cs' => this <- Show this ;; run_visibility cs' this
  | CallHide :: cs' => this <- Hide this ;; run_visibility cs' this
  end.

(** The [ShowWindow] commands of a trace, in order. *)
Fixpoint show_commands (tr : list Event) : list ShowCmd :=
  match tr with
  | [] => []
  | EvShowWindow cmd :: tr' => cmd :: show_commands tr'
  | _ :: tr' => show_commands tr'
  end.

(** Starting from a window that is shown or not, the commands hide and
    show it in turn: it is never shown when shown, nor hidden when
    hidden. *)
Fixpoint alternating (visible : bool) (cmds : list ShowCmd) : bool :=
  match cmds with
  | [] => true
  | SW_HIDE :: rest => visible && alternating false rest
  | SW_SHOWNOACTIVATE :: rest => negb visible && alternating true rest
  end.

Definition is_resize (e : Event) : bool :=
  match e with EvResizeBuffers _ _ _ _ => true | _ => false end.

(** Everything works, on a desktop without any extent. *)
Definition env_empty_desktop : Env :=
  {| hr := fun _ => S_OK;
     GetSystemMetrics := fun _ => 0;
     RegisterClassExW := true; CreateWindowExW := true;
     dxgiFactory5 := true; tearingSupport := true;
     vs_file_opens := true; ps_file_opens := true |}.

End OverlayWindow.


(** ** The edge-enhancement pixel shader
       (src/overlay/shaders/edge_enhance.hlsl)

    [main] is given the colour and the nine neighbourhood samples that its
    [inputTex.Sample] calls return (index [3 * row + column]) and the
    [edgeStrength] of the constant buffer.  [dot] sums its products from
    left to right; [saturate] clamps to [0, 1] and sends NaN to 0. *)

Module EdgeEnhanceShader.
Import Float32 InvertShader.

Definition sqrt : float -> float := SFsqrt prec emax.

Definition fm2_0 : float := of_Z (-2).          (* -2.0f *)

Definition dot (u v : float3) : float :=
  add (add (mul (x u) (x v)) (mul (y u) (y v))) (mul (z u) (z v)).

Definition saturate (v : float) : float :=
  if is_nan v then f0_0 else clamp v f0_0 f1_0.

(** [float3(0.2126f, 0.7152f, 0.0722f)]. *)
Definition luminance_weights : float3 :=
  {| x := lit 2126 10000; y := lit 7152 10000; z := lit 722 10000 |}.

(** Sobel edge detection. *)
Definition SobelEdge (samples : nat -> float3) : float3 :=
  (* Convert to grayscale for edge detection *)
  let gray (i : nat) := dot (samples i) luminance_weights in
  (* Apply Sobel operators *)
  let gx :=
    add (add (add (add (add (mul (gray 0%nat) fm1_0) (mul (gray 2%nat) f1_0))
                       (mul (gray 3%nat) fm2_0))
                  (mul (gray 5%nat) f2_0))
             (mul (gray 6%nat) fm1_0))
        (mul (gray 8%nat) f1_0) in
  let gy :=
    add (add (add (add (add (mul (gray 0%nat) fm1_0) (mul (gray 1%nat) fm2_0))
                       (mul (gray 2%nat) fm1_0))
                  (mul (gray 6%nat) f1_0))
             (mul (gray 7%nat) f2_0))
        (mul (gray 8%nat) f1_0) in
  (* Edge magnitude *)
  let edge := sqrt (add (mul gx gx) (mul gy gy)) in
  {| x := edge; y := edge; z := edge |}.

Definition main (color : float4) (samples : nat -> float3)
    (edgeStrength : float) : float4 :=
  if ltb f0_0 edgeStrength then
    (* Detect edges *)
    let edges := SobelEdge samples in
    (* Enhance edges by adding them to the original *)
    {| r := saturate (add (r color) (mul (x edges) edgeStrength));
       g := saturate (add (g color) (mul (y edges) edgeStrength));
       b := saturate (add (b color) (mul (z edges) edgeStrength));
       a := a color |}
  else color.

(** A neighbourhood of one colour. *)
Definition uniform (c : float3) : nat -> float3 := fun _ => c.

End EdgeEnhanceShader.


(** ** ProfileManager (core/ProfileManager.h, ProfileManager.cpp)

    The profile structures and [ValidateProfile], which [LoadProfile] and
    [ImportProfile] run on every profile they read.  A [std::wstring] is a
    [string]; only its emptiness is looked at.  The fields of the nested
    structures carry a prefix, since two of them have members of the same
    name. *)

Module ProfileManager.
Import Float32.

(** [enum class FollowMode]. *)
Inductive FollowMode := Cursor | Caret | KeyboardFocus.

(** [struct VisualSettings]. *)
Record VisualSettings := {
  vis_enabled : bool;
  vis_contrast : float;
  vis_brightness : float;
  vis_gamma : float;
  vis_saturation : float;
  vis_invertMode : ShaderPipeline.InvertMode;
  vis_edgeStrength : float
}.

(** [struct MagnifierSettings]. *)
Record MagnifierSettings := {
  mag_enabled : bool;
  mag_zoomLevel : float;
  mag_followMode : FollowMode;
  mag_lensMode : bool;
  mag_lensSize : Z
}.

(** [struct SpeechSettings]. *)
Record SpeechSettings := {
  sp_rate : Z;
  sp_volume : Z;
  sp_voice : string
}.

(** [struct HotkeyConfig]. *)
Record HotkeyConfig := {
  hk_toggle : string;
  hk_magnifier : string;
  hk_zoomIn : string;
  hk_zoomOut : string;
  hk_speakFocus : string;
  hk_speakCursor : string;
  hk_stopSpeaking : string;
  hk_panicOff : string
}.

(** [struct Profile]. *)
Record Profile := {
  name : string;
  version : Z;
  visual : VisualSettings;
  magnifier : MagnifierSettings;
  speech : SpeechSettings;
  hotkeys : HotkeyConfig
}.

Definition f16_0 : float := of_Z 16.            (* 16.0f *)

(** [std::clamp] on [int]. *)
Definition clamp_int (v lo hi : Z) : Z :=
  if v <? lo then lo else if hi <? v then hi else v.

Definition empty (s : string) : bool :=
  match s with EmptyString => true | _ => false end.

Definition ValidateProfile (profile : Profile) : Profile :=
  let v := visual profile in
  let m := magnifier profile in
  let s := speech profile in
  {| name := if empty (name profile) then "unnamed"%string else name profile;
     version := version profile;
     (* Clamp visual values to valid ranges *)
     visual :=
       {| vis_enabled := vis_enabled v;
          vis_contrast := clamp (vis_contrast v) f0_0 f4_0;
          vis_brightness := clamp (vis_brightness v) fm1_0 f1_0;
          vis_gamma := clamp (vis_gamma v) f0_1 f4_0;
          vis_saturation := clamp (vis_saturation v) f0_0 f2_0;
          vis_invertMode := vis_invertMode v;
          vis_edgeStrength := clamp (vis_edgeStrength v) f0_0 f1_0 |};
     (* Clamp magnifier values *)
     magnifier :=
       {| mag_enabled := mag_enabled m;
          mag_zoomLevel := clamp (mag_zoomLevel m) f1_0 f16_0;
          mag_followMode := mag_followMode m;
          mag_lensMode := mag_lensMode m;
          mag_lensSize := clamp_int (mag_lensSize m) 100 1000 |};
     (* Clamp speech values *)
     speech :=
       {| sp_rate := clamp_int (sp_rate s) (-10) 10;
          sp_volume := clamp_int (sp_volume s) 0 100;
          sp_voice := sp_voice s |};
     hotkeys := hotkeys profile |}.

(** The members of [VisualSettings] that the pipeline's [ApplyProfile]
    (and the controller's [ApplyCurrentProfile]) hands to the setters. *)
Definition pipeline_settings (v : VisualSettings)
  : ShaderPipeline.VisualSettings :=
  {| ShaderPipeline.vs_contrast := vis_contrast v;
     ShaderPipeline.vs_brightness := vis_brightness v;
     ShaderPipeline.vs_gamma := vis_gamma v;
     ShaderPipeline.vs_saturation := vis_saturation v;
     ShaderPipeline.vs_invertMode := vis_invertMode v;
     ShaderPipeline.vs_edgeStrength := vis_edgeStrength v |}.

(** No float of the profile is a NaN. *)
Definition floats_ordered (p : Profile) : bool :=
  negb (is_nan (vis_contrast (visual p))) &&
  negb (is_nan (vis_brightness (visual p))) &&
  negb (is_nan (vis_gamma (visual p))) &&
  negb (is_nan (vis_saturation (visual p))) &&
  negb (is_nan (vis_edgeStrength (visual p))) &&
  negb (is_nan (mag_zoomLevel (magnifier p))).

(** Every clamped member lies in its range. *)
Definition in_ranges (p : Profile) : bool :=
  in_range f0_0 f4_0 (vis_contrast (visual p)) &&
  in_range fm1_0 f1_0 (vis_brightness (visual p)) &&
  in_range f0_1 f4_0 (vis_gamma (visual p)) &&
  in_range f0_0 f2_0 (vis_saturation (visual p)) &&
  in_range f0_0 f1_0 (vis_edgeStrength (visual p)) &&
  in_range f1_0 f16_0 (mag_zoomLevel (magnifier p)) &&
  (100 <=? mag_lensSize (magnifier p)) && (mag_lensSize (magnifier p) <=? 1000) &&
  (-10 <=? sp_rate (speech p)) && (sp_rate (speech p) <=? 10) &&
  (0 <=? sp_volume (speech p)) && (sp_volume (speech p) <=? 100).

End ProfileManager.


(** ** Controller: the enhancement path (core/Controller.h, Controller.cpp)
       and SafeMode's panic-off (util/SafeMode.cpp)

    The controller owns the overlay window, the capture manager and the
    shader pipeline and connects them: the frame callback it registers
    hands every captured frame to [Process] and the result to
    [RenderFrame].  The three objects are the ones modelled above; their
    calls are run and their traces kept, tagged with the object.  The
    subsystems that are not modelled (audio, tray icon, magnifier, speech)
    appear as the calls made on them.  [m_safeMode] holds the flag of the
    [SafeMode] object; that object and the audio feedback exist in every
    state, as after the first steps of [Controller::Initialize].  Calls
    are taken one at a time. *)

Module Controller.

(** [enum class Sound] (util/AudioFeedback.h). *)
Inductive Sound :=
| Enable | Disable | ZoomIn | ZoomOut | ProfileSwitch | SpeakStart
| SpeakStop | PanicOff | Error | Click | Focus.

Inductive Event :=
| EvCapture (e : CaptureManager.Event)
| EvOverlay (e : OverlayWindow.Event)
| EvPipeline (e : ShaderPipeline.Event)
| EvPlay (s : Sound)                   (* m_audioFeedback->Play(s) *)
| EvPlayPanicSound                     (* PlayPanicSound() *)
| EvMagnifierEnable                    (* m_magnifierController->Enable() *)
| EvMagnifierDisable                   (* m_magnifierController->Disable() *)
| EvMagnifierOnDisplayChange
| EvSpeechStop                         (* m_speechEngine->Stop() *)
| EvTrayUpdateState                    (* m_trayIcon->UpdateState() *)
| EvHeartbeat.                         (* m_safeMode->Heartbeat() *)

Record Env := {
  capture_env : CaptureManager.Env;
  overlay_env : OverlayWindow.Env;
  pipeline_env : ShaderPipeline.Env;
  frame_size : Handle -> Z * Z           (* GetDesc of a captured texture *)
}.

Record Controller := {
  m_hInstance : option Handle;
  m_captureManager : option CaptureManager.CaptureManager;
  m_overlayWindow : option OverlayWindow.OverlayWindow;
  m_shaderPipeline : option ShaderPipeline.ShaderPipeline;
  m_magnifierController : bool;
  m_speechEngine : bool;
  m_trayIcon : bool;
  m_safeMode : bool;                     (* m_safeMode->IsInSafeMode() *)
  m_enhancementEnabled : bool;
  m_magnifierEnabled : bool
}.

Definition new_controller (hInstance : option Handle) : Controller :=
  {| m_hInstance := hInstance; m_captureManager := None;
     m_overlayWindow := None; m_shaderPipeline := None;
     m_magnifierController := false; m_speechEngine := false;
     m_trayIcon := false; m_safeMode := false;
     m_enhancementEnabled := false; m_magnifierEnabled := false |}.

(** Field updates. *)
Definition set_captureManager (v : option CaptureManager.CaptureManager)
    (t : Controller) : Controller :=
  {| m_hInstance := m_hInstance t; m_captureManager := v;
     m_overlayWindow := m_overlayWindow t;
     m_shaderPipeline := m_shaderPipeline t;
     m_magnifierController := m_magnifierController t;
     m_speechEngine := m_speechEngine t; m_trayIcon := m_trayIcon t;
     m_safeMode := m_safeMode t;
     m_enhancementEnabled := m_enhancementEnabled t;
     m_magnifierEnabled := m_magnifierEnabled t |}.

Definition set_overlayWindow (v : option OverlayWindow.OverlayWindow)
    (t : Controller) : Controller :=
  {| m_hInstance := m_hInstance t; m_captureManager := m_captureManager t;
     m_overlayWindow := v;
     m_shaderPipeline := m_shaderPipeline t;
     m_magnifierController := m_magnifierController t;
     m_speechEngine := m_speechEngine t; m_trayIcon := m_trayIcon t;
     m_safeMode := m_safeMode t;
     m_enhancementEnabled := m_enhancementEnabled t;
     m_magnifierEnabled := m_magnifierEnabled t |}.

Definition set_shaderPipeline (v : option ShaderPipeline.ShaderPipeline)
    (t : Controller) : Controller :=
  {| m_hInstance := m_hInstance t; m_captureManager := m_captureManager t;
     m_overlayWindow := m_overlayWindow t;
     m_shaderPipeline := v;
     m_magnifierController := m_magnifierController t;
     m_speechEngine := m_speechEngine t; m_trayIcon := m_trayIcon t;
     m_safeMode := m_safeMode t;
     m_enhancementEnabled := m_enhancementEnabled t;
     m_magnifierEnabled := m_magnifierEnabled t |}.

Definition set_safeMode (v : bool) (t : Controller) : Controller :=
  {| m_hInstance := m_hInstance t; m_captureManager := m_captureManager t;
     m_overlayWindow := m_overlayWindow t;
     m_shaderPipeline := m_shaderPipeline t;
     m_magnifierController := m_magnifierController t;
     m_speechEngine := m_speechEngine t; m_trayIcon := m_trayIcon t;
     m_safeMode := v;
     m_enhancementEnabled := m_enhancementEnabled t;
     m_magnifierEnabled := m_magnifierEnabled t |}.

Definition set_enabled (enhancement magnifier : bool) (t : Controller)
  : Controller :=
  {| m_hInstance := m_hInstance t; m_captureManager := m_captureManager t;
     m_overlayWindow := m_overlayWindow t;
     m_shaderPipeline := m_shaderPipeline t;
     m_magnifierController := m_magnifierController t;
     m_speechEngine := m_speechEngine t; m_trayIcon := m_trayIcon t;
     m_safeMode := m_safeMode t;
     m_enhancementEnabled := enhancement;
     m_magnifierEnabled := magnifier |}.

(** A call on one of the owned objects, its trace tagged. *)
Definition on {E A} (tag : E -> Event) (m : M E A) : M Event A :=
  fun n => let '(a, n', ev) := m n in (a, n', map tag ev).

(** Calls guarded by [if (m_x)]. *)
Definition when (b : bool) (e : Event) : M Event unit :=
  if b then emit e else ret tt.

Definition IsInSafeMode (this : Controller) : bool := m_safeMode this.

(** The identity of the lambda [InitializeOverlay] registers. *)
Definition frame_lambda : CaptureManager.Callback := 0%nat.

(** [InitializeOverlay].  [shadersPath] is the directory computed from
    [m_assetsPath].  The call of [OverlayWindow::Initialize] names the
    instance only; the directory its definition takes besides is
    [overlayShaders] here.  [Controller::Initialize] calls it once, with
    the three members still null: the destruction of objects held before
    is not part of it. *)
Definition InitializeOverlay (env : Env) (overlayShaders shadersPath : string)
    (this : Controller) : M Event (bool * Controller) :=
  (* Create D3D11 overlay window *)
  r <- on EvOverlay
         (OverlayWindow.Initialize (overlay_env env) (m_hInstance this)
            overlayShaders OverlayWindow.new_overlay) ;;
  let overlay := snd r in
  let this := set_overlayWindow (Some overlay) this in
  if negb (fst r) then ret (false, this) else
  (* Create capture manager *)
  r <- on EvCapture
         (CaptureManager.Initialize (capture_env env)
            (OverlayWindow.m_device overlay) CaptureManager.new_manager) ;;
  let this := set_captureManager (Some (snd r)) this in
  if negb (fst r) then ret (false, this) else
  let capture := snd r in
  (* Create shader pipeline *)
  r <- on EvPipeline
         (ShaderPipeline.Initialize (pipeline_env env)
            (OverlayWindow.m_device overlay) shadersPath
            ShaderPipeline.new_pipeline) ;;
  let this := set_shaderPipeline (Some (snd r)) this in
  if negb (fst r) then ret (false, this) else
  (* Connect capture to overlay rendering *)
  let this :=
    set_captureManager
      (Some (CaptureManager.SetFrameCallback (Some frame_lambda) capture))
      this in
  ret (true, this).

(** The frame callback: the lambda of [InitializeOverlay]. *)
Definition frame_callback (env : Env) (frame : Handle) (this : Controller)
  : M Event Controller :=
  this <-
    (if m_enhancementEnabled this then
       match m_overlayWindow this, m_shaderPipeline this with
       | Some overlay, Some pipeline =>
           (* Apply shader transforms and render *)
           let input :=
             {| ShaderPipeline.tex_id := frame;
                ShaderPipeline.Width := fst (frame_size env frame);
                ShaderPipeline.Height := snd (frame_size env frame) |} in
           r <- on EvPipeline
                  (ShaderPipeline.Process (pipeline_env env) (Some input)
                     pipeline) ;;
           let transformedFrame := fst r in
           on EvOverlay
             (OverlayWindow.RenderFrame (overlay_env env)
                (option_map ShaderPipeline.tex_id transformedFrame)
                overlay) ;;;
           ret (set_shaderPipeline (Some (snd r)) this)
       | _, _ => ret this
       end
     else ret this) ;;
  (* Heartbeat for watchdog *)
  emit EvHeartbeat ;;;
  ret this.

(** The calls a frame-arrived event makes; where the callback called is
    the lambda, its body runs. *)
Fixpoint dispatch (env : Env) (calls : list CaptureManager.Event)
    (this : Controller) : M Event Controller :=
  match calls with
  | [] => ret this
  | CaptureManager.EvFrameCallback cb frame :: rest =>
      emit (EvCapture (CaptureManager.EvFrameCallback cb frame)) ;;;
      this <- (if Nat.eqb cb frame_lambda then frame_callback env frame this
               else ret this) ;;
      dispatch env rest this
  | e :: rest => emit (EvCapture e) ;;; dispatch env rest this
  end.

(** A frame-arrived event of one of the frame pools. *)
Definition frame_arrived (env : Env) (arrival : CaptureManager.Arrival)
    (this : Controller) : M Event Controller :=
  match m_captureManager this with
  | None => ret this
  | Some capture =>
      fun n =>
        dispatch env (events (CaptureManager.OnFrameArrived arrival capture n))
          this n
  end.

Definition EnableEnhancement (env : Env) (enable : bool) (this : Controller)
  : M Event Controller :=
  if Bool.eqb (m_enhancementEnabled this) enable then ret this else
  if IsInSafeMode this && enable then ret this else
  let this := set_enabled enable (m_magnifierEnabled this) this in
  this <-
    (if enable then
       this <- match m_captureManager this with
               | Some capture =>
                   r <- on EvCapture
                          (CaptureManager.Start (capture_env env) capture) ;;
                   ret (set_captureManager (Some (snd r)) this)
               | None => ret this
               end ;;
       this <- match m_overlayWindow this with
               | Some overlay =>
                   o <- on EvOverlay (OverlayWindow.Show overlay) ;;
                   ret (set_overlayWindow (Some o) this)
               | None => ret this
               end ;;
       emit (EvPlay Enable) ;;;
       ret this
     else
       this <- match m_captureManager this with
               | Some capture =>
                   c <- on EvCapture (CaptureManager.Stop capture) ;;
                   ret (set_captureManager (Some c) this)
               | None => ret this
               end ;;
       this <- match m_overlayWindow this with
               | Some overlay =>
                   o <- on EvOverlay (OverlayWindow.Hide overlay) ;;
                   ret (set_overlayWindow (Some o) this)
               | None => ret this
               end ;;
       emit (EvPlay Disable) ;;;
       ret this) ;;
  when (m_trayIcon this) EvTrayUpdateState ;;;
  ret this.

Definition EnableMagnifier (enable : bool) (this : Controller)
  : M Event Controller :=
  if Bool.eqb (m_magnifierEnabled this) enable then ret this else
  if IsInSafeMode this && enable then ret this else
  let this := set_enabled (m_enhancementEnabled this) enable this in
  (if m_magnifierController this then
     if enable then emit EvMagnifierEnable ;;; emit (EvPlay Enable)
     else emit EvMagnifierDisable ;;; emit (EvPlay Disable)
   else ret tt) ;;;
  when (m_trayIcon this) EvTrayUpdateState ;;;
  ret this.

Definition DisableAllEffects (this : Controller) : M Event Controller :=
  (* Stop enhancement *)
  let this := set_enabled false (m_magnifierEnabled this) this in
  this <- match m_captureManager this with
          | Some capture =>
              c <- on EvCapture (CaptureManager.Stop capture) ;;
              ret (set_captureManager (Some c) this)
          | None => ret this
          end ;;
  this <- match m_overlayWindow this with
          | Some overlay =>
              o <- on EvOverlay (OverlayWindow.Hide overlay) ;;
              ret (set_overlayWindow (Some o) this)
          | None => ret this
          end ;;
  (* Stop magnifier *)
  let this := set_enabled (m_enhancementEnabled this) false this in
  when (m_magnifierController this) EvMagnifierDisable ;;;
  (* Stop speech *)
  when (m_speechEngine this) EvSpeechStop ;;;
  when (m_trayIcon this) EvTrayUpdateState ;;;
  ret this.

(** [SafeMode::ActivatePanicOff], from the time [Controller::Initialize]
    has registered its panic callback (the panic-off sound), which is the
    only callback registered. *)
Definition ActivatePanicOff (this : Controller) : M Event Controller :=
  let this := set_safeMode true this in
  emit (EvPlay PanicOff) ;;;
  (* Notify controller to disable everything *)
  this <- DisableAllEffects this ;;
  (* Play panic-off confirmation sound *)
  emit EvPlayPanicSound ;;;
  ret this.

(** [SafeMode::ExitSafeMode]. *)
Definition ExitSafeMode (this : Controller) : Controller :=
  if negb (m_safeMode this) then this else set_safeMode false this.

Definition OnDisplayChange (env : Env) (this : Controller)
  : M Event Controller :=
  this <- match m_captureManager this with
          | Some capture =>
              c <- on EvCapture
                     (CaptureManager.OnDisplayChange (capture_env env)
                        capture) ;;
              ret (set_captureManager (Some c) this)
          | None => ret this
          end ;;
  this <- match m_overlayWindow this with
          | Some overlay =>
              o <- on EvOverlay
                     (OverlayWindow.OnDisplayChange (overlay_env env)
                        overlay) ;;
              ret (set_overlayWindow (Some o) this)
          | None => ret this
          end ;;
  when (m_magnifierController this) EvMagnifierOnDisplayChange ;;;
  ret this.

Definition OnDpiChange (env : Env) (dpi : Z) (this : Controller)
  : M Event Controller :=
  match m_overlayWindow this with
  | Some overlay =>
      o <- on EvOverlay
             (OverlayWindow.OnDpiChange (overlay_env env) dpi overlay) ;;
      ret (set_overlayWindow (Some o) this)
  | None => ret this
  end.

Definition OnSystemResume (env : Env) (this : Controller)
  : M Event Controller :=
  (* Reinitialize capture sessions which may have been invalidated *)
  match m_captureManager this with
  | Some capture =>
      if m_enhancementEnabled this then
        c <- on EvCapture
               (CaptureManager.Restart (capture_env env) capture) ;;
        ret (set_captureManager (Some c) this)
      else ret this
  | None => ret this
  end.

(** *** Sequences of calls *)

Inductive Op :=
| CallEnableEnhancement (enable : bool)
| CallEnableMagnifier (enable : bool)
| CallDisableAllEffects
| CallActivatePanicOff
| CallExitSafeMode
| CallOnDisplayChange
| CallOnDpiChange (dpi : Z)
| CallOnSystemResume
| FrameArrived (arrival : CaptureManager.Arrival).

Definition apply_op (env : Env) (op : Op) (this : Controller)
  : M Event Controller :=
  match op with
  | CallEnableEnhancement enable => EnableEnhancement env enable this
  | CallEnableMagnifier enable => EnableMagnifier enable this
  | CallDisableAllEffects => DisableAllEffects this
  | CallActivatePanicOff => ActivatePanicOff this
  | CallExitSafeMode => ret (ExitSafeMode this)
  | CallOnDisplayChange => OnDisplayChange env this
  | CallOnDpiChange dpi => OnDpiChange env dpi this
  | CallOnSystemResume => OnSystemResume env this
  | FrameArrived arrival => frame_arrived env arrival this
  end.

Fixpoint run_ops (env : Env) (ops : list Op) (this : Controller)
  : M Event Controller :=
  match ops with
  | [] => ret this
  | op :: rest => this <- apply_op env op this ;; run_ops env rest this
  end.

Definition is_exit (op : Op) : bool :=
  match op with CallExitSafeMode => true | _ => false end.

(** *** Reading states and traces *)

(** The capture manager, if there is one, is running. *)
Definition capturing (this : Controller) : bool :=
  match m_captureManager this with
  | Some capture => CaptureManager.m_running capture
  | None => false
  end.

(** The overlay window, if there is one, is shown. *)
Definition overlay_visible (this : Controller) : bool :=
  match m_overlayWindow this with
  | Some overlay => OverlayWindow.m_visible overlay
  | None => false
  end.

(** The textures a trace draws on the overlay, in order. *)
Fixpoint drawn (tr : list Event) : list Handle :=
  match tr with
  | [] => []
  | EvOverlay (OverlayWindow.EvDraw texture) :: tr' => texture :: drawn tr'
  | _ :: tr' => drawn tr'
  end.

(** The render passes of a trace. *)
Fixpoint pipeline_calls (tr : list Event) : list ShaderPipeline.Event :=
  match tr with
  | [] => []
  | EvPipeline e :: tr' => e :: pipeline_calls tr'
  | _ :: tr' => pipeline_calls tr'
  end.

(** The capture manager, if there is one, has a frame callback. *)
Definition callback_registered (this : Controller) : bool :=
  match m_captureManager this with
  | Some capture => is_object (CaptureManager.m_frameCallback capture)
  | None => false
  end.

(** The overlay window, if there is one, has its device objects:
    [RenderFrame] uses them without a test. *)
Definition overlay_usable (this : Controller) : Prop :=
  match m_overlayWindow this with
  | Some overlay => OverlayWindow.usable overlay
  | None => True
  end.

(** The state panic-off leaves: safe mode, with both effects off. *)
Definition switched_off (this : Controller) : Prop :=
  IsInSafeMode this = true /\ m_enhancementEnabled this = false /\
  m_magnifierEnabled this = false.

Definition is_draw (e : Event) : bool :=
  match e with EvOverlay (OverlayWindow.EvDraw _) => true | _ => false end.

(** A call that neither draws on the overlay nor shows it. *)
Definition quiet (e : Event) : bool :=
  match e with
  | EvOverlay (OverlayWindow.EvDraw _) => false
  | EvOverlay (OverlayWindow.EvShowWindow OverlayWindow.SW_SHOWNOACTIVATE) =>
      false
  | _ => true
  end.

Definition is_heartbeat (e : Event) : bool :=
  match e with EvHeartbeat => true | _ => false end.

Definition is_present (e : Event) : bool :=
  match e with EvOverlay (OverlayWindow.EvPresent _ _) => true | _ => false end.

Definition is_lambda_call (e : Event) : bool :=
  match e with
  | EvCapture (CaptureManager.EvFrameCallback cb _) => Nat.eqb cb frame_lambda
  | _ => false
  end.

(** The sounds played through the audio feedback, in order. *)
Fixpoint sounds (tr : list Event) : list Sound :=
  match tr with
  | [] => []
  | EvPlay s :: tr' => s :: sounds tr'
  | _ :: tr' => sounds tr'
  end.

(** The trace shows the overlay window. *)
Definition shows_overlay (tr : list Event) : bool :=
  existsb (fun e => match e with
                    | EvOverlay (OverlayWindow.EvShowWindow
                                   OverlayWindow.SW_SHOWNOACTIVATE) => true
                    | _ => false
                    end) tr.

(** *** Scenarios *)

Definition env_works : Env :=
  {| capture_env := CaptureManager.env_fine;
     overlay_env := OverlayWindow.env_present S_OK;
     pipeline_env := ShaderPipeline.env_ok;
     frame_size := fun _ => (1920, 1080) |}.

(** A controller whose overlay subsystem is initialised and whose
    enhancement has been switched on. *)
Definition run_initialize_overlay :=
  InitializeOverlay env_works EmptyString "shaders"%string
    (new_controller (Some 0%nat)) 1%nat.
Definition controller_connected : Controller :=
  snd (value run_initialize_overlay).
Definition run_enable :=
  EnableEnhancement env_works true (snd (value run_initialize_overlay))
    (snd (fst run_initialize_overlay)).
Definition controller_enhancing : Controller := value run_enable.


(** The objects the enhancing controller owns. *)
Definition capture_enhancing : CaptureManager.CaptureManager :=
  match m_captureManager controller_enhancing with
  | Some capture => capture
  | None => CaptureManager.new_manager
  end.
Definition overlay_enhancing : OverlayWindow.OverlayWindow :=
  match m_overlayWindow controller_enhancing with
  | Some overlay => overlay
  | None => OverlayWindow.new_overlay
  end.
Definition pipeline_enhancing : ShaderPipeline.ShaderPipeline :=
  match m_shaderPipeline controller_enhancing with
  | Some pipeline => pipeline
  | None => ShaderPipeline.new_pipeline
  end.

(** The enhancing controller after panic-off, and calls made on it. *)
Definition controller_panicked : Controller :=
  value (ActivatePanicOff controller_enhancing 100%nat).

Definition calls_after_panic : list Op :=
  [CallEnableEnhancement true; FrameArrived (CaptureManager.Texture 500%nat);
   CallOnDisplayChange; FrameArrived (CaptureManager.Texture 501%nat);
   CallEnableMagnifier true; CallOnSystemResume; CallOnDpiChange 120;
   FrameArrived (CaptureManager.Texture 502%nat)].

End Controller.


(** ** Logger: the clean-up of old log files (util/Logger.cpp)

    [Logger::Initialize] opens a new log file named after the time
    ([clarity_YYYYMMDD_HHMMSS.log]) and then removes all but the last ten
    [.log] files of the directory.  A directory entry is the name of the
    file; [std::sort] orders paths of one directory by their names, compared
    character by character.  Every entry is taken to be a file with an
    ASCII name, and every removal to succeed. *)

From Stdlib Require Sorting.Mergesort Sorting.Sorted Sorting.Permutation
  Structures.Orders.

Module Logger.

Definition path := string.

Definition period : Ascii.ascii := Ascii.ascii_of_nat 46.

(** The position of the last period of a name, if there is one. *)
Fixpoint last_period (s : string) : option nat :=
  match s with
  | EmptyString => None
  | String c s' =>
      match last_period s' with
      | Some i => Some (S i)
      | None => if Ascii.eqb c period then Some 0%nat else None
      end
  end.

(** [path::extension()]: from the last period to the end; empty when there
    is no period, for the names [.] and [..], and when the only period is
    the first character. *)
Definition extension (p : path) : string :=
  if String.eqb p "."%string || String.eqb p ".."%string then EmptyString
  else
    match last_period p with
    | None | Some O => EmptyString
    | Some i => String.substring i (String.length p - i) p
    end.

Definition is_log (p : path) : bool := String.eqb (extension p) ".log"%string.

Module PathOrder <: Orders.TotalLeBool.
Definition t := path.
Definition leb : t -> t -> bool := String.leb.
Definition leb_total : forall x y, leb x y = true \/ leb y x = true :=
  String.leb_total.
End PathOrder.

Module PathSort := Mergesort.Sort PathOrder.

(** The order of the sort, as a relation. *)
Definition le (p q : path) : Prop := String.leb p q = true.

(** The files the clean-up removes, in the order it removes them. *)
Definition removed_logs (entries : list path) : list path :=
  let logFiles := filter is_log entries in
  if (10 <? List.length logFiles)%nat then
    firstn (List.length logFiles - 10) (PathSort.sort logFiles)
  else [].

(** The log files it leaves. *)
Definition kept_logs (entries : list path) : list path :=
  let logFiles := filter is_log entries in
  if (10 <? List.length logFiles)%nat then
    skipn (List.length logFiles - 10) (PathSort.sort logFiles)
  else logFiles.

(** A directory with twelve logs and two other files. *)
Definition log_directory : list path :=
  ["clarity_20240101_090000.log"; "clarity_20240102_090000.log";
   "notes.txt"; "clarity_20240103_090000.log"; "clarity_20240104_090000.log";
   "clarity_20240105_090000.log"; "clarity_20240106_090000.log";
   "clarity_20240107_090000.log"; "clarity_20240108_090000.log";
   ".log"; "clarity_20240109_090000.log"; "clarity_20240110_090000.log";
   "clarity_20240111_090000.log"; "clarity_20240112_090000.log"]%string.

End Logger.


(** * Proofs *)

(** ** Running the platform monad *)

Lemma bind_run {E A B : Type} (m : M E A) (k : A -> M E B) (n : Handle)
    (a : A) (n1 : Handle) (e1 : list E) :
  m n = ((a, n1), e1) ->
  bind m k n = (fst (k a n1), e1 ++ snd (k a n1)).
Proof. intros H. unfold bind. rewrite H. now destruct (k a n1) as [[? ?] ?]. Qed.

Ltac run_monad :=
  cbv [bind ret emit fresh value events]; cbn [fst snd app].

(** ** 32-bit conversions *)

Lemma to_uint32_to_int32 (z : Z) : is_uint32 z -> to_uint32 (to_int32 z) = z.
Proof.
  unfold is_uint32, to_uint32, to_int32. intros H.
  rewrite (Z.mod_small z) by lia.
  destruct (z <? 2 ^ 31) eqn:E.
  - apply Z.mod_small; lia.
  - apply Z.ltb_ge in E.
    replace (z - 2 ^ 32) with (z + (-1) * 2 ^ 32) by lia.
    rewrite Z.mod_add by lia. apply Z.mod_small; lia.
Qed.

(** ** binary32 comparisons *)

Module Float32Facts.
Import Float32.

Lemma SFcompare_antisym (x y : float) :
  SFcompare y x = option_map CompOpp (SFcompare x y).
Proof.
  destruct x as [sx|sx| |sx mx ex], y as [sy|sy| |sy my ey]; cbn;
    try reflexivity;
    try (destruct sx; reflexivity); try (destruct sy; reflexivity);
    try (destruct sx, sy; reflexivity).
  pose proof (Pos.compare_cont_antisym mx my Eq) as A. cbn in A.
  destruct sx, sy; cbn; try reflexivity;
    rewrite (Z.compare_antisym ey ex);
    destruct (ey ?= ex) eqn:E; cbn; try reflexivity;
    change (PosDef.Pos.compare_cont Eq my mx) with (Pos.compare_cont Eq my mx);
    rewrite <- A; try rewrite CompOpp_involutive; reflexivity.
Qed.

Lemma SFcompare_None (x y : float) :
  SFcompare x y = None -> is_nan x = true \/ is_nan y = true.
Proof.
  destruct x as [sx|sx| |sx mx ex], y as [sy|sy| |sy my ey]; cbn;
    intros H; try discriminate; auto.
Qed.

Lemma not_ltb_leb (x y : float) :
  is_nan x = false -> is_nan y = false -> ltb x y = false -> leb y x = true.
Proof.
  unfold ltb, leb, SFltb, SFleb. intros Hx Hy H.
  rewrite SFcompare_antisym.
  destruct (SFcompare x y) as [[ | | ]|] eqn:E; cbn; try reflexivity.
  - discriminate.
  - apply SFcompare_None in E. destruct E; congruence.
Qed.

Lemma leb_not_nan_l (x y : float) : leb x y = true -> is_nan x = false.
Proof. destruct x; cbn; try reflexivity. discriminate. Qed.

Lemma leb_not_nan_r (x y : float) : leb x y = true -> is_nan y = false.
Proof. destruct x, y; cbn; try reflexivity; discriminate. Qed.

Lemma clamp_in_range (v lo hi : float) :
  is_nan v = false -> leb lo lo = true -> leb lo hi = true -> leb hi hi = true ->
  in_range lo hi (clamp v lo hi) = true.
Proof.
  intros Hv Hll Hlh Hhh. unfold clamp, in_range.
  destruct (ltb v lo) eqn:E1.
  - now rewrite Hll, Hlh.
  - destruct (ltb hi v) eqn:E2.
    + now rewrite Hlh, Hhh.
    + rewrite (not_ltb_leb v lo), (not_ltb_leb hi v); auto.
      * eapply leb_not_nan_r; eauto.
      * eapply leb_not_nan_l; eauto.
Qed.

Lemma clamp_nan (lo hi : float) : clamp NaN lo hi = NaN.
Proof. unfold clamp. destruct lo, hi; reflexivity. Qed.

End Float32Facts.

(** ** ShaderPipeline *)

Module ShaderPipelineProofs.
Import Float32 Float32Facts ShaderPipeline.

Ltac run_passes :=
  cbv [bind ret emit fresh value events RenderPass]; cbn [fst snd app].

(** *** Setters *)

Lemma run_setter_in_range (c : SetterCall) (this : ShaderPipeline) :
  params_in_range (m_params this) = true ->
  setter_arg_ordered c = true ->
  params_in_range (m_params (run_setter c this)) = true.
Proof.
  unfold params_in_range. rewrite !andb_true_iff.
  intros [[[[Hc' Hb] Hg] Hs] He] Hc.
  destruct c; cbn -[in_range clamp] in *;
    try apply negb_true_iff in Hc;
    repeat split; try assumption;
    apply clamp_in_range; try assumption; reflexivity.
Qed.

Lemma run_setters_in_range (cs : list SetterCall) :
  forall this,
    params_in_range (m_params this) = true ->
    forallb setter_arg_ordered cs = true ->
    params_in_range (m_params (run_setters cs this)) = true.
Proof.
  unfold run_setters.
  induction cs as [|c cs IH]; intros this H Hcs; cbn in *.
  - exact H.
  - apply andb_true_iff in Hcs. destruct Hcs as [Hc Hcs].
    apply IH; [apply run_setter_in_range|]; assumption.
Qed.

Lemma run_setter_marks_dirty (c : SetterCall) (this : ShaderPipeline) :
  m_paramsDirty (run_setter c this) = true.
Proof. destruct c; reflexivity. Qed.

(** C7 as stated fails on a NaN argument: [std::clamp] compares with [<],
    every comparison with a NaN is false, and the NaN is stored. *)
Lemma SetContrast_NaN_is_stored :
  contrast (m_params (SetContrast NaN new_pipeline)) = NaN /\
  in_range f0_0 f4_0 (contrast (m_params (SetContrast NaN new_pipeline))) = false /\
  params_in_range (m_params (run_setters [CallSetContrast NaN] new_pipeline)) = false.
Proof. repeat split. Qed.

(** C7 (amended): for every sequence of setter calls whose float arguments
    are not NaN, every stored parameter stays in its declared range
    (contrast in [0,4], brightness in [-1,1], gamma in [0.1,4], saturation in
    [0,2], edgeStrength in [0,1]); setting contrast to 10.0 stores exactly
    4.0, setting edgeStrength to -1 stores exactly 0.0, and every setter
    marks the parameters dirty. *)
Theorem setters_clamp_into_range (cs : list SetterCall) (this : ShaderPipeline) :
  params_in_range (m_params this) = true ->
  forallb setter_arg_ordered cs = true ->
  params_in_range (m_params (run_setters cs this)) = true /\
  (forall c t, m_paramsDirty (run_setter c t) = true) /\
  contrast (m_params (SetContrast f10_0 this)) = f4_0 /\
  edgeStrength (m_params (SetEdgeStrength fm1_0 this)) = f0_0.
Proof.
  intros H Hcs. split; [|split; [|split]].
  - now apply run_setters_in_range.
  - exact run_setter_marks_dirty.
  - reflexivity.
  - reflexivity.
Qed.

Lemma setters_clamp_into_range_witness :
  params_in_range
    (m_params (run_setters [CallSetContrast f10_0; CallSetEdgeStrength fm1_0;
                            CallSetGamma f0_0; CallSetInvertMode InvertMode_Full]
                 new_pipeline)) = true /\
  (forall c t, m_paramsDirty (run_setter c t) = true) /\
  contrast (m_params (SetContrast f10_0 new_pipeline)) = f4_0 /\
  edgeStrength (m_params (SetEdgeStrength fm1_0 new_pipeline)) = f0_0.
Proof.
  apply (setters_clamp_into_range
           [CallSetContrast f10_0; CallSetEdgeStrength fm1_0;
            CallSetGamma f0_0; CallSetInvertMode InvertMode_Full]
           new_pipeline); reflexivity.
Defined.

(** *** Not-ready pipeline *)

Lemma Initialize_failure_leaves_not_ready (env : Env) (device : option Handle)
    (path : String.string) (n : Handle) :
  fst (value (Initialize env device path new_pipeline n)) = false ->
  m_ready (snd (value (Initialize env device path new_pipeline n))) = false.
Proof.
  unfold Initialize, LoadVertexShader, LoadPixelShader, CreateConstantBuffer,
    CreateFullscreenQuad, value.
  destruct device; cbn; [|reflexivity].
  repeat match goal with
         | |- context [if ?b then _ else _] => destruct b; cbn
         end; intros; try discriminate; reflexivity.
Qed.

(** C4: on a pipeline that is not ready, [Process] returns its input and
    does nothing else: no pass or other device call (empty trace), no
    object created, pipeline state unchanged. *)
Theorem Process_not_ready_returns_input (env : Env) (input : option Texture2D)
    (this : ShaderPipeline) (n : Handle) :
  m_ready this = false ->
  Process env input this n = ((input, this), n, []).
Proof. intros H. unfold Process. rewrite H. reflexivity. Qed.

Lemma Process_not_ready_returns_input_witness :
  Process env_ok (frame 1000%nat 1920 1080) pipeline_not_ready 12%nat
  = ((frame 1000%nat 1920 1080, pipeline_not_ready), 12%nat, []).
Proof.
  apply (Process_not_ready_returns_input env_ok (frame 1000%nat 1920 1080)
           pipeline_not_ready 12%nat).
  reflexivity.
Defined.


(** *** Reading traces *)

Lemma reallocates_app (l1 l2 : list Event) :
  reallocates (l1 ++ l2) = reallocates l1 || reallocates l2.
Proof. apply existsb_app. Qed.



Lemma passes_do_not_reallocate (l : list Event) :
  forallb is_pass l = true -> reallocates l = false.
Proof.
  unfold reallocates. induction l as [|e l IH]; cbn; [reflexivity|].
  intros H. apply andb_true_iff in H. destruct H as [He H].
  rewrite (IH H). destruct e; cbn in *; try discriminate; reflexivity.
Qed.



(** *** The steps of [Process] *)

Lemma MultiPassRendering_only_passes (v : option View) (this : ShaderPipeline)
    (n : Handle) :
  forallb is_pass (events (MultiPassRendering v this n)) = true /\
  snd (fst (MultiPassRendering v this n)) = n.
Proof.
  unfold MultiPassRendering. run_passes.
  destruct (negb (invertMode (m_params this) =? 0)); run_passes;
    destruct (ltb f0_0 (edgeStrength (m_params this))); run_passes;
    destruct (m_edgeShader this); run_passes;
    repeat match goal with
           | |- context [if ?b then _ else _] => destruct b; run_passes
           end; split; reflexivity.
Qed.


Lemma CreateIntermediateTextures_spec (env : Env) (width height : Z)
    (this : ShaderPipeline) (n : Handle) :
  let r := CreateIntermediateTextures env width height this n in
  forallb is_realloc (events r) = true /\
  reallocates (events r) = true /\
  creations_sized (to_uint32 width) (to_uint32 height) (events r) = true /\
  m_outputWidth (snd (value r)) = width /\
  m_outputHeight (snd (value r)) = height /\
  fst (value r) = allocation_succeeds env /\
  (fst (value r) = true ->
   surfaces_sized (to_uint32 width) (to_uint32 height) (snd (value r))).
Proof.
  unfold CreateIntermediateTextures, allocation_succeeds, creations_sized.
  run_passes.
  repeat match goal with
         | |- context [FAILED ?h] => destruct (FAILED h); run_passes; cbn
         end;
    rewrite ?Z.eqb_refl; repeat split; try discriminate;
    intros _; eexists; eexists; cbn; repeat split.
Qed.



(** *** The passes *)

Lemma ptr_eqb_refl (a : option View) : ptr_eqb a a = true.
Proof. destruct a; cbn; [apply Nat.eqb_refl|reflexivity]. Qed.

Lemma ptr_eqb_sym (a b : option View) : ptr_eqb a b = ptr_eqb b a.
Proof. destruct a, b; cbn; try reflexivity. apply Nat.eqb_sym. Qed.

(** What the pass block of [Process] executes on a pipeline whose surfaces
    are allocated: base adjust always, invert exactly when
    [invertMode != 0], edge enhance exactly when [edgeStrength > 0] and the
    edge shader is loaded, in that order; and the passthrough copy exactly
    when the invert pass did not run, whether or not the edge pass did. *)
Lemma MultiPassRendering_passes (v : option View) (this : ShaderPipeline)
    (n : Handle) :
  pipeline_ok this ->
  passes (events (MultiPassRendering v this n)) =
    [Some contrast_cso]
    ++ (if negb (invertMode (m_params this) =? 0) then [Some invert_cso] else [])
    ++ (if ltb f0_0 (edgeStrength (m_params this))
           && match m_edgeShader this with Some _ => true | None => false end
        then [Some edge_enhance_cso] else [])
    ++ (if invertMode (m_params this) =? 0 then [Some passthrough_cso] else []).
Proof.
  intros [_ Hc Hi Hp He Hs Hr _ _].
  assert (Hs' : ptr_eqb (m_outputSRV this) (m_intermediateSRV this) = false)
    by now rewrite ptr_eqb_sym.
  assert (Hr' : ptr_eqb (m_outputRTV this) (m_intermediateRTV this) = false)
    by now rewrite ptr_eqb_sym.
  unfold MultiPassRendering. run_passes.
  destruct (invertMode (m_params this) =? 0); cbn [negb]; run_passes;
    destruct (ltb f0_0 (edgeStrength (m_params this))); cbn [andb];
    destruct (m_edgeShader this) as [es|] eqn:Ees; run_passes;
    rewrite ?Hs, ?Hs', ?Hr, ?Hr', ?ptr_eqb_refl; run_passes;
    rewrite ?Hs, ?Hs', ?Hr, ?Hr', ?ptr_eqb_refl; run_passes;
    cbn [passes]; rewrite ?Hc, ?Hi, ?Hp;
    try reflexivity;
    destruct He as [He|He]; try discriminate; cbn in He; rewrite ?He;
    cbn [option_map] in *; try reflexivity;
    injection He as ->; reflexivity.
Qed.

(** C1, the defect: with inversion off, edge strength one half and the edge
    shader loaded, [Process] runs base adjust (into the intermediate
    surface), edge enhance (into the output surface) and then the
    passthrough copy, which draws the intermediate surface over the output
    the edge pass has just written. *)
Theorem Process_edge_only_runs_passthrough :
  m_ready pipeline_edge_only = true /\
  invertMode (m_params pipeline_edge_only) = 0 /\
  ltb f0_0 (edgeStrength (m_params pipeline_edge_only)) = true /\
  option_map shader_file (m_edgeShader pipeline_edge_only)
    = Some edge_enhance_cso /\
  passes (events run_edge_only_frame)
    = [Some contrast_cso; Some edge_enhance_cso; Some passthrough_cso] /\
  targets (events run_edge_only_frame)
    = [m_intermediateRTV pipeline_edge_only;
       m_outputRTV pipeline_edge_only;
       m_outputRTV pipeline_edge_only] /\
  fst (value run_edge_only_frame) = m_outputTexture pipeline_edge_only.
Proof. vm_compute. repeat split. Qed.

End ShaderPipelineProofs.

(** ** The invert shader *)

Module InvertShaderProofs.
Import Float32 InvertShader.

(** The full-invert branch of [main], channel by channel. *)
Lemma main_full (c : float4) :
  main c 1 = {| r := sub f1_0 (r c); g := sub f1_0 (g c);
                b := sub f1_0 (b c); a := a c |}.
Proof. reflexivity. Qed.

(** A sampled channel, inverted twice, is within rounding of itself. *)
Lemma invert_twice_channel (k : byte) :
  within_rounding (sub f1_0 (sub f1_0 (unorm8_to_float k)))
    (unorm8_to_float k) = true.
Proof. destruct k; vm_compute; reflexivity. Qed.

(** A stored channel, inverted, stored and inverted again, is the same
    byte. *)
Lemma invert_twice_stored (k : byte) :
  float_to_unorm8
    (sub f1_0 (unorm8_to_float
                 (float_to_unorm8 (sub f1_0 (unorm8_to_float k))))) = k.
Proof. destruct k; vm_compute; reflexivity. Qed.

(** Inverting a channel is 255 minus the byte. *)
Lemma invert_channel_complement (k : byte) :
  Z.of_N (Byte.to_N (float_to_unorm8 (sub f1_0 (unorm8_to_float k))))
  = 255 - Z.of_N (Byte.to_N k).
Proof. destruct k; vm_compute; reflexivity. Qed.

Lemma sample_store (k : byte) : float_to_unorm8 (unorm8_to_float k) = k.
Proof. destruct k; vm_compute; reflexivity. Qed.

Lemma within_rounding_refl_sampled (k : byte) :
  within_rounding (unorm8_to_float k) (unorm8_to_float k) = true.
Proof. destruct k; vm_compute; reflexivity. Qed.

(** The tolerance is needed: in binary32, 1 - (1 - 100/255) is not
    100/255. *)
Lemma invert_twice_is_not_exact :
  sub f1_0 (sub f1_0 (unorm8_to_float x64))
  <> unorm8_to_float x64.
Proof. vm_compute. discriminate. Qed.

(** C9: for every pixel value of the surface the invert pass reads, the
    shader's function with [invertMode = 1] applied twice gives the sampled
    colour back within rounding (2^-24 per channel, alpha unchanged), and
    two invert passes over the surface give back the very same texel. *)
Theorem full_invert_is_an_involution (t : Texel) :
  close4 (main (main (Sample t) 1) 1) (Sample t) = true /\
  a (main (main (Sample t) 1) 1) = a (Sample t) /\
  invert_pass 1 (invert_pass 1 t) = t.
Proof.
  destruct t as [kb kg kr ka].
  rewrite !main_full. unfold close4, invert_pass, Store, Sample.
  rewrite !main_full.
  cbn [r g b a tR tG tB tA].
  rewrite !invert_twice_channel, !invert_twice_stored,
    within_rounding_refl_sampled, !sample_store.
  repeat split.
Qed.

End InvertShaderProofs.

(** ** CaptureManager *)

Module CaptureManagerProofs.
Import CaptureManager.

(** *** Creating sessions *)

(** The captures [CreateCaptureForMonitor] appends: one started session
    when no step fails, nothing otherwise. *)
Lemma CreateCaptureForMonitor_spec (env : Env) (mon : HMONITOR)
    (this : CaptureManager) (n : Handle) :
  let r := CreateCaptureForMonitor env mon this n in
  exists new,
    snd (value r) = set_captures (m_captures this ++ new) this /\
    fst (value r) = no_fault (fault env mon) /\
    map monitor new = (if no_fault (fault env mon) then [mon] else []) /\
    (forall c, In c new ->
       exists s, session c = Some s /\ In (EvStartCapture s) (events r)).
Proof.
  unfold CreateCaptureForMonitor.
  destruct (fault env mon); destruct (border_supported env mon);
    cbn [Fault_beq orb]; run_monad;
    try (exists []; rewrite app_nil_r; destruct this;
         repeat split; try reflexivity; intros c []).
  all: eexists [_]; repeat split;
    intros c [<-|[]]; eexists; (split; [reflexivity|]); cbn; auto 10.
Qed.

Lemma create_captures_spec (env : Env) (ms : list MonitorInfo) :
  forall (this : CaptureManager) (n : Handle),
    let r := create_captures env ms this n in
    exists new,
      value r = set_captures (m_captures this ++ new) this /\
      map monitor new
        = filter (fun h => no_fault (fault env h)) (map handle ms) /\
      (forall c, In c new ->
         exists s, session c = Some s /\ In (EvStartCapture s) (events r)).
Proof.
  induction ms as [|m ms IH]; intros this n; cbn [create_captures].
  - exists []. run_monad. rewrite app_nil_r. destruct this.
    repeat split. intros c [].
  - cbv zeta.
    destruct (CreateCaptureForMonitor_spec env (handle m) this n)
      as (new1 & E1 & _ & M1 & S1).
    destruct (CreateCaptureForMonitor env (handle m) this n)
      as [[[ok this1] n1] ev1] eqn:EC.
    unfold value, events in E1, S1. cbn [fst snd] in E1, S1.
    rewrite (bind_run _ _ _ _ _ _ EC). cbn [fst snd].
    destruct (IH this1 n1) as (new2 & E2 & M2 & S2).
    destruct (create_captures env ms this1 n1) as [[this2 n2] ev2] eqn:EL.
    unfold value, events in *. cbn [fst snd] in *.
    exists (new1 ++ new2). subst this1 this2. repeat split.
    + cbn. now rewrite app_assoc.
    + rewrite map_app, M1, M2. cbn [map filter].
      now destruct (no_fault (fault env (handle m))).
    + intros c Hc. apply in_app_or in Hc. destruct Hc as [Hc|Hc].
      * destruct (S1 c Hc) as (s & A & B). exists s. split; [exact A|].
        apply in_or_app. now left.
      * destruct (S2 c Hc) as (s & A & B). exists s. split; [exact A|].
        apply in_or_app. now right.
Qed.

(** *** Invariant: a manager that is not running holds no capture *)

Lemma Start_state (env : Env) (this : CaptureManager) (n : Handle) :
  snd (value (Start env this n)) = this \/
  m_running (snd (value (Start env this n))) = true.
Proof.
  unfold Start.
  destruct (m_running this); [now left|].
  destruct (graphics_capture_available env); cbn [negb]; [|now left].
  right. destruct (create_captures env (m_monitors this) this n)
    as [[t n1] e] eqn:E.
  rewrite (bind_run _ _ _ _ _ _ E). reflexivity.
Qed.

Lemma Stop_state (this : CaptureManager) (n : Handle) :
  m_running (value (Stop this n)) = false /\
  (m_running this = true -> m_captures (value (Stop this n)) = []) /\
  (m_running this = false -> value (Stop this n) = this).
Proof.
  unfold Stop. destruct (m_running this) eqn:R; cbn [negb].
  - destruct (stop_captures (m_captures this) n) as [[u n1] e] eqn:E.
    rewrite (bind_run _ _ _ _ _ _ E). repeat split. discriminate.
  - repeat split; auto. discriminate.
Qed.

Lemma Stop_idle_is_empty (this : CaptureManager) (n : Handle) :
  idle_is_empty this -> m_captures (value (Stop this n)) = [].
Proof.
  intros I. destruct (Stop_state this n) as (_ & A & B).
  destruct (m_running this) eqn:R; [now apply A|].
  rewrite (B eq_refl). now apply I.
Qed.

Lemma Start_preserves (env : Env) (this : CaptureManager) (n : Handle) :
  idle_is_empty this -> idle_is_empty (snd (value (Start env this n))).
Proof.
  intros I. destruct (Start_state env this n) as [-> | R]; [exact I|].
  intros R'. congruence.
Qed.

Lemma Restart_preserves (env : Env) (this : CaptureManager) (n : Handle) :
  idle_is_empty this -> idle_is_empty (value (Restart env this n)).
Proof.
  intros I. unfold Restart.
  pose proof (Stop_state this n) as (R0 & _ & _).
  pose proof (Stop_idle_is_empty this n I) as C0.
  destruct (Stop this n) as [[t1 n1] e1] eqn:E1.
  rewrite (bind_run _ _ _ _ _ _ E1). unfold value in *. cbn [fst snd] in *.
  destruct (Start env (EnumerateMonitors env t1) n1) as [[r2 n2] e2] eqn:E2.
  rewrite (bind_run _ _ _ _ _ _ E2). cbn [fst snd].
  pose proof (Start_preserves env (EnumerateMonitors env t1) n1) as P.
  rewrite E2 in P. unfold value in P. cbn [fst snd ret] in *.
  apply P. intros _. exact C0.
Qed.

Lemma reachable_idle_is_empty (this : CaptureManager) :
  reachable this -> idle_is_empty this.
Proof.
  induction 1 as [|env op this n R IH].
  - intros _. reflexivity.
  - destruct op; cbn [apply_op].
    + unfold Initialize. destruct device; run_monad; [|exact IH].
      intros A. apply IH. exact A.
    + pose proof (Start_preserves env this n IH) as P.
      destruct (Start env this n) as [[r n1] e] eqn:E.
      rewrite (bind_run _ _ _ _ _ _ E). exact P.
    + intros _. now apply Stop_idle_is_empty.
    + now apply Restart_preserves.
    + exact IH.
    + now apply Restart_preserves.
    + destruct (OnFrameArrived arrival this n) as [[u n1] e] eqn:E.
      rewrite (bind_run _ _ _ _ _ _ E). exact IH.
Qed.


(** *** Stop *)

Lemma stop_capture_teardown (c : MonitorCapture) (pool s : Handle) (n : Handle) :
  framePool c = Some pool -> frameArrivedToken c <> 0 -> session c = Some s ->
  stop_capture c n = ((tt, n), teardown c pool s).
Proof.
  intros P T S. unfold stop_capture, teardown. rewrite P, S.
  apply Z.eqb_neq in T. rewrite T. reflexivity.
Qed.

Lemma stop_captures_counter (cs : list MonitorCapture) (n : Handle) :
  fst (stop_captures cs n) = (tt, n).
Proof.
  revert n. induction cs as [|c cs IH]; intros n; cbn [stop_captures].
  - reflexivity.
  - assert (E : fst (stop_capture c n) = (tt, n)).
    { unfold stop_capture.
      destruct (framePool c), (session c),
        (negb (frameArrivedToken c =? 0)); reflexivity. }
    destruct (stop_capture c n) as [[u n1] e1] eqn:E1. cbn [fst] in E.
    injection E as -> ->.
    rewrite (bind_run _ _ _ _ _ _ E1). cbn [fst]. apply IH.
Qed.

Lemma stop_captures_teardown (cs : list MonitorCapture) :
  forall (n : Handle) (c : MonitorCapture) (pool s : Handle),
    In c cs -> framePool c = Some pool -> frameArrivedToken c <> 0 ->
    session c = Some s ->
    exists before after,
      events (stop_captures cs n) = before ++ teardown c pool s ++ after.
Proof.
  induction cs as [|c0 cs IH]; intros n c pool s Hin P T S; [destruct Hin|].
  cbn [stop_captures].
  pose proof (stop_captures_counter [c0] n) as K. cbn [stop_captures] in K.
  destruct (stop_capture c0 n) as [[u n1] e1] eqn:E1.
  rewrite (bind_run _ _ _ _ _ _ E1). unfold events. cbn [snd].
  destruct Hin as [->|Hin].
  - rewrite (stop_capture_teardown c pool s n P T S) in E1.
    injection E1 as _ _ <-.
    exists [], (snd (stop_captures cs n1)). reflexivity.
  - destruct (IH n1 c pool s Hin P T S) as (before & after & E).
    unfold events in E. exists (e1 ++ before), after.
    rewrite E. now rewrite app_assoc.
Qed.

Lemma deliver_idle (arrivals : list Arrival) (this : CaptureManager)
    (n : Handle) :
  m_running this = false -> deliver arrivals this n = ((tt, n), []).
Proof.
  intros R. induction arrivals as [|a rest IH]; cbn [deliver]; [reflexivity|].
  assert (E : OnFrameArrived a this n = ((tt, n), [])).
  { unfold OnFrameArrived. now rewrite R. }
  rewrite (bind_run _ _ _ _ _ _ E), IH. reflexivity.
Qed.

(** C3: after [Stop] has returned, frame-arrived events, whatever frame
    they carry and whatever callback is registered, invoke no frame
    callback (the handler does nothing at all); and when [Stop] tears the
    captures down, each capture's handler is revoked first, its session
    closed next and its frame pool closed last. *)
Theorem no_frame_callback_after_Stop (this : CaptureManager) (n : Handle)
    (arrivals : list Arrival) (n' : Handle) :
  let stopped := value (Stop this n) in
  IsRunning stopped = false /\
  m_frameCallback stopped = m_frameCallback this /\
  existsb is_callback (events (deliver arrivals stopped n')) = false /\
  events (deliver arrivals stopped n') = [] /\
  (reachable this -> m_captures stopped = []) /\
  (forall c pool s,
     m_running this = true -> In c (m_captures this) ->
     framePool c = Some pool -> frameArrivedToken c <> 0 ->
     session c = Some s ->
     exists before after,
       events (Stop this n) = before ++ teardown c pool s ++ after).
Proof.
  intros stopped. subst stopped.
  destruct (Stop_state this n) as (R & C & U).
  assert (F : m_frameCallback (value (Stop this n)) = m_frameCallback this).
  { unfold Stop. destruct (m_running this); cbn [negb]; [|reflexivity].
    destruct (stop_captures (m_captures this) n) as [[u n1] e] eqn:E.
    rewrite (bind_run _ _ _ _ _ _ E). reflexivity. }
  unfold IsRunning.
  rewrite (deliver_idle arrivals _ n' R).
  repeat split; auto.
  - intros Hr. apply Stop_idle_is_empty. now apply reachable_idle_is_empty.
  - intros c pool s Hrun Hin P T S.
    destruct (stop_captures_teardown (m_captures this) n c pool s Hin P T S)
      as (before & after & E).
    exists before, after. unfold Stop. rewrite Hrun. cbn [negb].
    destruct (stop_captures (m_captures this) n) as [[u n1] e] eqn:E1.
    rewrite (bind_run _ _ _ _ _ _ E1). unfold events in *. cbn [snd] in *.
    rewrite app_nil_r. exact E.
Qed.

(** *** Start *)

Lemma Start_not_running (env : Env) (this : CaptureManager) (n : Handle) :
  m_running this = false -> graphics_capture_available env = true ->
  let r := Start env this n in
  exists new,
    snd (value r) = set_running true (set_captures (m_captures this ++ new) this) /\
    fst (value r) = negb (is_empty (m_captures this ++ new)) /\
    map monitor new
      = filter (fun h => no_fault (fault env h)) (map handle (m_monitors this)) /\
    (forall c, In c new ->
       exists s, session c = Some s /\ In (EvStartCapture s) (events r)).
Proof.
  intros R A. unfold Start. rewrite R, A. cbn [negb].
  destruct (create_captures_spec env (m_monitors this) this n)
    as (new & E & Mn & S).
  destruct (create_captures env (m_monitors this) this n) as [[t n1] e] eqn:EC.
  rewrite (bind_run _ _ _ _ _ _ EC).
  unfold value, events in *. cbn [fst snd] in *. subst t.
  exists new. repeat split; auto.
  intros c Hc. destruct (S c Hc) as (s & P & Q). exists s. split; [exact P|].
  run_monad. now rewrite app_nil_r.
Qed.

Lemma no_session_when_all_fail (env : Env) (ms : list MonitorInfo) :
  (forall m, In m ms -> fault env (handle m) <> NoFault) ->
  filter (fun h => no_fault (fault env h)) (map handle ms) = [].
Proof.
  induction ms as [|m ms IH]; intros H; [reflexivity|].
  cbn. destruct (fault env (handle m)) eqn:F; cbn;
    try (apply IH; intros; apply H; now right).
  exfalso. apply (H m); [now left|exact F].
Qed.

(** C5 as stated fails: after a [Start] whose every session failed the
    manager counts as running, and the next [Start] returns success
    although no session was or is created (none exists, none is
    attempted), in an environment in which a session would succeed. *)
Lemma Start_success_without_session :
  reachable manager_failed_start /\
  fst (value run_second_start) = true /\
  m_captures (snd (value run_second_start)) = [] /\
  events run_second_start = [] /\
  map handle (m_monitors manager_failed_start) = [1] /\
  fault env_fine 1 = NoFault.
Proof.
  split; [|vm_compute; repeat split].
  unfold manager_failed_start, run_failed_start.
  change (reachable
            (value (apply_op env_all_fail OpStart
                      (snd (value (run_init env_all_fail)))
                      (snd (fst (run_init env_all_fail)))))).
  apply reachable_step. unfold run_init.
  change (reachable
            (value (apply_op env_all_fail (OpInitialize (Some 0%nat))
                      (SetFrameCallback (Some 7%nat) new_manager) 1%nat))).
  apply reachable_step.
  change (reachable
            (value (apply_op env_all_fail (OpSetFrameCallback (Some 7%nat))
                      new_manager 0%nat))).
  apply reachable_step. apply reachable_new.
Qed.

(** C5 (amended): a [Start] made while the manager is not running returns
    success if and only if at least one per-monitor session was created;
    the sessions created are those of the monitors whose creation does not
    fail, in enumeration order, each one started, so a failing monitor stops
    neither the others nor the delivery of their frames to the registered
    callback. *)
Theorem Start_succeeds_iff_session_created (env : Env) (this : CaptureManager)
    (n : Handle) :
  reachable this -> m_running this = false ->
  let r := Start env this n in
  let sessions := m_captures (snd (value r)) in
  (fst (value r) = true <-> sessions <> []) /\
  map monitor sessions
    = (if graphics_capture_available env
       then filter (fun h => no_fault (fault env h)) (map handle (m_monitors this))
       else []) /\
  (forall c, In c sessions ->
     exists s, session c = Some s /\ In (EvStartCapture s) (events r)) /\
  (sessions <> [] ->
   forall cb texture k,
     m_frameCallback this = Some cb ->
     events (OnFrameArrived (Texture texture) (snd (value r)) k)
       = [EvAddRef texture; EvFrameCallback cb texture; EvRelease texture]).
Proof.
  intros Hr R r sessions. subst sessions r.
  pose proof (reachable_idle_is_empty this Hr R) as Hc.
  destruct (graphics_capture_available env) eqn:A.
  - destruct (Start_not_running env this n R A) as (new & E & Ok & Mn & S).
    rewrite E, Ok, Hc. cbn [app set_running set_captures m_captures].
    split; [|split; [|split]].
    + destruct new; cbn; split; try discriminate; try reflexivity.
      intros H. now destruct H.
    + exact Mn.
    + exact S.
    + intros _ cb texture k Hcb. unfold OnFrameArrived.
      cbn [m_running m_frameCallback set_running set_captures negb].
      rewrite Hcb. reflexivity.
  - unfold Start. rewrite R, A. cbn [negb]. run_monad. rewrite Hc.
    split; [|split; [|split]].
    + split; [discriminate|]. intros H. now destruct H.
    + reflexivity.
    + intros c [].
    + intros H. now destruct H.
Qed.

Lemma manager_idle_reachable :
  reachable (snd (value (run_init env_second_fails))).
Proof.
  unfold run_init.
  change (reachable
            (value (apply_op env_second_fails (OpInitialize (Some 0%nat))
                      (SetFrameCallback (Some 7%nat) new_manager) 1%nat))).
  apply reachable_step.
  change (reachable
            (value (apply_op env_second_fails (OpSetFrameCallback (Some 7%nat))
                      new_manager 0%nat))).
  apply reachable_step. apply reachable_new.
Qed.

Lemma Start_succeeds_iff_session_created_witness :
  let this := snd (value (run_init env_second_fails)) in
  let r := Start env_second_fails this (snd (fst (run_init env_second_fails))) in
  let sessions := m_captures (snd (value r)) in
  (fst (value r) = true <-> sessions <> []) /\
  map monitor sessions
    = (if graphics_capture_available env_second_fails
       then filter (fun h => no_fault (fault env_second_fails h))
              (map handle (m_monitors this))
       else []) /\
  (forall c, In c sessions ->
     exists s, session c = Some s /\ In (EvStartCapture s) (events r)) /\
  (sessions <> [] ->
   forall cb texture k,
     m_frameCallback this = Some cb ->
     events (OnFrameArrived (Texture texture) (snd (value r)) k)
       = [EvAddRef texture; EvFrameCallback cb texture; EvRelease texture]).
Proof.
  apply (Start_succeeds_iff_session_created env_second_fails
           (snd (value (run_init env_second_fails)))
           (snd (fst (run_init env_second_fails)))).
  - exact manager_idle_reachable.
  - reflexivity.
Defined.

(** C10: whenever the capability probe succeeds, [Start] leaves the
    running flag set, also when every per-monitor session failed and
    [Start] returned false; [IsRunning] then reports true, and every later
    [Start] returns true at once: no session is attempted, nothing
    changes. *)
Theorem Start_sets_running_even_on_failure (env : Env) (this : CaptureManager)
    (n : Handle) :
  graphics_capture_available env = true ->
  let r := Start env this n in
  let after := snd (value r) in
  IsRunning after = true /\
  (m_running this = false -> m_captures this = [] ->
   (forall m, In m (m_monitors this) -> fault env (handle m) <> NoFault) ->
   fst (value r) = false /\ m_captures after = []) /\
  (forall env' n', Start env' after n' = ((true, after), n', [])).
Proof.
  intros A r after. subst after r.
  assert (Run : m_running (snd (value (Start env this n))) = true).
  { destruct (m_running this) eqn:R.
    - unfold Start. now rewrite R.
    - destruct (Start_not_running env this n R A) as (new & E & _).
      now rewrite E. }
  unfold IsRunning. split; [exact Run|split].
  - intros R C F.
    destruct (Start_not_running env this n R A) as (new & E & Ok & Mn & _).
    rewrite (no_session_when_all_fail env _ F) in Mn.
    destruct new; [|discriminate].
    rewrite E, Ok, C. split; reflexivity.
  - intros env' n'. unfold Start at 1. now rewrite Run.
Qed.

Lemma Start_sets_running_even_on_failure_witness :
  let this := snd (value (run_init env_all_fail)) in
  let r := Start env_all_fail this (snd (fst (run_init env_all_fail))) in
  let after := snd (value r) in
  IsRunning after = true /\
  (m_running this = false -> m_captures this = [] ->
   (forall m, In m (m_monitors this) -> fault env_all_fail (handle m) <> NoFault) ->
   fst (value r) = false /\ m_captures after = []) /\
  (forall env' n', Start env' after n' = ((true, after), n', [])).
Proof.
  apply (Start_sets_running_even_on_failure env_all_fail
           (snd (value (run_init env_all_fail)))
           (snd (fst (run_init env_all_fail)))).
  reflexivity.
Defined.

End CaptureManagerProofs.

(** ** OverlayWindow *)

Module OverlayWindowProofs.
Import OverlayWindow.

Ltac conjs :=
  repeat match goal with |- _ /\ _ => split end.

Ltac case_env :=
  match goal with
  | |- context [FAILED (hr ?env ?c)] => destruct (FAILED (hr env c)) eqn:?
  | |- context [dxgiFactory5 ?env] => destruct (dxgiFactory5 env) eqn:?
  | |- context [vs_file_opens ?env] => destruct (vs_file_opens env) eqn:?
  | |- context [ps_file_opens ?env] => destruct (ps_file_opens env) eqn:?
  | |- context [String.eqb ?a ?b] => destruct (String.eqb a b) eqn:?
  end.

Lemma window_kept_refl (t : OverlayWindow) : window_kept t t.
Proof. unfold window_kept. conjs; reflexivity. Qed.


Lemma InitializeD3D_run (env : Env) (this : OverlayWindow) (n : Handle) :
  exists this' n',
    InitializeD3D env this n
    = ((negb (FAILED (hr env D3D11CreateDevice)), this'), n',
       [EvD3D11CreateDevice (negb (FAILED (hr env D3D11CreateDevice)))]) /\
    window_kept this this' /\
    (FAILED (hr env D3D11CreateDevice) = false ->
     m_device this' <> None /\ m_context this' <> None).
Proof.
  unfold InitializeD3D, window_kept.
  repeat (case_env; run_monad); cbn [negb];
    eexists; eexists; (split; [reflexivity|]);
    conjs; intros; conjs; cbn; try discriminate; try reflexivity.
Qed.

Lemma CreateRenderResources_run (env : Env) (this : OverlayWindow) (n : Handle) :
  exists this' n',
    CreateRenderResources env this n
    = ((render_resources_succeed env, this'), n',
       [EvCreateSwapChain (right (m_bounds this) - left (m_bounds this))
          (bottom (m_bounds this) - top (m_bounds this)) (m_allowTearing this)]) /\
    window_kept this this' /\
    m_device this' = m_device this /\ m_context this' = m_context this /\
    (render_resources_succeed env = true ->
     m_swapChain this' <> None /\ m_renderTarget this' <> None /\
     m_vertexBuffer this' <> None /\ m_indexBuffer this' <> None /\
     m_sampler this' <> None /\ m_blendState this' <> None).
Proof.
  unfold CreateRenderResources, load_overlay_shaders, render_resources_succeed,
    window_kept.
  repeat (case_env; run_monad; cbn [andb negb]);
    eexists; eexists; (split; [reflexivity|]);
    conjs; intros; conjs; cbn; try discriminate; try reflexivity.
Qed.









Lemma overlay_shown_facts :
  m_visible overlay_shown = true /\ m_hwnd overlay_shown <> None /\
  m_swapChain overlay_shown <> None.
Proof. repeat split; discriminate. Qed.


(** *** Display changes *)

(** C6 as stated fails: when the swap chain refuses to resize,
    [OnDisplayChange] hides the overlay; it does not take the device-loss
    path (no teardown pause, no device creation, lost flag untouched, no
    notification). *)
Lemma resize_failure_is_not_device_loss :
  let r := OnDisplayChange env_resize_fails overlay_shown next_handle in
  resize_succeeds env_resize_fails = false /\
  m_visible overlay_shown = true /\
  treated_as_device_loss (events r) = false /\
  recovery_attempts (events r) = 0%nat /\
  m_deviceLost (value r) = false /\
  notifications (events r) = [] /\
  m_visible (value r) = false.
Proof. vm_compute. repeat split. Qed.

Lemma Hide_run (this : OverlayWindow) (n : Handle) :
  m_hwnd this <> None ->
  exists ev,
    Hide this n = ((set_visible false this, n), ev) /\
    (ev = [] \/ ev = [EvShowWindow SW_HIDE]).
Proof.
  intros Hw. unfold Hide.
  destruct (m_hwnd this); [|now destruct Hw].
  destruct (m_visible this) eqn:V; cbn [negb].
  - eexists. split; [reflexivity|]. now right.
  - exists []. split; [|now left].
    destruct this. cbn in V. subst. reflexivity.
Qed.

(** [Resize] on a window with a swap chain and positive bounds: the render
    target is released, the buffers are resized in place, and on any
    failure the overlay is hidden. *)
Lemma Resize_run (env : Env) (this : OverlayWindow) (n : Handle) :
  m_hwnd this <> None -> m_swapChain this <> None ->
  0 < right (m_bounds this) - left (m_bounds this) ->
  0 < bottom (m_bounds this) - top (m_bounds this) ->
  exists this' n' ev,
    Resize env this n
    = ((this', n'),
       EvReset renderTarget
       :: EvResizeBuffers 3 (right (m_bounds this) - left (m_bounds this))
            (bottom (m_bounds this) - top (m_bounds this)) (m_allowTearing this)
       :: ev) /\
    (ev = [] \/ ev = [EvShowWindow SW_HIDE]) /\
    m_device this' = m_device this /\ m_context this' = m_context this /\
    m_swapChain this' = m_swapChain this /\
    m_deviceLost this' = m_deviceLost this /\
    (resize_succeeds env = true ->
       m_renderTarget this' <> None /\ m_visible this' = m_visible this) /\
    (resize_succeeds env = false ->
       m_renderTarget this' = None /\ m_visible this' = false).
Proof.
  intros Hw Sc Wp Hp. unfold Resize, resize_succeeds.
  destruct (m_swapChain this) as [sc|] eqn:Esc; [|now destruct Sc].
  rewrite (bind_run (emit (EvReset renderTarget)) _ n tt n
             [EvReset renderTarget] eq_refl).
  cbn [fst snd m_bounds set_renderTarget m_allowTearing].
  apply Z.leb_gt in Wp, Hp. rewrite Wp, Hp. cbn [orb].
  rewrite (bind_run (emit _) _ n tt n [_] eq_refl).
  cbn [fst snd].
  assert (Hh : m_hwnd (set_renderTarget None this) <> None) by exact Hw.
  destruct (Hide_run (set_renderTarget None this) n Hh) as (ev & Eh & Hev).
  destruct (FAILED (hr env ResizeBuffers));
    [|destruct (FAILED (hr env GetBuffer));
      [|destruct (FAILED (hr env CreateRenderTargetView))]];
    cbn [negb andb]; rewrite ?Eh; run_monad;
    eexists; eexists; eexists; (split; [reflexivity|]);
    cbn; rewrite ?Esc; conjs; auto; intros; conjs;
    try discriminate; reflexivity.
Qed.

Lemma quiet_tail (ev : list Event) :
  ev = [] \/ ev = [EvShowWindow SW_HIDE] ->
  treated_as_device_loss ev = false /\ notifications ev = [].
Proof. intros [-> | ->]; split; reflexivity. Qed.

(** C6 (amended): on a display or DPI change the overlay recomputes its
    bounds, repositions the window and resizes the swap chain in place:
    the device, the context and the swap chain object stay the same and no
    device is created.  If the resize and the new render target succeed the
    overlay keeps its visibility and has a render target again; if any of
    the three calls fails the overlay is hidden, and that failure is not
    treated as device loss: no recovery is attempted, the lost flag does not
    change and nobody is notified. *)
Theorem OnDisplayChange_resizes_in_place (env : Env) (this : OverlayWindow)
    (n : Handle) (dpi : Z) :
  m_hwnd this <> None -> m_swapChain this <> None ->
  0 < GetSystemMetrics env SM_CXVIRTUALSCREEN ->
  0 < GetSystemMetrics env SM_CYVIRTUALSCREEN ->
  let r := OnDisplayChange env this n in
  let after := value r in
  OnDpiChange env dpi this n = r /\
  treated_as_device_loss (events r) = false /\
  notifications (events r) = [] /\
  m_device after = m_device this /\ m_context after = m_context this /\
  m_swapChain after = m_swapChain this /\
  m_deviceLost after = m_deviceLost this /\
  In (EvResizeBuffers 3 (GetSystemMetrics env SM_CXVIRTUALSCREEN)
        (GetSystemMetrics env SM_CYVIRTUALSCREEN) (m_allowTearing this))
     (events r) /\
  (resize_succeeds env = true ->
     m_renderTarget after <> None /\ m_visible after = m_visible this) /\
  (resize_succeeds env = false ->
     m_renderTarget after = None /\ m_visible after = false).
Proof.
  intros Hw Sc Wp Hp r after.
  assert (Hr : r = OnDisplayChange env this n) by reflexivity.
  split; [now rewrite Hr|].
  clearbody r. subst after.
  unfold OnDisplayChange in Hr.
  set (t0 := CalculateBounds env this) in *.
  assert (W0 : right (m_bounds t0) - left (m_bounds t0)
               = GetSystemMetrics env SM_CXVIRTUALSCREEN)
    by (subst t0; cbn; lia).
  assert (H0 : bottom (m_bounds t0) - top (m_bounds t0)
               = GetSystemMetrics env SM_CYVIRTUALSCREEN)
    by (subst t0; cbn; lia).
  assert (Hw0 : m_hwnd t0 <> None) by exact Hw.
  assert (Sc0 : m_swapChain t0 <> None) by exact Sc.
  destruct (Resize_run env t0 n Hw0 Sc0) as
    (t1 & n1 & ev & E1 & Hev & Dv & Cx & Sw & Dl & Ok & Ko); [lia|lia|].
  rewrite W0, H0 in E1.
  destruct (quiet_tail ev Hev) as (Qd & Qn).
  assert (Ep : exists p, (match m_hwnd t0 with
                | Some _ =>
                    emit (EvSetWindowPos (left (m_bounds t0)) (top (m_bounds t0))
                            (right (m_bounds t0) - left (m_bounds t0))
                            (bottom (m_bounds t0) - top (m_bounds t0)))
                | None => ret tt
                end) n = ((tt, n), [p]) /\ is_device_creation p = false /\
                is_pause p = false /\ notifications [p] = []).
  { destruct (m_hwnd t0); [|now destruct Hw0]. eexists. repeat split. }
  destruct Ep as (p & Ep & P1 & P2 & P3).
  rewrite (bind_run _ _ _ _ _ _ Ep), E1 in Hr. cbn [fst snd app] in Hr.
  subst r. unfold value, events. cbn [fst snd].
  conjs; auto.
  - unfold treated_as_device_loss in *. cbn. rewrite P1, P2. exact Qd.
  - destruct p; cbn in *; try discriminate; exact Qn.
  - right. right. now left.
Qed.

Lemma OnDisplayChange_resizes_in_place_witness :
  let env := env_present S_OK in
  let this := overlay_shown in
  let r := OnDisplayChange env this next_handle in
  let after := value r in
  OnDpiChange env 120 this next_handle = r /\
  treated_as_device_loss (events r) = false /\
  notifications (events r) = [] /\
  m_device after = m_device this /\ m_context after = m_context this /\
  m_swapChain after = m_swapChain this /\
  m_deviceLost after = m_deviceLost this /\
  In (EvResizeBuffers 3 (GetSystemMetrics env SM_CXVIRTUALSCREEN)
        (GetSystemMetrics env SM_CYVIRTUALSCREEN) (m_allowTearing this))
     (events r) /\
  (resize_succeeds env = true ->
     m_renderTarget after <> None /\ m_visible after = m_visible this) /\
  (resize_succeeds env = false ->
     m_renderTarget after = None /\ m_visible after = false).
Proof.
  apply (OnDisplayChange_resizes_in_place (env_present S_OK) overlay_shown
           next_handle 120).
  - discriminate.
  - discriminate.
  - reflexivity.
  - reflexivity.
Defined.

End OverlayWindowProofs.

(** ** ShaderPipeline: initialisation *)

Module ShaderPipelineSetup.
Import Float32 Float32Facts ShaderPipeline ShaderPipelineProofs.

Ltac init_done :=
  cbn; split; [reflexivity|]; split; [reflexivity|]; split; [reflexivity|];
  intros H; try discriminate H;
  repeat split; try reflexivity; discriminate.

Ltac init_step c := destruct c eqn:?; cbn; [|try init_done].
Ltac init_step' c := destruct c eqn:?; cbn; [try init_done|].

Lemma Initialize_pipeline_run (env : Env) (device : option Handle)
    (shadersPath : string) (n : Handle) :
  let r := Initialize env device shadersPath new_pipeline n in
  let after := snd (value r) in
  fst (value r) = is_object device && required_resources env /\
  m_ready after = fst (value r) /\
  events r = [] /\
  (fst (value r) = true ->
     m_device after = device /\ m_context after <> None /\
     m_shadersPath after = shadersPath /\
     option_map shader_file (m_vertexShader after) = Some fullscreen_vs_cso /\
     option_map shader_file (m_contrastShader after) = Some contrast_cso /\
     option_map shader_file (m_invertShader after) = Some invert_cso /\
     option_map shader_file (m_passthroughShader after)
       = Some passthrough_cso /\
     option_map shader_file (m_edgeShader after)
       = (if edge_available env then Some edge_enhance_cso else None) /\
     m_constantBuffer after <> None /\
     m_params after = default_params /\ m_paramsDirty after = true /\
     surfaces after = (None, None, None, None, None, None)).
Proof.
  cbv zeta.
  unfold Initialize, LoadVertexShader, LoadPixelShader, CreateConstantBuffer,
    CreateFullscreenQuad, required_resources, edge_available, is_object,
    surfaces.
  destruct device as [dev|]; [|init_done].
  cbn.
  init_step (file_opens env fullscreen_vs_cso).
  init_step' (FAILED (hr env CreateVertexShader)).
  init_step' (FAILED (hr env CreateInputLayout)).
  init_step (file_opens env contrast_cso).
  init_step' (FAILED (hr env (CreatePixelShader contrast_cso))).
  init_step (file_opens env invert_cso).
  init_step' (FAILED (hr env (CreatePixelShader invert_cso))).
  destruct (file_opens env edge_enhance_cso) eqn:?;
    [destruct (FAILED (hr env (CreatePixelShader edge_enhance_cso))) eqn:?|];
    cbn;
    (init_step (file_opens env passthrough_cso));
    (init_step' (FAILED (hr env (CreatePixelShader passthrough_cso))));
    (init_step' (FAILED (hr env CreateBuffer_constant)));
    (init_step' (FAILED (hr env CreateBuffer_vertex)));
    (init_step' (FAILED (hr env CreateBuffer_index)));
    (init_step' (FAILED (hr env CreateSamplerState)));
    init_done.
Qed.

(** X1: [Initialize] on a newly constructed pipeline succeeds exactly when the
    device is not null and the vertex shader with its input layout, the
    contrast, invert and passthrough shaders, the constant buffer, the quad
    buffers and the sampler can all be created.  [m_ready] is the result,
    no device call is traced and no surface is allocated.  A missing edge
    shader does not fail it: [m_edgeShader] is then null.  On success the
    parameters are the defaults and are marked dirty. *)
Theorem Initialize_succeeds_iff_resources (env : Env) (device : option Handle)
    (shadersPath : string) (n : Handle) :
  let r := Initialize env device shadersPath new_pipeline n in
  let after := snd (value r) in
  fst (value r) = is_object device && required_resources env /\
  m_ready after = fst (value r) /\
  events r = [] /\
  (fst (value r) = true ->
     m_device after = device /\ m_context after <> None /\
     m_shadersPath after = shadersPath /\
     option_map shader_file (m_vertexShader after) = Some fullscreen_vs_cso /\
     option_map shader_file (m_contrastShader after) = Some contrast_cso /\
     option_map shader_file (m_invertShader after) = Some invert_cso /\
     option_map shader_file (m_passthroughShader after)
       = Some passthrough_cso /\
     option_map shader_file (m_edgeShader after)
       = (if edge_available env then Some edge_enhance_cso else None) /\
     m_constantBuffer after <> None /\
     m_params after = default_params /\ m_paramsDirty after = true /\
     surfaces after = (None, None, None, None, None, None)).
Proof. exact (Initialize_pipeline_run env device shadersPath n). Qed.

End ShaderPipelineSetup.

(** ** ShaderPipeline: one frame *)

Module ShaderPipelineFrames.
Import Float32 Float32Facts ShaderPipeline ShaderPipelineProofs.

(** *** Reading traces *)

Lemma passes_app (l1 l2 : list Event) :
  passes (l1 ++ l2) = passes l1 ++ passes l2.
Proof.
  induction l1 as [|e l1 IH]; [reflexivity|].
  destruct e; cbn; rewrite ?IH; reflexivity.
Qed.

Lemma targets_app (l1 l2 : list Event) :
  targets (l1 ++ l2) = targets l1 ++ targets l2.
Proof.
  induction l1 as [|e l1 IH]; [reflexivity|].
  destruct e; cbn; rewrite ?IH; reflexivity.
Qed.

Lemma uploads_app (l1 l2 : list Event) :
  uploads (l1 ++ l2) = uploads l1 ++ uploads l2.
Proof.
  induction l1 as [|e l1 IH]; [reflexivity|].
  destruct e; cbn; rewrite ?IH; reflexivity.
Qed.

Lemma passes_upload_nothing (l : list Event) :
  forallb is_pass l = true -> uploads l = [].
Proof.
  induction l as [|e l IH]; [reflexivity|].
  destruct e; cbn; try discriminate. exact IH.
Qed.

(** *** The steps of [Process] *)

Lemma CreateIntermediateTextures_keeps (env : Env) (width height : Z)
    (this : ShaderPipeline) (n : Handle) :
  let r := CreateIntermediateTextures env width height this n in
  let t := snd (value r) in
  m_ready t = m_ready this /\ m_params t = m_params this /\
  m_paramsDirty t = m_paramsDirty this /\
  m_constantBuffer t = m_constantBuffer this /\
  m_contrastShader t = m_contrastShader this /\
  m_invertShader t = m_invertShader this /\
  m_edgeShader t = m_edgeShader this /\
  m_passthroughShader t = m_passthroughShader this /\
  passes (events r) = [] /\ uploads (events r) = [] /\
  (fst (value r) = true -> surfaces_linked t) /\
  (fst (value r) = false -> m_outputSRV t = None) /\
  (FAILED (hr env CreateTexture2D_intermediate) = true ->
   surfaces t = (None, None, None, None, None, None)).
Proof.
  unfold CreateIntermediateTextures, surfaces_linked, surfaces.
  run_passes.
  repeat match goal with
         | |- context [FAILED ?h] => destruct (FAILED h); run_passes; cbn
         end;
    repeat split; try discriminate; try reflexivity;
    intros _; do 6 eexists; repeat (split; [reflexivity|]); cbn; lia.
Qed.

Lemma UpdateParameters_run (env : Env) (this : ShaderPipeline) (n : Handle) :
  let up := m_paramsDirty this && is_object (m_constantBuffer this)
            && SUCCEEDED (hr env Map_constantBuffer) in
  (if m_paramsDirty this then UpdateParameters env this else ret this) n
  = ((set_params (m_params this) (m_paramsDirty this && negb up) this, n),
     if up then [EvUpload (m_params this)] else []).
Proof.
  unfold UpdateParameters, is_object.
  destruct this as [? ? ? ? ? dirty ? ? ? ? ? ? cb]; cbn.
  destruct dirty; cbn; [|reflexivity].
  destruct cb; cbn; [|reflexivity].
  destruct (SUCCEEDED _); reflexivity.
Qed.


(** [Process] on a ready pipeline and a frame, step by step: the optional
    reallocation, the optional upload, the input view, the passes. *)
Lemma Process_run (env : Env) (d : Texture2D) (this : ShaderPipeline)
    (n : Handle) :
  m_ready this = true ->
  exists ok t1 n1 ev1,
    (if size_differs d this
     then CreateIntermediateTextures env (to_int32 (Width d))
            (to_int32 (Height d)) this
     else ret (true, this)) n = ((ok, t1), n1, ev1) /\
    let up := m_paramsDirty t1 && is_object (m_constantBuffer t1)
              && SUCCEEDED (hr env Map_constantBuffer) in
    let t2 := set_params (m_params t1) (m_paramsDirty t1 && negb up) t1 in
    let ev2 := if up then [EvUpload (m_params t1)] else [] in
    Process env (Some d) this n =
      if negb ok then ((Some d, t1), n1, ev1)
      else if FAILED (hr env CreateShaderResourceView_input)
           then ((Some d, t2), n1, ev1 ++ ev2)
           else
             let m := MultiPassRendering
                        (Some {| view_id := n1; view_of := tex_id d |}) t2
                        (S n1) in
             ((value m, t2), snd (fst m), ev1 ++ ev2 ++ events m).
Proof.
  intros Hready. unfold Process. rewrite Hready. cbn [negb].
  match goal with
  | |- context [bind ?m ?k n] =>
      destruct (m n) as [[[ok t1] n1] ev1] eqn:E;
      exists ok, t1, n1, ev1; split; [reflexivity|];
      rewrite (bind_run m k n _ _ _ E)
  end.
  cbn [fst snd]. cbv zeta.
  destruct ok; cbn [negb]; [|cbn; now rewrite app_nil_r].
  match goal with
  | |- context [bind ?m ?k n1] =>
      rewrite (bind_run m k n1 _ _ _ (UpdateParameters_run env t1 n1))
  end.
  destruct (FAILED (hr env CreateShaderResourceView_input)).
  - cbn. now rewrite app_nil_r.
  - cbv [bind ret fresh value events]. cbn [fst snd].
    match goal with
    | |- context [MultiPassRendering ?v ?t ?k] =>
        destruct (MultiPassRendering v t k) as [[out n2] evm]
    end.
    cbn. now rewrite app_nil_r.
Qed.


Lemma reallocation_step (env : Env) (d : Texture2D) (this : ShaderPipeline)
    (n : Handle) ok t1 n1 ev1 :
  (if size_differs d this
   then CreateIntermediateTextures env (to_int32 (Width d))
          (to_int32 (Height d)) this
   else ret (true, this)) n = ((ok, t1), n1, ev1) ->
  ok = negb (size_differs d this) || allocation_succeeds env /\
  (m_ready t1 = m_ready this /\ m_params t1 = m_params this /\
   m_paramsDirty t1 = m_paramsDirty this /\
   m_constantBuffer t1 = m_constantBuffer this /\
   m_contrastShader t1 = m_contrastShader this /\
   m_invertShader t1 = m_invertShader this /\
   m_edgeShader t1 = m_edgeShader this /\
   m_passthroughShader t1 = m_passthroughShader this) /\
  passes ev1 = [] /\ uploads ev1 = [] /\
  reallocates ev1 = size_differs d this /\
  (size_differs d this = false -> t1 = this) /\
  (size_differs d this = true ->
     m_outputWidth t1 = to_int32 (Width d) /\
     m_outputHeight t1 = to_int32 (Height d) /\
     (ok = true -> surfaces_linked t1) /\
     (ok = false -> m_outputSRV t1 = None) /\
     (FAILED (hr env CreateTexture2D_intermediate) = true ->
      surfaces t1 = (None, None, None, None, None, None))).
Proof.
  destruct (size_differs d this) eqn:D; intros E.
  - pose proof (CreateIntermediateTextures_keeps env (to_int32 (Width d))
                  (to_int32 (Height d)) this n) as K.
    pose proof (CreateIntermediateTextures_spec env (to_int32 (Width d))
                  (to_int32 (Height d)) this n) as S.
    cbv zeta in K, S. rewrite E in K, S. unfold value, events in K, S.
    cbn [fst snd] in K, S.
    destruct K as (K1 & K2 & K3 & K4 & K5 & K6 & K7 & K8 & K9 & K10 & K11
                   & K12 & K13).
    destruct S as (_ & S2 & _ & S4 & S5 & S6 & _).
    repeat split; try assumption; try discriminate.
  - cbv [ret] in E. injection E as <- <- <- <-.
    repeat split; try reflexivity; discriminate.
Qed.


(** The pass block always starts with the base adjustment of the input
    into the intermediate surface, runs nothing but passes, and returns one
    of the two surfaces. *)
Lemma MultiPassRendering_first (v : option View) (this : ShaderPipeline)
    (n : Handle) :
  exists rest,
    events (MultiPassRendering v this n)
    = EvRenderPass v (m_intermediateRTV this) (m_contrastShader this)
        (m_outputWidth this) (m_outputHeight this) :: rest /\
    (value (MultiPassRendering v this n) = m_outputTexture this \/
     value (MultiPassRendering v this n) = m_intermediateTexture this).
Proof.
  unfold MultiPassRendering. run_passes.
  destruct (negb (invertMode (m_params this) =? 0)); run_passes;
    destruct (ltb f0_0 (edgeStrength (m_params this)));
    destruct (m_edgeShader this); run_passes;
    repeat match goal with
           | |- context [ptr_eqb ?a ?b] => destruct (ptr_eqb a b); run_passes
           end;
    eexists; split; try reflexivity; auto.
Qed.

(** On linked surfaces the texture the pass block returns is the texture
    its last pass has rendered into. *)
Lemma MultiPassRendering_last_target (v : option View) (this : ShaderPipeline)
    (n : Handle) :
  surfaces_linked this ->
  exists rtv tex,
    last (targets (events (MultiPassRendering v this n))) None = Some rtv /\
    value (MultiPassRendering v this n) = Some tex /\
    view_of rtv = tex_id tex.
Proof.
  intros (ti & ri & si & to_ & ro & so & Hti & Hri & Hsi & Hto & Hro & Hso
          & L1 & L2 & L3 & L4 & D1 & D2).
  assert (Pss : ptr_eqb (Some si) (Some so) = false)
    by (cbn; now apply Nat.eqb_neq).
  assert (Pss' : ptr_eqb (Some so) (Some si) = false)
    by (cbn; apply Nat.eqb_neq; congruence).
  assert (Prr : ptr_eqb (Some ro) (Some ri) = false)
    by (cbn; apply Nat.eqb_neq; congruence).
  unfold MultiPassRendering. rewrite Hti, Hri, Hsi, Hto, Hro, Hso.
  run_passes.
  destruct (negb (invertMode (m_params this) =? 0)); run_passes;
    destruct (ltb f0_0 (edgeStrength (m_params this)));
    destruct (m_edgeShader this); run_passes;
    rewrite ?Pss, ?Pss', ?Prr, ?ptr_eqb_refl; run_passes;
    rewrite ?Pss, ?Pss', ?Prr, ?ptr_eqb_refl; run_passes;
    cbn [targets last];
    first [ exists ro, to_; now repeat split
          | exists ri, ti; now repeat split ].
Qed.

Ltac no_pass_case :=
  split; [split; intros; reflexivity|];
  split; [intros; reflexivity|];
  split; [intros H; now elim H|];
  split; first [assumption | reflexivity].

(** X2: [Process] draws no pass exactly when it stops early (pipeline not
    ready, null input, failed allocation of the surfaces, failed view on
    the input), and it then returns its input.  When it draws, the first
    pass uses the contrast shader and the result is the output or the
    intermediate texture.  [Process] never changes [m_ready] or
    [m_params]. *)
Theorem Process_returns_input_iff_no_pass (env : Env)
    (input : option Texture2D) (this : ShaderPipeline) (n : Handle) :
  let r := Process env input this n in
  (passes (events r) = [] <-> runs_passes env input this = false) /\
  (passes (events r) = [] -> fst (value r) = input) /\
  (passes (events r) <> [] ->
     hd_error (passes (events r))
       = Some (option_map shader_file (m_contrastShader this)) /\
     (fst (value r) = m_outputTexture (snd (value r)) \/
      fst (value r) = m_intermediateTexture (snd (value r)))) /\
  m_ready (snd (value r)) = m_ready this /\
  m_params (snd (value r)) = m_params this.
Proof.
  cbv zeta. unfold runs_passes, surfaces_available.
  destruct (m_ready this) eqn:Hready.
  2:{ unfold Process. rewrite Hready. cbn.
      no_pass_case. }
  destruct input as [d|].
  2:{ unfold Process. rewrite Hready. cbn.
      no_pass_case. }
  destruct (Process_run env d this n Hready) as (ok & t1 & n1 & ev1 & E & P).
  cbv zeta in P. rewrite P. clear P.
  destruct (reallocation_step env d this n ok t1 n1 ev1 E)
    as (Hok & (K1 & K2 & K3 & K4 & K5 & K6 & K7 & K8) & Hp1 & Hu1 & _).
  rewrite <- Hok. cbn [andb]. rewrite Hready in K1.
  destruct ok; cbn [negb andb].
  2:{ unfold value, events. cbn [fst snd]. rewrite Hp1.
      no_pass_case. }
  set (up := m_paramsDirty t1 && is_object (m_constantBuffer t1)
             && SUCCEEDED (hr env Map_constantBuffer)).
  assert (Hp2 : passes (if up then [EvUpload (m_params t1)] else []) = [])
    by now destruct up.
  destruct (FAILED (hr env CreateShaderResourceView_input)); cbn [negb].
  - unfold value, events. cbn [fst snd]. rewrite passes_app, Hp1, Hp2.
    no_pass_case.
  - match goal with
    | |- context [MultiPassRendering ?v ?t ?k] =>
        destruct (MultiPassRendering_first v t k) as (rest & Em & Hv);
        destruct (MultiPassRendering v t k) as [[out n2] evm]
    end.
    unfold value, events in *. cbn [fst snd] in *. subst evm.
    rewrite !passes_app, Hp1, Hp2. cbn [app passes hd_error m_contrastShader set_params m_ready m_params].
    rewrite K5.
    repeat split; try discriminate; try assumption.
Qed.


Lemma targets_of_no_pass (l : list Event) : passes l = [] -> targets l = [].
Proof.
  induction l as [|e l IH]; [reflexivity|].
  destruct e; cbn; try exact IH. discriminate.
Qed.

Lemma last_app_cons {A} (l1 l2 : list A) (x d : A) :
  last (l1 ++ x :: l2) d = last (x :: l2) d.
Proof.
  induction l1 as [|y l1 IH]; [reflexivity|].
  cbn [app]. rewrite <- IH. destruct (l1 ++ x :: l2) eqn:E; [|reflexivity].
  now destruct l1.
Qed.

Lemma surfaces_linked_set_params (p : TransformParams) (dirty : bool)
    (t : ShaderPipeline) :
  surfaces_linked t -> surfaces_linked (set_params p dirty t).
Proof. intros H. exact H. Qed.

(** X3: on a ready pipeline whose surfaces fit the frame or can be allocated,
    and whose view on the input can be created, the texture [Process]
    returns is the texture behind the render target of the last pass it
    drew, and the surfaces are left linked (each view on its own
    texture). *)
Theorem Process_returns_last_target (env : Env) (d : Texture2D)
    (this : ShaderPipeline) (n : Handle) :
  m_ready this = true ->
  FAILED (hr env CreateShaderResourceView_input) = false ->
  (size_differs d this = true /\ allocation_succeeds env = true) \/
  (size_differs d this = false /\ surfaces_linked this) ->
  let r := Process env (Some d) this n in
  exists rtv tex,
    last (targets (events r)) None = Some rtv /\
    fst (value r) = Some tex /\
    view_of rtv = tex_id tex /\
    surfaces_linked (snd (value r)).
Proof.
  intros Hready Hsrv Hcase. cbv zeta.
  destruct (Process_run env d this n Hready) as (ok & t1 & n1 & ev1 & E & P).
  cbv zeta in P. rewrite P. clear P.
  destruct (reallocation_step env d this n ok t1 n1 ev1 E)
    as (Hok & _ & Hp1 & _ & _ & Hsame & Hdiff).
  assert (Hok' : ok = true).
  { destruct Hcase as [[D A]|[D _]]; rewrite Hok, D; cbn; [exact A|reflexivity]. }
  assert (L1 : surfaces_linked t1).
  { destruct Hcase as [[D A]|[D L]].
    - now apply (Hdiff D).
    - now rewrite (Hsame D). }
  rewrite Hok', Hsrv. cbn [negb].
  set (up := m_paramsDirty t1 && is_object (m_constantBuffer t1)
             && SUCCEEDED (hr env Map_constantBuffer)).
  set (t2 := set_params (m_params t1) (m_paramsDirty t1 && negb up) t1).
  assert (L2 : surfaces_linked t2) by exact L1.
  assert (Hp2 : targets (if up then [EvUpload (m_params t1)] else []) = [])
    by now destruct up.
  match goal with
  | |- context [MultiPassRendering ?v ?t ?k] =>
      destruct (MultiPassRendering_last_target v t k L2)
        as (rtv & tex & Hl & Hv & Hlink);
      destruct (MultiPassRendering v t k) as [[out n2] evm]
  end.
  unfold value, events in *. cbn [fst snd] in *.
  exists rtv, tex.
  rewrite !targets_app, (targets_of_no_pass _ Hp1), Hp2. cbn [app].
  repeat split; assumption.
Qed.

Lemma Process_returns_last_target_witness :
  let r := Process env_ok (frame 1000%nat 1920 1080) pipeline_ready 12%nat in
  exists rtv tex,
    last (targets (events r)) None = Some rtv /\
    fst (value r) = Some tex /\
    view_of rtv = tex_id tex /\
    surfaces_linked (snd (value r)).
Proof.
  apply (Process_returns_last_target env_ok
           {| tex_id := 1000%nat; Width := 1920; Height := 1080 |}
           pipeline_ready 12%nat).
  - reflexivity.
  - reflexivity.
  - left. split; reflexivity.
Defined.

(** What one frame does to the parameters. *)
Lemma Process_upload (env : Env) (input : option Texture2D)
    (this : ShaderPipeline) (n : Handle) :
  let r := Process env input this n in
  let after := snd (value r) in
  uploads (events r)
    = (if upload_happens env input this then [m_params this] else []) /\
  m_paramsDirty after
    = m_paramsDirty this && negb (upload_happens env input this) /\
  m_params after = m_params this /\
  exists before drawn,
    events r = before ++ drawn /\ passes before = [] /\ uploads drawn = [].
Proof.
  cbv zeta. unfold upload_happens, surfaces_available.
  destruct (m_ready this) eqn:Hready.
  2:{ unfold Process. rewrite Hready. cbn. rewrite andb_true_r.
      repeat split; try reflexivity. now exists [], []. }
  destruct input as [d|].
  2:{ unfold Process. rewrite Hready. cbn. rewrite andb_true_r.
      repeat split; try reflexivity. now exists [], []. }
  destruct (Process_run env d this n Hready) as (ok & t1 & n1 & ev1 & E & P).
  cbv zeta in P. rewrite P. clear P.
  destruct (reallocation_step env d this n ok t1 n1 ev1 E)
    as (Hok & (_ & K2 & K3 & K4 & _) & Hp1 & Hu1 & _).
  rewrite <- Hok. cbn [andb]. rewrite K2, K3, K4.
  destruct ok; cbn [negb andb].
  { set (up := m_paramsDirty this && is_object (m_constantBuffer this)
               && SUCCEEDED (hr env Map_constantBuffer)).
    assert (Hp2 : passes (if up then [EvUpload (m_params this)] else []) = [])
      by now destruct up.
    assert (Hu2 : uploads (if up then [EvUpload (m_params this)] else [])
                  = if up then [m_params this] else [])
      by now destruct up.
    destruct (FAILED (hr env CreateShaderResourceView_input)).
    - unfold value, events. cbn [fst snd m_paramsDirty m_params set_params].
      rewrite uploads_app, Hu1, Hu2. cbn [app].
      repeat split; try reflexivity.
      exists (ev1 ++ (if up then [EvUpload (m_params this)] else [])), [].
      rewrite app_nil_r, passes_app, Hp1, Hp2. now repeat split.
    - match goal with
      | |- context [MultiPassRendering ?v ?t ?k] =>
          destruct (MultiPassRendering_only_passes v t k) as (Hm & _);
          destruct (MultiPassRendering v t k) as [[out n2] evm]
      end.
      unfold value, events in *. cbn [fst snd] in *.
      cbn [m_paramsDirty m_params set_params].
      rewrite !uploads_app, Hu1, Hu2, (passes_upload_nothing _ Hm).
      cbn [app]. rewrite app_nil_r.
      repeat split; try reflexivity.
      exists (ev1 ++ (if up then [EvUpload (m_params this)] else [])), evm.
      rewrite <- app_assoc, passes_app, Hp1, Hp2.
      repeat split. now apply passes_upload_nothing. }
  unfold value, events. cbn [fst snd]. rewrite Hu1, K2, K3, andb_true_r.
  repeat split; try reflexivity.
  exists ev1, []. rewrite app_nil_r. now repeat split.
Qed.

(** X4: [Process] copies the parameters into the constant buffer at most
    once, exactly when it reaches its surfaces with dirty parameters, a
    constant buffer and a successful [Map]; the copy comes before every
    pass, and only a copy clears the dirty flag.  After any setter call
    the next [Process] that gets that far uploads the new parameters;
    after an upload a further [Process] uploads nothing. *)
Theorem Process_uploads_dirty_parameters (env : Env)
    (input : option Texture2D) (this : ShaderPipeline) (n : Handle) :
  let r := Process env input this n in
  let after := snd (value r) in
  uploads (events r)
    = (if upload_happens env input this then [m_params this] else []) /\
  m_paramsDirty after
    = m_paramsDirty this && negb (upload_happens env input this) /\
  m_params after = m_params this /\
  (exists before drawn,
     events r = before ++ drawn /\ passes before = [] /\ uploads drawn = []) /\
  (forall c env' input' n',
     surfaces_available env' input' (run_setter c after) = true ->
     is_object (m_constantBuffer after) = true ->
     SUCCEEDED (hr env' Map_constantBuffer) = true ->
     uploads (events (Process env' input' (run_setter c after) n'))
     = [m_params (run_setter c after)]) /\
  (upload_happens env input this = true ->
   forall env' input' n',
     uploads (events (Process env' input' after n')) = []).
Proof.
  cbv zeta.
  destruct (Process_upload env input this n) as (U & D & Pm & Tr).
  cbv zeta in U, D, Pm, Tr.
  split; [exact U|]. split; [exact D|]. split; [exact Pm|].
  split; [exact Tr|]. split.
  - intros c env' input' n' Hs Hcb Hmap.
    destruct (Process_upload env' input'
                (run_setter c (snd (value (Process env input this n)))) n')
      as (U' & _).
    cbv zeta in U'. rewrite U'. unfold upload_happens.
    rewrite Hs, run_setter_marks_dirty, Hmap.
    replace (is_object (m_constantBuffer
               (run_setter c (snd (value (Process env input this n))))))
      with true; [reflexivity|].
    symmetry. destruct c; exact Hcb.
  - intros Hup env' input' n'.
    destruct (Process_upload env' input'
                (snd (value (Process env input this n))) n') as (U' & _).
    cbv zeta in U'. rewrite U'. unfold upload_happens at 1.
    rewrite D, Hup. cbn [negb]. rewrite !andb_false_r. reflexivity.
Qed.


(** Without surfaces the pass block draws into null targets and returns a
    null texture. *)
Lemma MultiPassRendering_no_surfaces (v : option View) (this : ShaderPipeline)
    (n : Handle) :
  surfaces this = (None, None, None, None, None, None) ->
  value (MultiPassRendering v this n) = None /\
  Forall (fun rt => rt = None) (targets (events (MultiPassRendering v this n))).
Proof.
  unfold surfaces. intros H. injection H as H1 H2 H3 H4 H5 H6.
  unfold MultiPassRendering. rewrite H1, H2, H3, H4, H5, H6.
  run_passes.
  destruct (negb (invertMode (m_params this) =? 0)); run_passes;
    destruct (ltb f0_0 (edgeStrength (m_params this)));
    destruct (m_edgeShader this); run_passes;
    (split; [reflexivity|repeat constructor]).
Qed.

Lemma size_differs_same_size (d d' : Texture2D) (t : ShaderPipeline) :
  is_uint32 (Width d) -> is_uint32 (Height d) ->
  Width d' = Width d -> Height d' = Height d ->
  m_outputWidth t = to_int32 (Width d) ->
  m_outputHeight t = to_int32 (Height d) ->
  size_differs d' t = false.
Proof.
  intros HW HH EW EH W H. unfold size_differs.
  rewrite W, H, EW, EH, !to_uint32_to_int32, !Z.eqb_refl by assumption.
  reflexivity.
Qed.

(** X5: when [CreateIntermediateTextures] fails for a frame, [Process]
    returns the input and draws nothing; a later frame of the same size is
    not taken as a change of size, so the allocation is not tried again
    and the passes run on the surfaces as the failure left them.  If it
    was the intermediate texture that could not be created, every pass
    then has a null render target and [Process] returns null. *)
Theorem failed_allocation_is_not_retried (env1 env2 : Env)
    (d d' : Texture2D) (this : ShaderPipeline) (n n' : Handle) :
  m_ready this = true ->
  is_uint32 (Width d) -> is_uint32 (Height d) ->
  size_differs d this = true -> allocation_succeeds env1 = false ->
  Width d' = Width d -> Height d' = Height d ->
  let r1 := Process env1 (Some d) this n in
  let failed := snd (value r1) in
  let r2 := Process env2 (Some d') failed n' in
  fst (value r1) = Some d /\ passes (events r1) = [] /\
  m_outputSRV failed = None /\
  reallocates (events r2) = false /\
  surfaces (snd (value r2)) = surfaces failed /\
  (FAILED (hr env2 CreateShaderResourceView_input) = false ->
   passes (events r2) <> []) /\
  (FAILED (hr env1 CreateTexture2D_intermediate) = true ->
   FAILED (hr env2 CreateShaderResourceView_input) = false ->
   fst (value r2) = None /\
   Forall (fun rt => rt = None) (targets (events r2))).
Proof.
  intros Hready HW HH Hdiff Hfail EW EH. cbv zeta.
  destruct (Process_run env1 d this n Hready) as (ok & t1 & n1 & ev1 & E & P).
  cbv zeta in P. rewrite P. clear P.
  destruct (reallocation_step env1 d this n ok t1 n1 ev1 E)
    as (Hok & (K1 & _) & Hp1 & _ & _ & _ & Hd).
  destruct (Hd Hdiff) as (W1 & H1 & _ & Hnull & Hnone). clear Hd.
  rewrite Hdiff, Hfail in Hok. cbn in Hok. subst ok. cbn [negb].
  unfold value, events. cbn [fst snd].
  rewrite Hready in K1.
  assert (Hsame : size_differs d' t1 = false)
    by now apply (size_differs_same_size d d' t1).
  destruct (Process_run env2 d' t1 n' K1)
    as (ok2 & t1' & n2 & ev2 & E2 & P2).
  cbv zeta in P2. rewrite P2. clear P2.
  destruct (reallocation_step env2 d' t1 n' ok2 t1' n2 ev2 E2)
    as (Hok2 & _ & Hp2 & _ & Hr2 & Hkeep & _).
  rewrite Hsame in Hok2, Hr2. cbn in Hok2. subst ok2.
  rewrite (Hkeep Hsame). clear Hkeep. cbn [negb].
  set (up := m_paramsDirty t1 && is_object (m_constantBuffer t1)
             && SUCCEEDED (hr env2 Map_constantBuffer)).
  assert (Hup : reallocates (if up then [EvUpload (m_params t1)] else [])
                = false) by now destruct up.
  split; [reflexivity|]. split; [exact Hp1|]. split; [now apply Hnull|].
  destruct (FAILED (hr env2 CreateShaderResourceView_input)).
  - unfold value, events. cbn [fst snd].
    rewrite reallocates_app, Hr2, Hup.
    split; [reflexivity|]. split; [reflexivity|].
    split; [discriminate|]. intros _ C. discriminate.
  - match goal with
    | |- context [MultiPassRendering ?v ?t ?k] =>
        destruct (MultiPassRendering_only_passes v t k) as (Hm & _);
        destruct (MultiPassRendering_first v t k) as (rest & Em & _);
        pose proof (MultiPassRendering_no_surfaces v t k) as Hn;
        destruct (MultiPassRendering v t k) as [[out n3] evm]
    end.
    unfold value, events in *. cbn [fst snd] in *.
    rewrite !reallocates_app, Hr2, Hup, (passes_do_not_reallocate _ Hm).
    split; [reflexivity|]. split; [reflexivity|]. split.
    + intros _. rewrite !passes_app, Em. cbn [passes].
      intros C. apply app_eq_nil in C. destruct C as [_ C].
      apply app_eq_nil in C. destruct C as [_ C]. discriminate.
    + intros F _. destruct (Hn (Hnone F)) as (Hv & Ht).
      split; [exact Hv|].
      rewrite !targets_app, (targets_of_no_pass _ Hp2).
      replace (targets (if up then [EvUpload (m_params t1)] else []))
        with (@nil (option View)) by now destruct up.
      exact Ht.
Qed.

Lemma failed_allocation_is_not_retried_witness :
  let d := {| tex_id := 1000%nat; Width := 1920; Height := 1080 |} in
  let d' := {| tex_id := 1001%nat; Width := 1920; Height := 1080 |} in
  let r1 := Process env_alloc_fails (Some d) pipeline_ready 12%nat in
  let failed := snd (value r1) in
  let r2 := Process env_ok (Some d') failed 12%nat in
  fst (value r1) = Some d /\ passes (events r1) = [] /\
  m_outputSRV failed = None /\
  reallocates (events r2) = false /\
  surfaces (snd (value r2)) = surfaces failed /\
  (FAILED (hr env_ok CreateShaderResourceView_input) = false ->
   passes (events r2) <> []) /\
  (FAILED (hr env_alloc_fails CreateTexture2D_intermediate) = true ->
   FAILED (hr env_ok CreateShaderResourceView_input) = false ->
   fst (value r2) = None /\
   Forall (fun rt => rt = None) (targets (events r2))).
Proof.
  apply (failed_allocation_is_not_retried env_alloc_fails env_ok
           {| tex_id := 1000%nat; Width := 1920; Height := 1080 |}
           {| tex_id := 1001%nat; Width := 1920; Height := 1080 |}
           pipeline_ready 12%nat 12%nat).
  - reflexivity.
  - unfold is_uint32; cbn; lia.
  - unfold is_uint32; cbn; lia.
  - reflexivity.
  - reflexivity.
  - reflexivity.
  - reflexivity.
Defined.

End ShaderPipelineFrames.

(** ** Profiles and the parameters they set *)

Module ProfileFacts.
Import Float32 Float32Facts.

(** Clamping twice is clamping once, NaN included. *)
Lemma clamp_idempotent (v lo hi : float) :
  ltb lo lo = false -> ltb hi lo = false -> ltb hi hi = false ->
  clamp (clamp v lo hi) lo hi = clamp v lo hi.
Proof.
  intros Hll Hhl Hhh. unfold clamp.
  destruct (ltb v lo) eqn:E1.
  - now rewrite Hll, Hhl.
  - destruct (ltb hi v) eqn:E2.
    + now rewrite Hhl, Hhh.
    + now rewrite E1, E2.
Qed.

Lemma clamp_int_range (v lo hi : Z) :
  lo <= hi -> lo <= ProfileManager.clamp_int v lo hi <= hi.
Proof.
  intros H. unfold ProfileManager.clamp_int.
  destruct (v <? lo) eqn:E1; [lia|].
  destruct (hi <? v) eqn:E2; lia.
Qed.

Lemma clamp_int_idempotent (v lo hi : Z) :
  lo <= hi ->
  ProfileManager.clamp_int (ProfileManager.clamp_int v lo hi) lo hi
  = ProfileManager.clamp_int v lo hi.
Proof.
  intros H. unfold ProfileManager.clamp_int.
  destruct (v <? lo) eqn:E1.
  - rewrite Z.ltb_irrefl. destruct (hi <? lo) eqn:E; [lia|reflexivity].
  - destruct (hi <? v) eqn:E2.
    + destruct (hi <? lo) eqn:E; [lia|]. now rewrite Z.ltb_irrefl.
    + now rewrite E1, E2.
Qed.

Section Pipeline.
Import ShaderPipeline.

Lemma ApplyProfile_params (s : VisualSettings) (t : ShaderPipeline) :
  ApplyProfile s t
  = set_params
      {| contrast := clamp (vs_contrast s) f0_0 f4_0;
         brightness := clamp (vs_brightness s) fm1_0 f1_0;
         gamma := clamp (vs_gamma s) f0_1 f4_0;
         saturation := clamp (vs_saturation s) f0_0 f2_0;
         invertMode := InvertMode_to_int (vs_invertMode s);
         edgeStrength := clamp (vs_edgeStrength s) f0_0 f1_0 |}
      true t.
Proof. destruct t. reflexivity. Qed.

(** X6: [ApplyProfile] determines all six parameters from the settings alone,
    whatever the pipeline held before; it is idempotent, marks the
    parameters dirty, stores an invert mode of 0, 1 or 2, commutes with a
    later [SetInvertMode], and keeps readiness and surfaces.  When no
    setting is a NaN the stored values are within the declared ranges. *)
Theorem ApplyProfile_overwrites_every_parameter (s : VisualSettings)
    (t t' : ShaderPipeline) :
  m_params (ApplyProfile s t) = m_params (ApplyProfile s t') /\
  ApplyProfile s (ApplyProfile s t) = ApplyProfile s t /\
  m_paramsDirty (ApplyProfile s t) = true /\
  0 <= invertMode (m_params (ApplyProfile s t)) <= 2 /\
  (forall s', SetInvertMode (vs_invertMode s') (ApplyProfile s t)
              = ApplyProfile
                  {| vs_contrast := vs_contrast s;
                     vs_brightness := vs_brightness s;
                     vs_gamma := vs_gamma s;
                     vs_saturation := vs_saturation s;
                     vs_invertMode := vs_invertMode s';
                     vs_edgeStrength := vs_edgeStrength s |} t) /\
  (is_nan (vs_contrast s) = false -> is_nan (vs_brightness s) = false ->
   is_nan (vs_gamma s) = false -> is_nan (vs_saturation s) = false ->
   is_nan (vs_edgeStrength s) = false ->
   params_in_range (m_params (ApplyProfile s t)) = true) /\
  m_ready (ApplyProfile s t) = m_ready t /\
  surfaces (ApplyProfile s t) = surfaces t.
Proof.
  rewrite !ApplyProfile_params.
  split; [reflexivity|]. split; [now destruct t|]. split; [reflexivity|].
  split; [cbn; destruct (vs_invertMode s); cbn; lia|].
  split; [intros s'; rewrite ApplyProfile_params; now destruct t|].
  split; [|split; reflexivity].
  intros N1 N2 N3 N4 N5. unfold params_in_range.
  cbn [m_params set_params contrast brightness gamma saturation edgeStrength].
  rewrite !clamp_in_range; try assumption; reflexivity.
Qed.

End Pipeline.

Import ProfileManager.

Lemma ValidateProfile_in_ranges (p : Profile) :
  floats_ordered p = true -> in_ranges (ValidateProfile p) = true.
Proof.
  unfold floats_ordered, in_ranges. rewrite !andb_true_iff, !negb_true_iff.
  intros (((((N1 & N2) & N3) & N4) & N5) & N6).
  cbn [ValidateProfile visual magnifier speech vis_contrast vis_brightness
       vis_gamma vis_saturation vis_edgeStrength mag_zoomLevel mag_lensSize
       sp_rate sp_volume].
  rewrite !clamp_in_range; try assumption; try reflexivity.
  pose proof (clamp_int_range (mag_lensSize (magnifier p)) 100 1000).
  pose proof (clamp_int_range (sp_rate (speech p)) (-10) 10).
  pose proof (clamp_int_range (sp_volume (speech p)) 0 100).
  repeat split; try reflexivity; apply Z.leb_le; lia.
Qed.

(** X7: [ValidateProfile] is idempotent.  It leaves the lens size in
    [100, 1000], the speech rate in [-10, 10], the volume in [0, 100] and a
    name that is not empty; when no float of the profile is a NaN, every
    validated value is within its range.  A profile within the ranges with
    a name is returned unchanged; version, hotkeys, the enabled flags and
    the invert mode are never touched. *)
Theorem ValidateProfile_is_idempotent (p : Profile) :
  ValidateProfile (ValidateProfile p) = ValidateProfile p /\
  (floats_ordered p = true -> in_ranges (ValidateProfile p) = true) /\
  100 <= mag_lensSize (magnifier (ValidateProfile p)) <= 1000 /\
  -10 <= sp_rate (speech (ValidateProfile p)) <= 10 /\
  0 <= sp_volume (speech (ValidateProfile p)) <= 100 /\
  name (ValidateProfile p) <> EmptyString /\
  (in_ranges p = true -> name p <> EmptyString -> ValidateProfile p = p) /\
  version (ValidateProfile p) = version p /\
  hotkeys (ValidateProfile p) = hotkeys p /\
  vis_enabled (visual (ValidateProfile p)) = vis_enabled (visual p) /\
  vis_invertMode (visual (ValidateProfile p)) = vis_invertMode (visual p) /\
  mag_enabled (magnifier (ValidateProfile p)) = mag_enabled (magnifier p).
Proof.
  split.
  { unfold ValidateProfile.
    cbn [visual magnifier speech name version hotkeys vis_enabled vis_contrast
         vis_brightness vis_gamma vis_saturation vis_invertMode
         vis_edgeStrength mag_enabled mag_zoomLevel mag_followMode
         mag_lensMode mag_lensSize sp_rate sp_volume sp_voice].
    rewrite !clamp_idempotent by reflexivity.
    rewrite !clamp_int_idempotent by lia.
    f_equal. destruct (name p); reflexivity. }
  split; [apply ValidateProfile_in_ranges|].
  split; [apply clamp_int_range; lia|].
  split; [apply clamp_int_range; lia|].
  split; [apply clamp_int_range; lia|].
  split; [cbn; destruct (name p); cbn; discriminate|].
  split; [|repeat split].
  intros R Hn.
  destruct p as [nm ver [en c b g s im e] [men z fm lm ls] [r v vo] hk].
  unfold in_ranges in R. cbn in R, Hn.
  rewrite !andb_true_iff in R.
  destruct R as (((((((((((R1 & R2) & R3) & R4) & R5) & R6) & L1) & L2) & S1)
                   & S2) & V1) & V2).
  apply Z.leb_le in L1, L2, S1, S2, V1, V2.
  unfold ValidateProfile. cbn.
  assert (C : forall v lo hi, in_range lo hi v = true -> clamp v lo hi = v).
  { intros x lo hi H. unfold in_range in H. apply andb_true_iff in H.
    destruct H as [A B]. unfold clamp, ltb, leb, SFltb, SFleb in *.
    rewrite (SFcompare_antisym lo x).
    destruct (SFcompare lo x) as [[]|]; try discriminate; cbn;
      destruct (SFcompare x hi) as [[]|] eqn:E; try discriminate;
      rewrite (SFcompare_antisym x hi), E; reflexivity. }
  rewrite !C by assumption.
  unfold clamp_int.
  replace (ls <? 100) with false by (symmetry; apply Z.ltb_ge; lia).
  replace (1000 <? ls) with false by (symmetry; apply Z.ltb_ge; lia).
  replace (r <? -10) with false by (symmetry; apply Z.ltb_ge; lia).
  replace (10 <? r) with false by (symmetry; apply Z.ltb_ge; lia).
  replace (v <? 0) with false by (symmetry; apply Z.ltb_ge; lia).
  replace (100 <? v) with false by (symmetry; apply Z.ltb_ge; lia).
  destruct nm; [now elim Hn|reflexivity].
Qed.


(** X8: applying the visual settings of a validated profile stores exactly
    the validated contrast, brightness, gamma, saturation and edge
    strength: the clamping of the setters changes nothing more, and the
    pipeline is the one that applying the profile without validation
    gives.  The ranges of [ValidateProfile] and of the setters agree. *)
Theorem validated_profile_is_applied_unchanged (p : Profile)
    (t : ShaderPipeline.ShaderPipeline) :
  let v := visual (ValidateProfile p) in
  let applied := ShaderPipeline.ApplyProfile (pipeline_settings v) t in
  applied = ShaderPipeline.ApplyProfile (pipeline_settings (visual p)) t /\
  ShaderPipeline.contrast (ShaderPipeline.m_params applied) = vis_contrast v /\
  ShaderPipeline.brightness (ShaderPipeline.m_params applied)
    = vis_brightness v /\
  ShaderPipeline.gamma (ShaderPipeline.m_params applied) = vis_gamma v /\
  ShaderPipeline.saturation (ShaderPipeline.m_params applied)
    = vis_saturation v /\
  ShaderPipeline.edgeStrength (ShaderPipeline.m_params applied)
    = vis_edgeStrength v /\
  ShaderPipeline.invertMode (ShaderPipeline.m_params applied)
    = ShaderPipeline.InvertMode_to_int (vis_invertMode (visual p)).
Proof.
  cbv zeta. rewrite !ApplyProfile_params.
  cbn [ValidateProfile visual pipeline_settings vis_contrast vis_brightness
       vis_gamma vis_saturation vis_invertMode vis_edgeStrength
       ShaderPipeline.vs_contrast ShaderPipeline.vs_brightness
       ShaderPipeline.vs_gamma ShaderPipeline.vs_saturation
       ShaderPipeline.vs_invertMode ShaderPipeline.vs_edgeStrength
       ShaderPipeline.m_params ShaderPipeline.set_params
       ShaderPipeline.contrast ShaderPipeline.brightness ShaderPipeline.gamma
       ShaderPipeline.saturation ShaderPipeline.edgeStrength
       ShaderPipeline.invertMode].
  rewrite !clamp_idempotent by reflexivity.
  repeat split.
Qed.

End ProfileFacts.

(** ** The invert shader: the modes *)

Module InvertShaderModes.
Import Float32 InvertShader InvertShaderProofs.

(** [main] returns the alpha it was given, in every mode. *)
Lemma main_alpha (c : float4) (mode : Z) : a (main c mode) = a c.
Proof.
  unfold main. destruct (mode =? 1); [reflexivity|].
  destruct (mode =? 2); reflexivity.
Qed.

(** On a grey, converting to HSL, inverting the lightness and converting
    back gives the same floats as subtracting each channel from one. *)
Lemma grey_lightness_inverted (k : byte) :
  let c := unorm8_to_float k in
  let hsl := RGBtoHSL {| x := c; y := c; z := c |} in
  HSLtoRGB {| x := x hsl; y := y hsl; z := sub f1_0 (z hsl) |}
  = {| x := sub f1_0 c; y := sub f1_0 c; z := sub f1_0 c |}.
Proof. destruct k; vm_compute; reflexivity. Qed.

(** X9: the invert pass never changes the alpha byte of a texel; with a mode
    other than 1 and 2 it returns the texel unchanged; with mode 1 every
    stored colour byte v becomes 255 - v. *)
Theorem invert_pass_keeps_alpha_and_complements (t : Texel) (mode : Z) :
  tA (invert_pass mode t) = tA t /\
  (mode <> 1 -> mode <> 2 -> invert_pass mode t = t) /\
  level (tR (invert_pass 1 t)) = 255 - level (tR t) /\
  level (tG (invert_pass 1 t)) = 255 - level (tG t) /\
  level (tB (invert_pass 1 t)) = 255 - level (tB t).
Proof.
  destruct t as [kb kg kr ka].
  split.
  { unfold invert_pass, Store. cbn [tA]. rewrite main_alpha.
    cbn [Sample a tA]. apply sample_store. }
  split.
  { intros H1 H2. unfold invert_pass, main.
    apply Z.eqb_neq in H1, H2. rewrite H1, H2.
    unfold Store, Sample. cbn [r g b a tR tG tB tA].
    now rewrite !sample_store. }
  unfold invert_pass, level. rewrite main_full.
  unfold Store, Sample. cbn [r g b a tR tG tB tA].
  now rewrite !invert_channel_complement.
Qed.

(** X10: on a grey texel (three equal colour bytes) brightness-only inversion
    (mode 2) gives what full inversion (mode 1) gives: the grey of level
    255 - k with the alpha kept.  Applied twice it gives the texel
    back. *)
Theorem brightness_invert_of_grey_is_full_invert (k ka : byte) :
  main (Sample (grey k ka)) 2 = main (Sample (grey k ka)) 1 /\
  invert_pass 2 (grey k ka) = invert_pass 1 (grey k ka) /\
  (exists k', invert_pass 2 (grey k ka) = grey k' ka /\
              level k' = 255 - level k) /\
  invert_pass 2 (invert_pass 2 (grey k ka)) = grey k ka.
Proof.
  assert (M : forall k ka,
             main (Sample (grey k ka)) 2 = main (Sample (grey k ka)) 1).
  { intros j ja. rewrite main_full. unfold main. cbn [Z.eqb Pos.eqb].
    unfold with_rgb, rgb, Sample, grey. cbn [r g b a tR tG tB tA].
    pose proof (grey_lightness_inverted j) as G. cbv zeta in G.
    rewrite G. reflexivity. }
  assert (P : forall k ka,
             invert_pass 2 (grey k ka)
             = grey (float_to_unorm8 (sub f1_0 (unorm8_to_float k))) ka).
  { intros j ja. unfold invert_pass. rewrite M, main_full.
    unfold Store, Sample, grey. cbn [r g b a tR tG tB tA].
    now rewrite sample_store. }
  split; [apply M|].
  split; [unfold invert_pass; now rewrite M|].
  split.
  { eexists. split; [apply P|]. apply invert_channel_complement. }
  rewrite P, P. unfold grey. now rewrite invert_twice_stored.
Qed.

End InvertShaderModes.

(** ** CaptureManager: enumeration and the life of a capture *)

Module CaptureLifecycle.
Import CaptureManager CaptureManagerProofs.

(** *** Enumeration *)

Lemma enumeration_fold (ds : list Display) :
  forall acc,
    fold_left (fun ms d => MonitorEnumProc d ms) ds acc
    = acc ++ fold_left (fun ms d => MonitorEnumProc d ms) ds [].
Proof.
  induction ds as [|d ds IH]; intros acc; cbn.
  - now rewrite app_nil_r.
  - rewrite IH, (IH (MonitorEnumProc d [])).
    unfold MonitorEnumProc. destruct (d_info d); cbn.
    + now rewrite <- app_assoc.
    + reflexivity.
Qed.

Lemma enumeration_monitors (ds : list Display) :
  let ms := fold_left (fun ms d => MonitorEnumProc d ms) ds [] in
  map handle ms = map d_monitor (filter has_info ds) /\
  map bounds ms = map d_rect (filter has_info ds) /\
  map dpi ms = map effective_dpi (filter has_info ds) /\
  map (fun m => Some (isPrimary m)) ms = map d_info (filter has_info ds).
Proof.
  cbv zeta. induction ds as [|d ds IH]; [now repeat split|].
  cbn [fold_left filter]. rewrite enumeration_fold.
  destruct IH as (I1 & I2 & I3 & I4).
  assert (Hh : has_info d = is_object (d_info d)) by reflexivity.
  unfold MonitorEnumProc. rewrite Hh.
  destruct (d_info d) eqn:Ed; cbn [is_object app map handle bounds dpi isPrimary];
    repeat split;
    first [ assumption | f_equal; assumption
          | unfold effective_dpi; rewrite ?Ed; f_equal; assumption ].
Qed.

(** X11: [CaptureManager::Initialize] fails on a null device and changes
    nothing.  Otherwise it succeeds, stores the device and records one
    monitor for every display whose [GetMonitorInfoW] succeeds, in the
    order of enumeration, with its handle, rectangle, primary flag and DPI
    (96 when the DPI cannot be read).  It creates no capture and keeps the
    running flag and the callback. *)
Theorem Initialize_enumerates_displays (env : Env) (device : option Handle)
    (this : CaptureManager) (n : Handle) :
  let r := Initialize env device this n in
  let after := snd (value r) in
  fst (value r) = is_object device /\ events r = [] /\
  (device = None -> after = this) /\
  (device <> None ->
     map handle (m_monitors after)
       = map d_monitor (filter has_info (displays env)) /\
     map bounds (m_monitors after)
       = map d_rect (filter has_info (displays env)) /\
     map dpi (m_monitors after)
       = map effective_dpi (filter has_info (displays env)) /\
     map (fun m => Some (isPrimary m)) (m_monitors after)
       = map d_info (filter has_info (displays env)) /\
     m_device after = device /\ m_context after <> None /\
     m_running after = m_running this /\
     m_captures after = m_captures this /\
     m_frameCallback after = m_frameCallback this).
Proof.
  cbv zeta. unfold Initialize. destruct device as [dev|]; run_monad.
  - split; [reflexivity|]. split; [reflexivity|].
    split; [discriminate|]. intros _.
    destruct (enumeration_monitors (displays env)) as (E1 & E2 & E3 & E4).
    cbn. repeat split; try assumption. discriminate.
  - split; [reflexivity|]. split; [reflexivity|].
    split; [reflexivity|]. intros H. now elim H.
Qed.

(** *** Reading traces *)

Lemma started_app (l1 l2 : list Event) :
  started (l1 ++ l2) = started l1 ++ started l2.
Proof.
  induction l1 as [|e l1 IH]; [reflexivity|].
  destruct e; cbn; rewrite ?IH; reflexivity.
Qed.

Lemma closed_app (l1 l2 : list Event) :
  closed (l1 ++ l2) = closed l1 ++ closed l2.
Proof.
  induction l1 as [|e l1 IH]; [reflexivity|].
  destruct e; cbn; rewrite ?IH; reflexivity.
Qed.

Lemma subscribed_app (l1 l2 : list Event) :
  subscribed (l1 ++ l2) = subscribed l1 ++ subscribed l2.
Proof.
  induction l1 as [|e l1 IH]; [reflexivity|].
  destruct e; cbn; rewrite ?IH; reflexivity.
Qed.

Lemma revoked_app (l1 l2 : list Event) :
  revoked (l1 ++ l2) = revoked l1 ++ revoked l2.
Proof.
  induction l1 as [|e l1 IH]; [reflexivity|].
  destruct e; cbn; rewrite ?IH; reflexivity.
Qed.

Lemma pools_closed_app (l1 l2 : list Event) :
  pools_closed (l1 ++ l2) = pools_closed l1 ++ pools_closed l2.
Proof.
  induction l1 as [|e l1 IH]; [reflexivity|].
  destruct e; cbn; rewrite ?IH; reflexivity.
Qed.

Lemma creation_closes_nothing (l : list Event) :
  forallb is_creation l = true ->
  closed l = [] /\ revoked l = [] /\ pools_closed l = [].
Proof.
  induction l as [|e l IH]; [now repeat split|].
  cbn [forallb]. rewrite andb_true_iff. intros [He Hl].
  destruct (IH Hl) as (A & B & C).
  destruct e; cbn in *; try discriminate; now repeat split.
Qed.

Lemma teardown_starts_nothing (l : list Event) :
  forallb is_teardown l = true -> started l = [] /\ subscribed l = [].
Proof.
  induction l as [|e l IH]; [now repeat split|].
  cbn [forallb]. rewrite andb_true_iff. intros [He Hl].
  destruct (IH Hl) as (A & B).
  destruct e; cbn in *; try discriminate; now repeat split.
Qed.

Lemma sessions_app (l1 l2 : list MonitorCapture) :
  sessions (l1 ++ l2) = sessions l1 ++ sessions l2.
Proof. apply flat_map_app. Qed.

Lemma registrations_app (l1 l2 : list MonitorCapture) :
  registrations (l1 ++ l2) = registrations l1 ++ registrations l2.
Proof. apply flat_map_app. Qed.

(** *** Creating captures, with their traces *)

Lemma CreateCaptureForMonitor_trace (env : Env) (mon : HMONITOR)
    (this : CaptureManager) (n : Handle) :
  let r := CreateCaptureForMonitor env mon this n in
  exists new,
    snd (value r) = set_captures (m_captures this ++ new) this /\
    map monitor new = capturable env [mon] /\
    forallb complete new = true /\
    started (events r) = sessions new /\
    incl (registrations new) (subscribed (events r)) /\
    forallb is_creation (events r) = true.
Proof.
  cbv zeta. unfold CreateCaptureForMonitor, capturable. cbn [filter].
  destruct (fault env mon); destruct (border_supported env mon);
    cbn [Fault_beq orb no_fault]; run_monad;
    first
      [ eexists [_]; cbn;
        repeat split; try reflexivity;
        intros x [<-|[]]; now left
      | exists []; cbn; rewrite app_nil_r; destruct this;
        repeat split; try reflexivity; intros x [] ].
Qed.

Lemma create_captures_trace (env : Env) (ms : list MonitorInfo) :
  forall (this : CaptureManager) (n : Handle),
    let r := create_captures env ms this n in
    exists new,
      value r = set_captures (m_captures this ++ new) this /\
      map monitor new = capturable env (map handle ms) /\
      forallb complete new = true /\
      started (events r) = sessions new /\
      incl (registrations new) (subscribed (events r)) /\
      forallb is_creation (events r) = true.
Proof.
  induction ms as [|m ms IH]; intros this n; cbv zeta.
  - exists []. cbn. rewrite app_nil_r. destruct this.
    repeat split; try reflexivity. intros x [].
  - cbn [create_captures].
    destruct (CreateCaptureForMonitor_trace env (handle m) this n)
      as (new1 & S1 & M1 & C1 & T1 & R1 & K1).
    cbv zeta in S1, M1, C1, T1, R1, K1.
    destruct (CreateCaptureForMonitor env (handle m) this n)
      as [[[ok t1] n1] ev1] eqn:E.
    unfold value, events in S1, T1, R1, K1. cbn [fst snd] in S1, T1, R1, K1.
    rewrite (bind_run _ _ _ _ _ _ E). cbn [snd fst].
    destruct (IH t1 n1) as (new2 & S2 & M2 & C2 & T2 & R2 & K2).
    cbv zeta in S2, M2, C2, T2, R2, K2.
    unfold value, events in *. cbn [fst snd] in *.
    exists (new1 ++ new2).
    subst t1. rewrite S2. cbn [m_captures set_captures].
    rewrite started_app, subscribed_app, sessions_app, registrations_app,
      !forallb_app, map_app, T1, T2, C1, C2, K1, K2, M1, M2.
    unfold capturable. cbn [map filter].
    split; [now rewrite app_assoc|].
    split; [now destruct (no_fault (fault env (handle m)))|].
    split; [reflexivity|]. split; [reflexivity|].
    split; [|reflexivity].
    apply incl_app; [now apply incl_appl|now apply incl_appr].
Qed.


(** *** Taking captures down, with the traces *)

Lemma stop_capture_trace (c : MonitorCapture) (n : Handle) :
  fst (stop_capture c n) = (tt, n) /\
  closed (events (stop_capture c n)) = sessions [c] /\
  forallb is_teardown (events (stop_capture c n)) = true /\
  (complete c = true ->
   revoked (events (stop_capture c n)) = registrations [c] /\
   pools_closed (events (stop_capture c n)) = map fst (registrations [c]) /\
   List.length (events (stop_capture c n)) = 3%nat).
Proof.
  unfold stop_capture, complete, sessions, registrations.
  destruct c as [mon it pool s dev tok]. cbn [framePool session
    frameArrivedToken item winrtDevice flat_map app].
  destruct pool, s, it, dev, (tok =? 0); run_monad; cbn;
    repeat split; try reflexivity; discriminate.
Qed.

Lemma stop_captures_trace (cs : list MonitorCapture) (n : Handle) :
  closed (events (stop_captures cs n)) = sessions cs /\
  forallb is_teardown (events (stop_captures cs n)) = true /\
  (forallb complete cs = true ->
   revoked (events (stop_captures cs n)) = registrations cs /\
   pools_closed (events (stop_captures cs n)) = map fst (registrations cs) /\
   List.length (events (stop_captures cs n)) = (3 * List.length cs)%nat).
Proof.
  induction cs as [|c cs IH]; [now repeat split|].
  cbn [stop_captures].
  destruct (stop_capture_trace c n) as (F & Cl & Td & Co).
  destruct (stop_capture c n) as [[u n1] ev1] eqn:E.
  unfold events in *. cbn [fst snd] in *. injection F as -> ->.
  rewrite (bind_run _ _ _ _ _ _ E). cbn [snd].
  destruct IH as (ICl & ITd & ICo).
  rewrite closed_app, forallb_app, Cl, ICl, Td, ITd.
  split; [symmetry; apply (sessions_app [c] cs)|]. split; [reflexivity|].
  cbn [forallb]. rewrite andb_true_iff. intros [Hc Hcs].
  destruct (Co Hc) as (R1 & P1 & L1). destruct (ICo Hcs) as (R2 & P2 & L2).
  rewrite revoked_app, pools_closed_app, length_app, R1, R2, P1, P2, L1, L2.
  rewrite (registrations_app [c] cs : registrations (c :: cs) = _).
  rewrite map_app. cbn [List.length]. repeat split. lia.
Qed.

Lemma Stop_trace (this : CaptureManager) (n : Handle) :
  Stop this n
  = if m_running this
    then ((set_running false (set_captures [] this), n),
          events (stop_captures (m_captures this) n))
    else ((this, n), []).
Proof.
  unfold Stop. destruct (m_running this); [|reflexivity]. cbn [negb].
  pose proof (stop_captures_counter (m_captures this) n) as C.
  destruct (stop_captures (m_captures this) n) as [[u n1] ev] eqn:E.
  cbn [fst] in C. injection C as -> ->.
  rewrite (bind_run _ _ _ _ _ _ E). cbn. now rewrite app_nil_r.
Qed.

(** *** The invariant of the captures held *)

Lemma Start_run (env : Env) (this : CaptureManager) (n : Handle) :
  let r := Start env this n in
  if m_running this then r = ((true, this), n, [])
  else if graphics_capture_available env then
    exists new,
      snd (value r)
        = set_running true (set_captures (m_captures this ++ new) this) /\
      fst (value r) = negb (is_empty (m_captures this ++ new)) /\
      map monitor new = capturable env (map handle (m_monitors this)) /\
      forallb complete new = true /\
      started (events r) = sessions new /\
      incl (registrations new) (subscribed (events r)) /\
      forallb is_creation (events r) = true
  else r = ((false, this), n, []).
Proof.
  cbv zeta. unfold Start.
  destruct (m_running this); [reflexivity|].
  destruct (graphics_capture_available env); [|reflexivity]. cbn [negb].
  destruct (create_captures_trace env (m_monitors this) this n)
    as (new & S1 & M1 & C1 & T1 & R1 & K1).
  cbv zeta in S1, M1, C1, T1, R1, K1.
  destruct (create_captures env (m_monitors this) this n)
    as [[t1 n1] ev1] eqn:E.
  unfold value, events in *. cbn [fst snd] in *. subst t1.
  rewrite (bind_run _ _ _ _ _ _ E). cbn. rewrite app_nil_r.
  exists new. now repeat split.
Qed.

Lemma Start_complete (env : Env) (this : CaptureManager) (n : Handle) :
  all_complete this -> all_complete (snd (value (Start env this n))).
Proof.
  intros H. pose proof (Start_run env this n) as R. cbv zeta in R.
  destruct (m_running this); [now rewrite R|].
  destruct (graphics_capture_available env); [|now rewrite R].
  destruct R as (new & S1 & _ & _ & C1 & _).
  rewrite S1. unfold all_complete. cbn. rewrite forallb_app, C1.
  unfold all_complete in H. now rewrite H.
Qed.

Lemma Stop_complete (this : CaptureManager) (n : Handle) :
  all_complete this -> all_complete (value (Stop this n)).
Proof.
  intros H. rewrite Stop_trace. now destruct (m_running this).
Qed.

Lemma Restart_run (env : Env) (this : CaptureManager) (n : Handle) :
  Restart env this n
  = let stopped := value (Stop this n) in
    let r := Start env (EnumerateMonitors env stopped) n in
    ((snd (value r), snd (fst r)), events (Stop this n) ++ events r).
Proof.
  unfold Restart. cbv zeta.
  assert (E : Stop this n = ((value (Stop this n), n), events (Stop this n))).
  { rewrite Stop_trace. now destruct (m_running this). }
  rewrite (bind_run _ _ _ _ _ _ E).
  destruct (Start env (EnumerateMonitors env (value (Stop this n))) n)
    as [[[ok t] n1] ev] eqn:ES.
  rewrite (bind_run _ _ _ _ _ _ ES). cbn. now rewrite app_nil_r.
Qed.

Lemma Restart_complete (env : Env) (this : CaptureManager) (n : Handle) :
  all_complete this -> all_complete (value (Restart env this n)).
Proof.
  intros H. rewrite Restart_run. cbv zeta. unfold value at 1. cbn [fst].
  apply Start_complete. apply (Stop_complete this n) in H. exact H.
Qed.

Lemma apply_op_complete (env : Env) (op : Op) (this : CaptureManager)
    (n : Handle) :
  all_complete this -> all_complete (value (apply_op env op this n)).
Proof.
  intros H. destruct op as [device| | | |cb| |a]; cbn [apply_op].
  - unfold Initialize. destruct device; run_monad; exact H.
  - pose proof (Start_complete env this n H) as S.
    destruct (Start env this n) as [[[ok t] n1] ev] eqn:E.
    rewrite (bind_run _ _ _ _ _ _ E). exact S.
  - now apply Stop_complete.
  - now apply Restart_complete.
  - exact H.
  - now apply Restart_complete.
  - destruct (OnFrameArrived a this n) as [[u n1] ev] eqn:E.
    rewrite (bind_run _ _ _ _ _ _ E). exact H.
Qed.

Lemma reachable_all_complete (this : CaptureManager) :
  reachable this -> all_complete this.
Proof.
  induction 1 as [|env op this n _ IH]; [reflexivity|].
  now apply apply_op_complete.
Qed.

Lemma complete_sessions (cs : list MonitorCapture) :
  forallb complete cs = true ->
  List.length (sessions cs) = List.length cs /\
  List.length (registrations cs) = List.length cs.
Proof.
  induction cs as [|c cs IH]; [now split|].
  cbn [forallb]. rewrite andb_true_iff. intros [Hc Hcs].
  destruct (IH Hcs) as [I1 I2].
  unfold sessions, registrations in *. cbn [flat_map].
  rewrite !length_app, I1, I2.
  unfold complete in Hc. rewrite !andb_true_iff in Hc.
  destruct Hc as ((((_ & Hp) & Hs) & _) & _).
  destruct (framePool c), (session c); try discriminate. now split.
Qed.

(** X12: in every state reachable from a new manager by its calls, each
    capture held has its item, frame pool, session, device and a handler
    token that is not zero, and a manager that holds captures is running.
    [Stop] then makes exactly three calls for each capture: it revokes
    every handler, closes every session and closes every pool. *)
Theorem reachable_captures_are_complete (this : CaptureManager) (n : Handle) :
  reachable this ->
  forallb complete (m_captures this) = true /\
  (m_captures this <> [] -> m_running this = true) /\
  closed (events (Stop this n)) = sessions (m_captures this) /\
  revoked (events (Stop this n)) = registrations (m_captures this) /\
  pools_closed (events (Stop this n))
    = map fst (registrations (m_captures this)) /\
  List.length (events (Stop this n)) = (3 * List.length (m_captures this))%nat /\
  List.length (sessions (m_captures this)) = List.length (m_captures this).
Proof.
  intros R.
  pose proof (reachable_all_complete this R) as C.
  pose proof (reachable_idle_is_empty this R) as I.
  unfold all_complete in C. unfold idle_is_empty in I.
  split; [exact C|].
  split; [destruct (m_running this); [reflexivity|]; intros H; now elim H; apply I|].
  rewrite Stop_trace.
  destruct (stop_captures_trace (m_captures this) n) as (Cl & _ & Co).
  destruct (Co C) as (Rv & Pc & Ln).
  destruct (complete_sessions _ C) as [Ls _].
  destruct (m_running this).
  - unfold events at 1 2 3 4. cbn [snd]. now repeat split.
  - rewrite (I eq_refl). now repeat split.
Qed.


Lemma manager_three_reachable : reachable manager_three.
Proof.
  unfold manager_three, run_start_three.
  change (reachable
            (value (apply_op env_second_fails OpStart
                      (snd (value (run_init env_second_fails)))
                      (snd (fst (run_init env_second_fails)))))).
  apply reachable_step. exact manager_idle_reachable.
Qed.

Lemma reachable_captures_are_complete_witness :
  forallb complete (m_captures manager_three) = true /\
  (m_captures manager_three <> [] -> m_running manager_three = true) /\
  closed (events (Stop manager_three 20%nat))
    = sessions (m_captures manager_three) /\
  revoked (events (Stop manager_three 20%nat))
    = registrations (m_captures manager_three) /\
  pools_closed (events (Stop manager_three 20%nat))
    = map fst (registrations (m_captures manager_three)) /\
  List.length (events (Stop manager_three 20%nat))
    = (3 * List.length (m_captures manager_three))%nat /\
  List.length (sessions (m_captures manager_three))
    = List.length (m_captures manager_three).
Proof.
  apply (reachable_captures_are_complete manager_three 20%nat).
  exact manager_three_reachable.
Defined.

(** *** Start and Stop, the traces paired *)

(** X13: for a stopped manager without captures, the sessions [Stop] closes
    after a [Start] are exactly the sessions [Start] started, in the same
    order, and the handlers it revokes were registered by [Start].
    [Start] closes nothing and [Stop] starts nothing.  After [Stop] there
    is no capture, the manager is not running, and a second [Stop] does
    nothing. *)
Theorem Stop_closes_what_Start_started (env : Env) (this : CaptureManager)
    (n n' : Handle) :
  m_running this = false -> m_captures this = [] ->
  let r1 := Start env this n in
  let running := snd (value r1) in
  let r2 := Stop running n' in
  closed (events r2) = started (events r1) /\
  revoked (events r2) = registrations (m_captures running) /\
  incl (revoked (events r2)) (subscribed (events r1)) /\
  pools_closed (events r2) = map fst (revoked (events r2)) /\
  closed (events r1) = [] /\ started (events r2) = [] /\
  m_captures (value r2) = [] /\ IsRunning (value r2) = false /\
  Stop (value r2) n' = ((value r2, n'), []).
Proof.
  intros Hrun Hcap. cbv zeta.
  pose proof (Start_run env this n) as R. cbv zeta in R.
  rewrite Hrun, Hcap in R.
  destruct (graphics_capture_available env).
  - destruct R as (new & S1 & _ & _ & C1 & T1 & R1 & K1).
    rewrite S1, T1. cbn [app] in *.
    rewrite !Stop_trace. cbn [m_running set_running set_captures m_captures].
    destruct (stop_captures_trace new n') as (Cl & Td & Co).
    destruct (Co C1) as (Rv & Pc & _).
    destruct (creation_closes_nothing _ K1) as (Kc & _).
    destruct (teardown_starts_nothing _ Td) as (Ts & _).
    unfold value, events in *. cbn [fst snd] in *.
    rewrite Cl, Rv, Pc, Kc, Ts.
    repeat split; try reflexivity. exact R1.
  - rewrite R. unfold value, events. cbn [fst snd].
    rewrite !Stop_trace, Hrun. cbn [fst snd]. rewrite ?Hrun, ?Hcap.
    unfold IsRunning.
    repeat split; try reflexivity; try assumption. intros x [].
Qed.

Lemma Stop_closes_what_Start_started_witness :
  let this := snd (value (run_init env_second_fails)) in
  let r1 := Start env_second_fails this 2%nat in
  let running := snd (value r1) in
  let r2 := Stop running 30%nat in
  closed (events r2) = started (events r1) /\
  revoked (events r2) = registrations (m_captures running) /\
  incl (revoked (events r2)) (subscribed (events r1)) /\
  pools_closed (events r2) = map fst (revoked (events r2)) /\
  closed (events r1) = [] /\ started (events r2) = [] /\
  m_captures (value r2) = [] /\ IsRunning (value r2) = false /\
  Stop (value r2) 30%nat = ((value r2, 30%nat), []).
Proof.
  apply (Stop_closes_what_Start_started env_second_fails
           (snd (value (run_init env_second_fails))) 2%nat 30%nat);
    reflexivity.
Defined.

(** *** Display changes *)

(** X14: [OnDisplayChange] is [Restart].  In a reachable state it closes every
    session held, enumerates the displays again and, when graphics capture
    is available, starts a session for every enumerated monitor whose
    capture can be created (none otherwise).  Every teardown call comes
    before every creation call; the manager then runs exactly when
    graphics capture is available, and the frame callback is kept. *)
Theorem OnDisplayChange_recaptures_current_displays (env : Env)
    (this : CaptureManager) (n : Handle) :
  reachable this ->
  let r := OnDisplayChange env this n in
  let after := value r in
  Restart env this n = r /\
  map handle (m_monitors after)
    = map d_monitor (filter has_info (displays env)) /\
  m_running after = graphics_capture_available env /\
  map monitor (m_captures after)
    = (if graphics_capture_available env
       then capturable env (map d_monitor (filter has_info (displays env)))
       else []) /\
  closed (events r) = sessions (m_captures this) /\
  started (events r) = sessions (m_captures after) /\
  (exists down up,
     events r = down ++ up /\
     forallb is_teardown down = true /\ forallb is_creation up = true) /\
  m_frameCallback after = m_frameCallback this.
Proof.
  intros R. cbv zeta. unfold OnDisplayChange.
  split; [reflexivity|].
  pose proof (reachable_idle_is_empty this R) as I. unfold idle_is_empty in I.
  rewrite Restart_run. cbv zeta.
  destruct (stop_captures_trace (m_captures this) n) as (Cl & Td & _).
  destruct (enumeration_monitors (displays env)) as (E1 & _).
  cbv zeta in E1.
  assert (St : exists stopped down,
             Stop this n = ((stopped, n), down) /\
             m_captures stopped = [] /\ m_running stopped = false /\
             m_frameCallback stopped = m_frameCallback this /\
             closed down = sessions (m_captures this) /\
             forallb is_teardown down = true).
  { rewrite Stop_trace. destruct (m_running this) eqn:Hr.
    - eexists. eexists. split; [reflexivity|]. now repeat split.
    - exists this, []. rewrite (I eq_refl). now repeat split. }
  destruct St as (stopped & down & ES & Hc & Hr & Hf & Hcl & Htd).
  rewrite ES. unfold value, events. cbn [fst snd].
  pose proof (Start_run env (EnumerateMonitors env stopped) n) as S.
  cbv zeta in S.
  assert (Hr' : m_running (EnumerateMonitors env stopped) = false)
    by exact Hr.
  assert (Hc' : m_captures (EnumerateMonitors env stopped) = [])
    by exact Hc.
  rewrite Hr', Hc' in S.
  destruct (teardown_starts_nothing _ Htd) as (Ts & _).
  destruct (graphics_capture_available env).
  - destruct S as (new & S1 & _ & M1 & _ & T1 & _ & K1).
    destruct (creation_closes_nothing _ K1) as (Kc & _).
    unfold value, events in *. cbn [fst snd] in *.
    cbn [EnumerateMonitors set_monitors m_monitors] in M1.
    rewrite E1 in M1.
    rewrite S1. cbn [m_monitors m_running m_captures m_frameCallback
                     set_running set_captures EnumerateMonitors set_monitors
                     app].
    rewrite closed_app, started_app, Hcl, Kc, Ts, T1, M1, E1, app_nil_r.
    repeat split; try assumption.
    eexists. eexists. split; [reflexivity|]. now split.
  - rewrite S. cbn [fst snd].
    cbn [m_monitors m_running m_captures m_frameCallback EnumerateMonitors
         set_monitors].
    rewrite app_nil_r, Hcl, Ts, Hc, E1.
    repeat split; try assumption.
    exists down, []. rewrite app_nil_r. now repeat split.
Qed.

Lemma OnDisplayChange_recaptures_current_displays_witness :
  let r := OnDisplayChange env_fine manager_three 20%nat in
  let after := value r in
  Restart env_fine manager_three 20%nat = r /\
  map handle (m_monitors after)
    = map d_monitor (filter has_info (displays env_fine)) /\
  m_running after = graphics_capture_available env_fine /\
  map monitor (m_captures after)
    = (if graphics_capture_available env_fine
       then capturable env_fine
              (map d_monitor (filter has_info (displays env_fine)))
       else []) /\
  closed (events r) = sessions (m_captures manager_three) /\
  started (events r) = sessions (m_captures after) /\
  (exists down up,
     events r = down ++ up /\
     forallb is_teardown down = true /\ forallb is_creation up = true) /\
  m_frameCallback after = m_frameCallback manager_three.
Proof.
  apply (OnDisplayChange_recaptures_current_displays env_fine manager_three
           20%nat).
  exact manager_three_reachable.
Defined.

End CaptureLifecycle.

(** ** OverlayWindow: initialisation, visibility, presenting *)

Module OverlayLifecycle.
Import OverlayWindow OverlayWindowProofs.

(** *** Initialisation *)

Lemma CreateOverlayWindow_run (env : Env) (this : OverlayWindow) (n : Handle) :
  exists this' n',
    CreateOverlayWindow env this n
    = ((CreateWindowExW env, this'), n',
       EvCreateWindow (left (m_bounds this)) (top (m_bounds this))
         (right (m_bounds this) - left (m_bounds this))
         (bottom (m_bounds this) - top (m_bounds this))
       :: (if CreateWindowExW env then [EvExcludeFromCapture] else [])) /\
    is_object (m_hwnd this') = CreateWindowExW env /\
    m_visible this' = m_visible this /\ m_bounds this' = m_bounds this /\
    m_device this' = m_device this /\ m_context this' = m_context this /\
    m_allowTearing this' = m_allowTearing this /\
    m_shadersPath this' = m_shadersPath this.
Proof.
  unfold CreateOverlayWindow.
  destruct (CreateWindowExW env); run_monad;
    eexists; eexists; (split; [reflexivity|]); now repeat split.
Qed.

Lemma Initialize_overlay_run (env : Env)
    (hInstance : option Handle) (shadersPath : string) (n : Handle) :
  let r := Initialize env hInstance shadersPath new_overlay n in
  let after := snd (value r) in
  fst (value r) = initialization_succeeds env /\
  m_visible after = false /\
  m_bounds after = virtual_screen env /\
  (FAILED (hr env D3D11CreateDevice) = true ->
   events r = [EvD3D11CreateDevice false] /\ m_hwnd after = None) /\
  (fst (value r) = true ->
   usable after /\ m_hwnd after <> None /\
   exists tearing,
     events r
     = [EvD3D11CreateDevice true;
        EvCreateWindow (left (virtual_screen env)) (top (virtual_screen env))
          (right (virtual_screen env) - left (virtual_screen env))
          (bottom (virtual_screen env) - top (virtual_screen env));
        EvExcludeFromCapture;
        EvCreateSwapChain
          (right (virtual_screen env) - left (virtual_screen env))
          (bottom (virtual_screen env) - top (virtual_screen env))
          tearing]).
Proof.
  cbv zeta. unfold Initialize, initialization_succeeds, RegisterWindowClass.
  set (this0 := CalculateBounds env
                  (set_instance hInstance shadersPath new_overlay)).
  assert (B0 : m_bounds this0 = virtual_screen env) by reflexivity.
  assert (V0 : m_visible this0 = false) by reflexivity.
  assert (H0 : m_hwnd this0 = None) by reflexivity.
  clearbody this0.
  destruct (InitializeD3D_run env this0 n)
    as (t1 & n1 & E1 & (K1h & K1v & _ & _ & K1b & _) & D1).
  rewrite (bind_run _ _ _ _ _ _ E1). cbn [fst snd].
  destruct (FAILED (hr env D3D11CreateDevice)) eqn:F; cbn [negb andb].
  { run_monad.
    rewrite K1v, K1b, K1h.
    repeat split; try assumption; try reflexivity; discriminate. }
  destruct (D1 eq_refl) as [Dd Dc].
  destruct (RegisterClassExW env); cbn [negb andb].
  2:{ run_monad. rewrite K1v, K1b.
      repeat split; try assumption; try reflexivity; discriminate. }
  destruct (CreateOverlayWindow_run env t1 n1)
    as (t2 & n2 & E2 & W2 & V2 & B2 & Dv2 & Cx2 & _).
  rewrite (bind_run _ _ _ _ _ _ E2). cbn [fst snd].
  destruct (CreateWindowExW env); cbn [negb andb].
  2:{ run_monad. rewrite V2, B2, K1v, K1b.
      repeat split; try assumption; try reflexivity; discriminate. }
  destruct (CreateRenderResources_run env t2 n2)
    as (t3 & n3 & E3 & (K3h & K3v & _ & _ & K3b & _) & Dv3 & Cx3 & R3).
  rewrite (bind_run _ _ _ _ _ _ E3). cbn [fst snd].
  assert (Hw : m_hwnd t3 <> None).
  { rewrite K3h. destruct (m_hwnd t2); [discriminate|discriminate W2]. }
  destruct (render_resources_succeed env); cbn [negb].
  2:{ run_monad.
      rewrite K3v, K3b, V2, B2, K1v, K1b.
      repeat split; try assumption; try reflexivity; discriminate. }
  run_monad.
  rewrite K3v, K3b, V2, B2, K1v, K1b.
  split; [reflexivity|]. split; [assumption|]. split; [assumption|].
  split; [discriminate|]. intros _.
  destruct (R3 eq_refl) as (R1 & R2 & R4 & R5 & R6 & R7).
  split.
  { unfold usable. rewrite Dv3, Cx3, Dv2, Cx2. now repeat split. }
  split; [exact Hw|].
  exists (m_allowTearing t2). rewrite <- B0. reflexivity.
Qed.

(** X15: [OverlayWindow::Initialize] succeeds exactly when the device, the
    window class, the window and every render resource can be created.
    The bounds are those of the virtual screen and the overlay is left
    hidden in every case.  On success the device objects exist and the
    calls traced are: create the device, create the window on the
    rectangle of the virtual screen, exclude it from capture, create the
    swap chain of that size.  When the device cannot be created nothing
    else is attempted and there is no window. *)
Theorem Initialize_creates_hidden_overlay (env : Env)
    (hInstance : option Handle) (shadersPath : string) (n : Handle) :
  let r := Initialize env hInstance shadersPath new_overlay n in
  let after := snd (value r) in
  fst (value r) = initialization_succeeds env /\
  m_visible after = false /\
  m_bounds after = virtual_screen env /\
  (FAILED (hr env D3D11CreateDevice) = true ->
   events r = [EvD3D11CreateDevice false] /\ m_hwnd after = None) /\
  (fst (value r) = true ->
   usable after /\ m_hwnd after <> None /\
   exists tearing,
     events r
     = [EvD3D11CreateDevice true;
        EvCreateWindow (left (virtual_screen env)) (top (virtual_screen env))
          (right (virtual_screen env) - left (virtual_screen env))
          (bottom (virtual_screen env) - top (virtual_screen env));
        EvExcludeFromCapture;
        EvCreateSwapChain
          (right (virtual_screen env) - left (virtual_screen env))
          (bottom (virtual_screen env) - top (virtual_screen env))
          tearing]).
Proof. exact (Initialize_overlay_run env hInstance shadersPath n). Qed.


(** *** Showing and hiding *)

Lemma Show_run (this : OverlayWindow) (n : Handle) :
  Show this n
  = if is_object (m_hwnd this) && negb (m_visible this)
    then ((set_visible true this, n), [EvShowWindow SW_SHOWNOACTIVATE])
    else ((this, n), []).
Proof.
  unfold Show. destruct (m_hwnd this); [|reflexivity].
  now destruct (m_visible this).
Qed.

Lemma Hide_explicit (this : OverlayWindow) (n : Handle) :
  Hide this n
  = if is_object (m_hwnd this) && m_visible this
    then ((set_visible false this, n), [EvShowWindow SW_HIDE])
    else ((this, n), []).
Proof.
  unfold Hide. destruct (m_hwnd this); [|reflexivity].
  now destruct (m_visible this).
Qed.

Lemma run_visibility_windowless (cs : list VisibilityCall) :
  forall (this : OverlayWindow) (n : Handle),
    m_hwnd this = None -> run_visibility cs this n = ((this, n), []).
Proof.
  induction cs as [|c cs IH]; intros this n H; [reflexivity|].
  assert (S : Show this n = ((this, n), [])) by now rewrite Show_run, H.
  assert (Hd : Hide this n = ((this, n), []))
    by now rewrite Hide_explicit, H.
  destruct c; cbn [run_visibility].
  - rewrite (bind_run _ _ _ _ _ _ S). now rewrite (IH this n H).
  - rewrite (bind_run _ _ _ _ _ _ Hd). now rewrite (IH this n H).
Qed.

Lemma run_visibility_alternates (cs : list VisibilityCall) :
  forall (this : OverlayWindow) (n : Handle),
    m_hwnd this <> None ->
    let r := run_visibility cs this n in
    alternating (m_visible this) (show_commands (events r)) = true /\
    m_visible (value r)
      = fold_left (fun _ c => shows c) cs (m_visible this) /\
    value r = set_visible (m_visible (value r)) this /\
    snd (fst r) = n.
Proof.
  induction cs as [|c cs IH]; intros this n H; cbv zeta.
  - cbn. destruct this; now repeat split.
  - assert (Hw : is_object (m_hwnd this) = true)
      by (destruct (m_hwnd this); [reflexivity|now elim H]).
    destruct c; cbn [run_visibility fold_left shows].
    + pose proof (Show_run this n) as S. rewrite Hw in S. cbn [andb] in S.
      destruct (m_visible this) eqn:V; cbn [negb] in S;
        rewrite (bind_run _ _ _ _ _ _ S); cbn [fst snd app].
      * destruct (IH this n H) as (A & B & C & D). cbv zeta in A, B, C, D.
        unfold value, events in *. rewrite V in A, B.
        now repeat split.
      * assert (H' : m_hwnd (set_visible true this) <> None) by exact H.
        destruct (IH (set_visible true this) n H') as (A & B & C & D).
        cbv zeta in A, B, C, D. unfold value, events in *.
        cbn [show_commands alternating negb andb fst snd].
        cbn [m_visible set_visible] in A, B.
        split; [exact A|]. split; [exact B|]. split; [|exact D].
        rewrite C at 1. now destruct this.
    + pose proof (Hide_explicit this n) as S. rewrite Hw in S.
      cbn [andb] in S.
      destruct (m_visible this) eqn:V;
        rewrite (bind_run _ _ _ _ _ _ S); cbn [fst snd app].
      * assert (H' : m_hwnd (set_visible false this) <> None) by exact H.
        destruct (IH (set_visible false this) n H') as (A & B & C & D).
        cbv zeta in A, B, C, D. unfold value, events in *.
        cbn [show_commands alternating negb andb fst snd].
        cbn [m_visible set_visible] in A, B.
        split; [exact A|]. split; [exact B|]. split; [|exact D].
        rewrite C at 1. now destruct this.
      * destruct (IH this n H) as (A & B & C & D). cbv zeta in A, B, C, D.
        unfold value, events in *. rewrite V in A, B.
        now repeat split.
Qed.

(** X16: over any sequence of [Show] and [Hide] calls, an overlay without a
    window does nothing.  With a window the [ShowWindow] commands
    alternate (never a show when shown, never a hide when hidden), the
    visibility at the end is that of the last call and no other member
    changes.  A repeated [Show] or [Hide] does nothing. *)
Theorem Show_and_Hide_alternate (cs : list VisibilityCall)
    (this : OverlayWindow) (n : Handle) :
  let r := run_visibility cs this n in
  (m_hwnd this = None -> r = ((this, n), [])) /\
  (m_hwnd this <> None ->
   alternating (m_visible this) (show_commands (events r)) = true /\
   m_visible (value r)
     = fold_left (fun _ c => shows c) cs (m_visible this) /\
   value r = set_visible (m_visible (value r)) this) /\
  Show (value (Show this n)) n = ((value (Show this n), n), []) /\
  Hide (value (Hide this n)) n = ((value (Hide this n), n), []).
Proof.
  cbv zeta. split; [apply run_visibility_windowless|].
  split.
  { intros H.
    destruct (run_visibility_alternates cs this n H) as (A & B & C & _).
    now repeat split. }
  rewrite !Show_run, !Hide_explicit.
  destruct this as [hi hw vis]. cbn [m_hwnd m_visible].
  destruct hw, vis; cbn; split; reflexivity.
Qed.

(** *** Presenting without a lost device *)

(** X17: [Present] does nothing when the overlay is hidden or has no swap
    chain.  When the swap chain's [Present] returns anything but
    device-removed or device-reset, other failures included, [Present]
    makes that one call and nothing else: no recovery attempt, no hiding,
    no notification, and the state is unchanged. *)
Theorem Present_ignores_other_results (env : Env) (this : OverlayWindow)
    (n : Handle) :
  (m_visible this = false \/ m_swapChain this = None ->
   Present env this n = ((this, n), [])) /\
  (hr env SwapChain_Present <> DXGI_ERROR_DEVICE_REMOVED ->
   hr env SwapChain_Present <> DXGI_ERROR_DEVICE_RESET ->
   Present env this n
   = ((this, n),
      if m_visible this && is_object (m_swapChain this)
      then [EvPresent 0 (m_allowTearing this)] else []) /\
   recovery_attempts (events (Present env this n)) = 0%nat /\
   existsb is_hide (events (Present env this n)) = false /\
   notifications (events (Present env this n)) = []).
Proof.
  split.
  - intros [H|H]; unfold Present; rewrite H; [reflexivity|].
    now destruct (m_visible this).
  - intros H1 H2. apply Z.eqb_neq in H1, H2.
    unfold Present. rewrite H1, H2.
    destruct (m_visible this), (m_swapChain this); now repeat split.
Qed.

(** *** A desktop without extent *)

(** X18: when the virtual screen has no width or no height, [OnDisplayChange]
    on an overlay with a swap chain releases the render target and stops
    there: no [ResizeBuffers] call, no hiding, no handling as a lost
    device.  The overlay keeps its visibility and its swap chain and is
    left without a render target. *)
Theorem OnDisplayChange_on_empty_desktop (env : Env) (this : OverlayWindow)
    (n : Handle) :
  m_swapChain this <> None ->
  GetSystemMetrics env SM_CXVIRTUALSCREEN <= 0 \/
  GetSystemMetrics env SM_CYVIRTUALSCREEN <= 0 ->
  let r := OnDisplayChange env this n in
  let after := value r in
  m_renderTarget after = None /\
  m_visible after = m_visible this /\
  m_swapChain after = m_swapChain this /\
  m_bounds after = virtual_screen env /\
  existsb is_resize (events r) = false /\
  existsb is_hide (events r) = false /\
  treated_as_device_loss (events r) = false /\
  In (EvReset renderTarget) (events r).
Proof.
  intros Hsc Hdim. cbv zeta. unfold OnDisplayChange, Resize.
  cbn [CalculateBounds set_bounds m_hwnd m_swapChain m_bounds
       set_renderTarget m_allowTearing left right top bottom].
  destruct (m_swapChain this) eqn:Esc; [|now elim Hsc].
  match goal with
  | |- context [(?w <=? 0) || (?h <=? 0)] =>
      replace ((w <=? 0) || (h <=? 0)) with true
        by (symmetry; apply orb_true_iff;
            destruct Hdim; [left|right]; apply Z.leb_le; lia)
  end.
  destruct (m_hwnd this); run_monad; cbn;
    repeat split; try reflexivity; try assumption; auto.
Qed.

Lemma OnDisplayChange_on_empty_desktop_witness :
  let r := OnDisplayChange env_empty_desktop overlay_shown next_handle in
  let after := value r in
  m_renderTarget after = None /\
  m_visible after = m_visible overlay_shown /\
  m_swapChain after = m_swapChain overlay_shown /\
  m_bounds after = virtual_screen env_empty_desktop /\
  existsb is_resize (events r) = false /\
  existsb is_hide (events r) = false /\
  treated_as_device_loss (events r) = false /\
  In (EvReset renderTarget) (events r).
Proof.
  apply (OnDisplayChange_on_empty_desktop env_empty_desktop overlay_shown
           next_handle).
  - discriminate.
  - left. cbn. lia.
Defined.

End OverlayLifecycle.

(** ** The edge-enhancement shader *)

Module EdgeShaderFacts.
Import Float32 Float32Facts InvertShader EdgeEnhanceShader.

Lemma saturate_in_range (v : float) : in_range f0_0 f1_0 (saturate v) = true.
Proof.
  unfold saturate. destruct (is_nan v) eqn:N; [reflexivity|].
  now apply clamp_in_range.
Qed.

(** X19: the edge shader keeps the alpha of the colour.  With an edge strength
    that is not greater than 0 (a NaN included) it returns the colour
    unchanged; otherwise every colour channel of the result is within
    [0, 1] and is not a NaN, whatever the samples are. *)
Theorem edge_main_stays_in_range (color : float4) (samples : nat -> float3)
    (edgeStrength : float) :
  let out := main color samples edgeStrength in
  a out = a color /\
  (ltb f0_0 edgeStrength = false -> out = color) /\
  (ltb f0_0 edgeStrength = true ->
   in_range f0_0 f1_0 (r out) = true /\ in_range f0_0 f1_0 (g out) = true /\
   in_range f0_0 f1_0 (b out) = true /\
   is_nan (r out) = false /\ is_nan (g out) = false /\
   is_nan (b out) = false) /\
  main color samples NaN = color.
Proof.
  cbv zeta. unfold main.
  destruct (ltb f0_0 edgeStrength); cbn [r g b a].
  - split; [reflexivity|]. split; [discriminate|]. split; [|reflexivity].
    intros _.
    repeat split; try apply saturate_in_range;
      match goal with
      | |- is_nan (saturate ?v) = false =>
          pose proof (saturate_in_range v) as H; unfold in_range in H;
          apply andb_true_iff in H; destruct H as [_ H];
          now apply leb_not_nan_l in H
      end.
  - split; [reflexivity|]. split; [reflexivity|]. split; [discriminate|].
    reflexivity.
Qed.

End EdgeShaderFacts.

(** ** Logger: the clean-up of old logs *)

Module LoggerFacts.
Import Logger.

Local Open Scope nat_scope.

Lemma leb_trans (s1 : string) :
  forall s2 s3,
    String.leb s1 s2 = true -> String.leb s2 s3 = true ->
    String.leb s1 s3 = true.
Proof.
  unfold String.leb.
  induction s1 as [|a s1 IH]; intros [|b s2] [|c s3]; cbn;
    try reflexivity; try discriminate.
  unfold Ascii.compare.
  destruct (N.compare_spec (Ascii.N_of_ascii a) (Ascii.N_of_ascii b))
    as [Eab|Lab|Gab]; [|intros _|discriminate].
  - rewrite Eab.
    destruct (N.compare_spec (Ascii.N_of_ascii b) (Ascii.N_of_ascii c));
      [apply IH|reflexivity|discriminate].
  - destruct (N.compare_spec (Ascii.N_of_ascii b) (Ascii.N_of_ascii c))
      as [Ebc|Lbc|Gbc]; [intros _|intros _|discriminate].
    + rewrite <- Ebc. apply N.compare_lt_iff in Lab. now rewrite Lab.
    + assert (L : (Ascii.N_of_ascii a < Ascii.N_of_ascii c)%N)
        by (etransitivity; eassumption).
      apply N.compare_lt_iff in L. now rewrite L.
Qed.

Lemma sort_strongly_sorted (l : list path) :
  Sorted.StronglySorted le (PathSort.sort l).
Proof.
  apply Sorted.Sorted_StronglySorted.
  - intros x y z. apply leb_trans.
  - apply PathSort.Sorted_sort.
Qed.

Lemma split_sorted (l : list path) :
  Sorted.StronglySorted le l ->
  forall k p q, In p (firstn k l) -> In q (skipn k l) -> le p q.
Proof.
  induction 1 as [|a l Hs IH Ha]; intros k p q Hp Hq.
  - destruct k; destruct Hp.
  - destruct k as [|k]; [destruct Hp|].
    cbn [firstn skipn] in Hp, Hq. destruct Hp as [<-|Hp].
    + rewrite Forall_forall in Ha. apply Ha.
      rewrite <- (firstn_skipn k l). apply in_or_app. now right.
    + now apply (IH k).
Qed.

(** X20: the clean-up of [Logger::Initialize] removes only [.log] files of the
    directory and keeps min(n, 10) of its n log files.  Every file it
    removes sorts before every file it keeps, so with names made of the
    time the newest are kept; the log file with the greatest name is never
    removed. *)
Theorem log_cleanup_keeps_the_last_ten (entries : list path) :
  let logs := filter is_log entries in
  let removed := removed_logs entries in
  let kept := kept_logs entries in
  Permutation.Permutation (removed ++ kept) logs /\
  List.length kept = Nat.min (List.length logs) 10 /\
  (forall p q, In p removed -> In q kept -> String.leb p q = true) /\
  (forall p, In p removed -> is_log p = true /\ In p entries) /\
  (forall newest,
     NoDup entries -> In newest logs ->
     (forall p, In p logs -> String.leb p newest = true) ->
     ~ In newest removed).
Proof.
  cbv zeta. unfold removed_logs, kept_logs.
  set (logs := filter is_log entries).
  set (n := List.length logs).
  pose proof (PathSort.Permuted_sort logs) as P.
  pose proof (sort_strongly_sorted logs) as S.
  assert (Ln : List.length (PathSort.sort logs) = n)
    by (symmetry; now apply Permutation.Permutation_length).
  destruct (10 <? n) eqn:E.
  - apply Nat.ltb_lt in E.
    assert (Perm : Permutation.Permutation
                     (firstn (n - 10) (PathSort.sort logs)
                      ++ skipn (n - 10) (PathSort.sort logs)) logs)
      by (rewrite firstn_skipn; now symmetry).
    assert (Lk : List.length (skipn (n - 10) (PathSort.sort logs)) = 10)
      by (rewrite length_skipn, Ln; lia).
    assert (Ord : forall p q,
               In p (firstn (n - 10) (PathSort.sort logs)) ->
               In q (skipn (n - 10) (PathSort.sort logs)) ->
               String.leb p q = true)
      by (intros p q; apply (split_sorted _ S)).
    split; [exact Perm|]. split; [rewrite Lk; lia|]. split; [exact Ord|].
    split.
    + intros p Hp.
      assert (In p logs).
      { apply (Permutation.Permutation_in p Perm).
        apply in_or_app. now left. }
      unfold logs in H. apply filter_In in H. tauto.
    + intros newest Hnd Hin Hmax Hrem.
      assert (Nd : NoDup (firstn (n - 10) (PathSort.sort logs)
                          ++ skipn (n - 10) (PathSort.sort logs))).
      { apply (Permutation.Permutation_NoDup (Permutation.Permutation_sym Perm)).
        now apply NoDup_filter. }
      destruct (skipn (n - 10) (PathSort.sort logs)) as [|q kept] eqn:Ek;
        [discriminate Lk|].
      assert (Hq : In q logs).
      { apply (Permutation.Permutation_in q Perm).
        apply in_or_app. right. now left. }
      assert (q = newest).
      { apply String.leb_antisym; [now apply Hmax|].
        apply Ord; [exact Hrem|now left]. }
      subst q. apply NoDup_app_remove_l in Nd as Nk.
      clear - Nd Hrem.
      induction (firstn (n - 10) (PathSort.sort logs)) as [|x l IH];
        [destruct Hrem|].
      cbn in Nd. inversion Nd as [|? ? Hx Hl]; subst.
      destruct Hrem as [->|Hrem]; [|now apply IH].
      apply Hx. apply in_or_app. right. now left.
  - apply Nat.ltb_ge in E. cbn [app].
    split; [reflexivity|]. split; [fold n; lia|].
    split; [intros p q []|]. split; [intros p []|].
    intros newest _ _ _ [].
Qed.

End LoggerFacts.

(** ** Controller: initialisation, frames, enabling, safe mode *)

Module ControllerFacts.
Import Controller.

(** *** Calls on the owned objects *)

Lemma on_run {E A} (tag : E -> Event) (m : M E A) (n : Handle) (a : A)
    (n1 : Handle) (e1 : list E) :
  m n = ((a, n1), e1) -> on tag m n = ((a, n1), map tag e1).
Proof. intros H. unfold on. now rewrite H. Qed.

Lemma on_then {E A} (tag : E -> Event) (m : M E A) (f : A -> Controller)
    (n : Handle) (a : A) (n1 : Handle) (e1 : list E) :
  m n = ((a, n1), e1) ->
  (x <- on tag m ;; ret (f x)) n = ((f a, n1), map tag e1).
Proof.
  intros H. rewrite (bind_run _ _ _ _ _ _ (on_run tag _ _ _ _ _ H)).
  cbn. now rewrite app_nil_r.
Qed.

Lemma emit_then {A} (e : Event) (k : M Event A) (n : Handle) :
  (emit e ;;; k) n = (fst (k n), e :: snd (k n)).
Proof. unfold bind, emit. now destruct (k n) as [[? ?] ?]. Qed.

Lemma bind_assoc {A B C} (m : M Event A) (k : A -> M Event B)
    (h : B -> M Event C) (n : Handle) :
  bind (bind m k) h n = bind m (fun x => bind (k x) h) n.
Proof.
  unfold bind. destruct (m n) as [[a n1] e1].
  destruct (k a n1) as [[b n2] e2]. destruct (h b n2) as [[c n3] e3].
  now rewrite app_assoc.
Qed.

Lemma ret_then {A B} (a : A) (k : A -> M Event B) (n : Handle) :
  (x <- ret a ;; k x) n = k a n.
Proof. unfold bind, ret. now destruct (k a n) as [[? ?] ?]. Qed.

Lemma when_run (b : bool) (e : Event) (n : Handle) :
  when b e n = ((tt, n), if b then [e] else []).
Proof. now destruct b. Qed.

(** *** Reading traces *)

Lemma quiet_capture (l : list CaptureManager.Event) :
  forallb quiet (map EvCapture l) = true.
Proof. induction l; [reflexivity|exact IHl]. Qed.

Lemma quiet_pipeline (l : list ShaderPipeline.Event) :
  forallb quiet (map EvPipeline l) = true.
Proof. induction l; [reflexivity|exact IHl]. Qed.

Lemma quiet_no_draw (tr : list Event) :
  forallb quiet tr = true -> forallb (fun e => negb (is_draw e)) tr = true.
Proof.
  induction tr as [|e tr IH]; [reflexivity|]. cbn [forallb].
  intros H. apply andb_true_iff in H. destruct H as [H1 H2].
  rewrite (IH H2), andb_true_r.
  destruct e as [c|o|p|s| | | | | | |]; try reflexivity.
  now destruct o.
Qed.

Lemma no_draw_drawn (tr : list Event) :
  forallb (fun e => negb (is_draw e)) tr = true -> drawn tr = [].
Proof.
  induction tr as [|e tr IH]; [reflexivity|]. cbn [forallb].
  intros H. apply andb_true_iff in H. destruct H as [H1 H2].
  destruct e as [c|o|p|s| | | | | | |]; cbn [drawn]; try now apply IH.
  destruct o; try now apply IH. discriminate H1.
Qed.

Lemma quiet_shows (tr : list Event) :
  forallb quiet tr = true -> shows_overlay tr = false.
Proof.
  unfold shows_overlay.
  induction tr as [|e tr IH]; [reflexivity|]. cbn [forallb existsb].
  intros H. apply andb_true_iff in H. destruct H as [H1 H2].
  rewrite (IH H2), orb_false_r.
  destruct e as [c|o|p|s| | | | | | |]; try reflexivity.
  destruct o; try reflexivity. now destruct cmd.
Qed.

Lemma sounds_app (l1 l2 : list Event) :
  sounds (l1 ++ l2) = sounds l1 ++ sounds l2.
Proof.
  induction l1 as [|e l1 IH]; [reflexivity|].
  destruct e; cbn [sounds app]; now rewrite ?IH.
Qed.

Lemma drawn_app (l1 l2 : list Event) :
  drawn (l1 ++ l2) = drawn l1 ++ drawn l2.
Proof.
  induction l1 as [|e l1 IH]; [reflexivity|].
  destruct e as [c|o|p|s| | | | | | |]; cbn [drawn app]; try exact IH.
  destruct o; cbn [app]; now rewrite ?IH.
Qed.

Lemma sounds_capture (l : list CaptureManager.Event) :
  sounds (map EvCapture l) = [].
Proof. induction l; [reflexivity|exact IHl]. Qed.

Lemma sounds_overlay (l : list OverlayWindow.Event) :
  sounds (map EvOverlay l) = [].
Proof. induction l; [reflexivity|exact IHl]. Qed.

Lemma no_draw_capture (l : list CaptureManager.Event) :
  forallb (fun e => negb (is_draw e)) (map EvCapture l) = true.
Proof. apply quiet_no_draw, quiet_capture. Qed.

(** *** The capture manager under the controller's calls *)

Lemma Stop_facts (c : CaptureManager.CaptureManager) (n : Handle) :
  exists c' ev,
    CaptureManager.Stop c n = ((c', n), ev) /\
    CaptureManager.m_running c' = false /\
    CaptureManager.m_frameCallback c' = CaptureManager.m_frameCallback c.
Proof.
  rewrite CaptureLifecycle.Stop_trace.
  destruct (CaptureManager.m_running c) eqn:R; eexists _, _;
    (split; [reflexivity|]); cbn; auto.
Qed.

Lemma Start_facts (env : CaptureManager.Env)
    (c : CaptureManager.CaptureManager) (n : Handle) :
  exists ok c' n' ev,
    CaptureManager.Start env c n = (((ok, c'), n'), ev) /\
    CaptureManager.m_running c'
    = CaptureManager.m_running c
      || CaptureManager.graphics_capture_available env /\
    CaptureManager.m_frameCallback c' = CaptureManager.m_frameCallback c.
Proof.
  pose proof (CaptureLifecycle.Start_run env c n) as R. cbv zeta in R.
  destruct (CaptureManager.Start env c n) as [[[ok c'] n'] ev] eqn:E.
  exists ok, c', n', ev. split; [reflexivity|].
  destruct (CaptureManager.m_running c) eqn:Rn.
  { injection R as -> -> -> ->. now rewrite Rn. }
  destruct (CaptureManager.graphics_capture_available env).
  - destruct R as (new & S1 & _). unfold value in S1. cbn [fst snd] in S1.
    subst c'. cbn. auto.
  - injection R as -> -> -> ->. now rewrite Rn.
Qed.

Lemma Restart_facts (env : CaptureManager.Env)
    (c : CaptureManager.CaptureManager) (n : Handle) :
  exists c' n' ev,
    CaptureManager.Restart env c n = ((c', n'), ev) /\
    CaptureManager.m_running c'
    = CaptureManager.graphics_capture_available env /\
    CaptureManager.m_frameCallback c' = CaptureManager.m_frameCallback c.
Proof.
  rewrite CaptureLifecycle.Restart_run. cbv zeta.
  destruct (Stop_facts c n) as (c1 & ev1 & E1 & R1 & F1).
  rewrite E1. unfold value, events. cbn [fst snd].
  destruct (Start_facts env (CaptureManager.EnumerateMonitors env c1) n)
    as (ok & c2 & n2 & ev2 & E2 & R2 & F2).
  rewrite E2. cbn [fst snd].
  exists c2, n2, (ev1 ++ ev2). split; [reflexivity|].
  rewrite R2, F2. cbn. rewrite R1. auto.
Qed.

(** *** The overlay window under the controller's calls *)

Lemma Hide_facts (o : OverlayWindow.OverlayWindow) (n : Handle) :
  exists o' ev,
    OverlayWindow.Hide o n = ((o', n), ev) /\
    forallb quiet (map EvOverlay ev) = true /\
    (OverlayWindow.m_hwnd o <> None -> OverlayWindow.m_visible o' = false) /\
    (OverlayWindow.m_visible o = false -> OverlayWindow.m_visible o' = false).
Proof.
  rewrite OverlayLifecycle.Hide_explicit.
  destruct (OverlayWindow.m_hwnd o) eqn:W;
    destruct (OverlayWindow.m_visible o) eqn:V; cbn [is_object andb];
    eexists _, _; (split; [reflexivity|]); cbn;
    repeat split; auto; try congruence.
Qed.

Lemma OnDisplayChange_quiet (env : OverlayWindow.Env)
    (o : OverlayWindow.OverlayWindow) (n : Handle) :
  exists o' n' ev,
    OverlayWindow.OnDisplayChange env o n = ((o', n'), ev) /\
    forallb quiet (map EvOverlay ev) = true.
Proof.
  unfold OverlayWindow.OnDisplayChange, OverlayWindow.Resize,
    OverlayWindow.Hide.
  destruct o as [hi hw vis b sp dev ctx sc rt vb ib il sm bs vs ps at_ dl cb].
  cbn.
  destruct hw, sc; run_monad; cbn;
    repeat match goal with
           | |- context [if ?c then _ else _] => destruct c; cbn
           end;
    eexists _, _, _; (split; [reflexivity|]); reflexivity.
Qed.

(** *** Switching off *)

Ltac fields :=
  cbn [m_hInstance m_captureManager m_overlayWindow m_shaderPipeline
       m_magnifierController m_speechEngine m_trayIcon m_safeMode
       m_enhancementEnabled m_magnifierEnabled set_captureManager
       set_overlayWindow set_shaderPipeline set_safeMode set_enabled
       IsInSafeMode capturing overlay_visible callback_registered].

Ltac fields_in H :=
  cbn [m_hInstance m_captureManager m_overlayWindow m_shaderPipeline
       m_magnifierController m_speechEngine m_trayIcon m_safeMode
       m_enhancementEnabled m_magnifierEnabled set_captureManager
       set_overlayWindow set_shaderPipeline set_safeMode set_enabled
       IsInSafeMode capturing overlay_visible callback_registered] in H.

Lemma DisableAllEffects_run (this : Controller) (n : Handle) :
  exists this' ev,
    DisableAllEffects this n = ((this', n), ev) /\
    m_enhancementEnabled this' = false /\
    m_magnifierEnabled this' = false /\
    m_safeMode this' = m_safeMode this /\
    capturing this' = false /\
    callback_registered this' = callback_registered this /\
    forallb quiet ev = true /\ sounds ev = [] /\
    (forall o, m_overlayWindow this = Some o ->
               OverlayWindow.m_hwnd o <> None ->
               overlay_visible this' = false).
Proof.
  unfold DisableAllEffects.
  destruct this as [hi cm ow sp mc se ti sm ee me]. fields.
  assert (S1 : exists t1 ev1,
             match cm with
             | Some capture =>
                 c <- on EvCapture (CaptureManager.Stop capture) ;;
                 ret (set_captureManager (Some c)
                        (Build_Controller hi cm ow sp mc se ti sm false me))
             | None => ret (Build_Controller hi cm ow sp mc se ti sm false me)
             end n = ((t1, n), ev1) /\
             capturing t1 = false /\
             callback_registered t1
             = callback_registered
                 (Build_Controller hi cm ow sp mc se ti sm false me) /\
             forallb quiet ev1 = true /\ sounds ev1 = [] /\
             (exists cm', t1 = Build_Controller hi cm' ow sp mc se ti sm
                                 false me)).
  { destruct cm as [c|].
    - destruct (Stop_facts c n) as (c1 & ev1 & E1 & R1 & F1).
      eexists _, _. split; [exact (on_then EvCapture _ _ _ _ _ _ E1)|].
      fields. rewrite R1, F1.
      repeat split; try apply quiet_capture; try apply sounds_capture.
      eexists. reflexivity.
    - eexists _, _. split; [reflexivity|]. repeat split.
      eexists. reflexivity. }
  destruct S1 as (t1 & ev1 & E1 & C1 & F1 & Q1 & P1 & (cm' & ->)).
  rewrite (bind_run _ _ _ _ _ _ E1). cbn [fst snd]. fields.
  fields_in C1. fields_in F1.
  assert (S2 : exists t2 ev2,
             match ow with
             | Some overlay =>
                 o <- on EvOverlay (OverlayWindow.Hide overlay) ;;
                 ret (set_overlayWindow (Some o)
                        (Build_Controller hi cm' ow sp mc se ti sm false me))
             | None => ret (Build_Controller hi cm' ow sp mc se ti sm false me)
             end n = ((t2, n), ev2) /\
             forallb quiet ev2 = true /\ sounds ev2 = [] /\
             (exists ow', t2 = Build_Controller hi cm' ow' sp mc se ti sm
                                 false me /\
                (forall o, ow = Some o -> OverlayWindow.m_hwnd o <> None ->
                           overlay_visible t2 = false))).
  { destruct ow as [o|].
    - destruct (Hide_facts o n) as (o1 & ev2 & E2 & Q2 & V2 & _).
      eexists _, _. split; [exact (on_then EvOverlay _ _ _ _ _ _ E2)|].
      split; [exact Q2|]. split; [apply sounds_overlay|].
      eexists. split; [reflexivity|]. fields.
      intros o' [= <-] W. now apply V2.
    - eexists _, _. split; [reflexivity|]. repeat split.
      eexists. split; [reflexivity|]. discriminate. }
  destruct S2 as (t2 & ev2 & E2 & Q2 & P2 & (ow' & -> & V2)).
  rewrite (bind_run _ _ _ _ _ _ E2). cbn [fst snd]. fields.
  rewrite (bind_run _ _ _ _ _ _ (when_run _ _ _)). cbn [fst snd].
  rewrite (bind_run _ _ _ _ _ _ (when_run _ _ _)). cbn [fst snd].
  rewrite (bind_run _ _ _ _ _ _ (when_run _ _ _)). cbn [fst snd].
  unfold ret. cbn [fst snd].
  eexists _, _. split; [reflexivity|]. fields.
  split; [reflexivity|]. split; [reflexivity|]. split; [reflexivity|].
  split; [exact C1|]. split; [exact F1|].
  split.
  { rewrite !forallb_app, Q1, Q2. now destruct mc, se, ti. }
  split.
  { rewrite !sounds_app, P1, P2. now destruct mc, se, ti. }
  exact V2.
Qed.

Lemma ActivatePanicOff_run (this : Controller) (n : Handle) :
  exists this' ev,
    ActivatePanicOff this n
    = ((this', n), EvPlay PanicOff :: ev ++ [EvPlayPanicSound]) /\
    switched_off this' /\
    capturing this' = false /\
    callback_registered this' = callback_registered this /\
    forallb quiet ev = true /\ sounds ev = [] /\
    (forall o, m_overlayWindow this = Some o ->
               OverlayWindow.m_hwnd o <> None ->
               overlay_visible this' = false).
Proof.
  unfold ActivatePanicOff.
  destruct (DisableAllEffects_run (set_safeMode true this) n)
    as (t & ev & E & A & B & C & D & F & Q & P & V).
  unfold bind at 1. unfold emit at 1.
  rewrite (bind_run _ _ _ _ _ _ E). cbn [fst snd app].
  unfold bind, emit, ret. cbn [fst snd app].
  exists t, ev. split; [reflexivity|].
  split; [unfold switched_off, IsInSafeMode; now rewrite A, B, C|].
  repeat split; assumption.
Qed.

Lemma EnableEnhancement_blocked (env : Env) (this : Controller) (n : Handle)
    (enable : bool) :
  IsInSafeMode this = true -> m_enhancementEnabled this = false ->
  EnableEnhancement env enable this n = ((this, n), []).
Proof.
  intros S E. unfold EnableEnhancement. rewrite S, E. now destruct enable.
Qed.

Lemma EnableMagnifier_blocked (this : Controller) (n : Handle)
    (enable : bool) :
  IsInSafeMode this = true -> m_magnifierEnabled this = false ->
  EnableMagnifier enable this n = ((this, n), []).
Proof.
  intros S E. unfold EnableMagnifier. rewrite S, E. now destruct enable.
Qed.

(** X21: panic-off (with the panic callback of the controller registered)
    from any state enters safe mode, clears both effect flags, stops
    capture and hides the overlay window.  The panic-off sound is its
    first call and the panic beep its last; nothing is drawn or shown.
    Afterwards [EnableEnhancement] and [EnableMagnifier] do nothing at
    all, and [ExitSafeMode] leaves both effects off. *)
Theorem ActivatePanicOff_switches_everything_off (env : Env)
    (this : Controller) (n : Handle) :
  let r := ActivatePanicOff this n in
  let off := value r in
  IsInSafeMode off = true /\
  m_enhancementEnabled off = false /\ m_magnifierEnabled off = false /\
  capturing off = false /\
  (forall o, m_overlayWindow this = Some o ->
             OverlayWindow.m_hwnd o <> None -> overlay_visible off = false) /\
  hd_error (events r) = Some (EvPlay PanicOff) /\
  last (events r) EvHeartbeat = EvPlayPanicSound /\
  sounds (events r) = [PanicOff] /\
  drawn (events r) = [] /\ shows_overlay (events r) = false /\
  (forall enable n',
     EnableEnhancement env enable off n' = ((off, n'), []) /\
     EnableMagnifier enable off n' = ((off, n'), [])) /\
  IsInSafeMode (ExitSafeMode off) = false /\
  m_enhancementEnabled (ExitSafeMode off) = false /\
  m_magnifierEnabled (ExitSafeMode off) = false.
Proof.
  cbv zeta.
  destruct (ActivatePanicOff_run this n)
    as (t & ev & E & (S1 & S2 & S3) & C & F & Q & P & V).
  rewrite E. unfold value, events. cbn [fst snd].
  assert (Q' : forallb quiet (EvPlay PanicOff :: ev ++ [EvPlayPanicSound])
               = true).
  { cbn [forallb]. now rewrite forallb_app, Q. }
  split; [exact S1|]. split; [exact S2|]. split; [exact S3|].
  split; [exact C|]. split; [exact V|]. split; [reflexivity|].
  split; [now rewrite app_comm_cons, last_last|].
  split.
  { cbn [sounds]. now rewrite sounds_app, P. }
  split; [now apply no_draw_drawn, quiet_no_draw|].
  split; [now apply quiet_shows|].
  split.
  { intros enable n'. split.
    - now apply EnableEnhancement_blocked.
    - now apply EnableMagnifier_blocked. }
  unfold ExitSafeMode. unfold IsInSafeMode in S1. rewrite S1. cbn.
  now rewrite S2, S3.
Qed.

(** *** Frames *)

Lemma OnFrameArrived_run (a : CaptureManager.Arrival)
    (c : CaptureManager.CaptureManager) (n : Handle) :
  CaptureManager.OnFrameArrived a c n
  = ((tt, n),
     if CaptureManager.m_running c then
       match a with
       | CaptureManager.Texture t =>
           CaptureManager.EvAddRef t
           :: match CaptureManager.m_frameCallback c with
              | Some cb => [CaptureManager.EvFrameCallback cb t]
              | None => []
              end ++ [CaptureManager.EvRelease t]
       | _ => []
       end
     else []).
Proof.
  unfold CaptureManager.OnFrameArrived.
  destruct (CaptureManager.m_running c); [|reflexivity].
  destruct a; try reflexivity.
  now destruct (CaptureManager.m_frameCallback c).
Qed.

Lemma RenderFrame_run (env : OverlayWindow.Env) (texture : option Handle)
    (o : OverlayWindow.OverlayWindow) (n : Handle) :
  exists n',
    OverlayWindow.RenderFrame env texture o n
    = ((tt, n'),
       match texture with
       | Some t =>
           if OverlayWindow.m_visible o
              && negb (FAILED (OverlayWindow.hr env
                                 OverlayWindow.CreateShaderResourceView))
           then [OverlayWindow.EvDraw t] else []
       | None => []
       end).
Proof.
  unfold OverlayWindow.RenderFrame.
  destruct (OverlayWindow.m_visible o), texture as [t|]; cbn [negb andb];
    try (now exists n).
  destruct (FAILED _); cbn [negb]; eexists; reflexivity.
Qed.

Lemma frame_callback_disabled (env : Env) (frame : Handle)
    (this : Controller) (n : Handle) :
  m_enhancementEnabled this = false ->
  frame_callback env frame this n = ((this, n), [EvHeartbeat]).
Proof. intros H. unfold frame_callback. now rewrite H. Qed.

Lemma frame_callback_run (env : Env) (frame : Handle) (this : Controller)
    (o : OverlayWindow.OverlayWindow) (p : ShaderPipeline.ShaderPipeline)
    (n : Handle) :
  m_enhancementEnabled this = true ->
  m_overlayWindow this = Some o -> m_shaderPipeline this = Some p ->
  let input :=
    {| ShaderPipeline.tex_id := frame;
       ShaderPipeline.Width := fst (frame_size env frame);
       ShaderPipeline.Height := snd (frame_size env frame) |} in
  let pr := ShaderPipeline.Process (pipeline_env env) (Some input) p n in
  let rr := OverlayWindow.RenderFrame (overlay_env env)
              (option_map ShaderPipeline.tex_id (fst (value pr))) o
              (snd (fst pr)) in
  frame_callback env frame this n
  = ((set_shaderPipeline (Some (snd (value pr))) this, snd (fst rr)),
     map EvPipeline (events pr) ++ map EvOverlay (events rr)
     ++ [EvHeartbeat]).
Proof.
  intros He Ho Hp. cbv zeta. unfold frame_callback. rewrite He, Ho, Hp.
  destruct (ShaderPipeline.Process (pipeline_env env) _ p n)
    as [[[out p'] n1] ev1] eqn:E1.
  unfold value, events. cbn [fst snd].
  destruct (OverlayWindow.RenderFrame (overlay_env env)
              (option_map ShaderPipeline.tex_id out) o n1)
    as [[u n2] ev2] eqn:E2.
  cbn [fst snd].
  assert (E : (r <- on EvPipeline
                      (ShaderPipeline.Process (pipeline_env env)
                         (Some {| ShaderPipeline.tex_id := frame;
                                  ShaderPipeline.Width :=
                                    fst (frame_size env frame);
                                  ShaderPipeline.Height :=
                                    snd (frame_size env frame) |}) p) ;;
               on EvOverlay
                 (OverlayWindow.RenderFrame (overlay_env env)
                    (option_map ShaderPipeline.tex_id (fst r)) o) ;;;
               ret (set_shaderPipeline (Some (snd r)) this)) n
              = ((set_shaderPipeline (Some p') this, n2),
                 map EvPipeline ev1 ++ map EvOverlay ev2)).
  { rewrite (bind_run _ _ _ _ _ _ (on_run EvPipeline _ _ _ _ _ E1)).
    cbn [fst snd].
    rewrite (bind_run _ _ _ _ _ _ (on_run EvOverlay _ _ _ _ _ E2)).
    cbn. now rewrite app_nil_r. }
  rewrite (bind_run _ _ _ _ _ _ E). cbn. now rewrite <- app_assoc.
Qed.

(** A frame-arrived event, case by case. *)
Lemma frame_arrived_run (env : Env) (a : CaptureManager.Arrival)
    (this : Controller) (n : Handle) :
  frame_arrived env a this n
  = match m_captureManager this with
    | None => ((this, n), [])
    | Some c =>
        if CaptureManager.m_running c then
          match a with
          | CaptureManager.Texture t =>
              match CaptureManager.m_frameCallback c with
              | Some cb =>
                  let body :=
                    (if Nat.eqb cb frame_lambda
                     then frame_callback env t this else ret this) n in
                  ((value body, snd (fst body)),
                   EvCapture (CaptureManager.EvAddRef t)
                   :: EvCapture (CaptureManager.EvFrameCallback cb t)
                   :: events body
                   ++ [EvCapture (CaptureManager.EvRelease t)])
              | None =>
                  ((this, n),
                   [EvCapture (CaptureManager.EvAddRef t);
                    EvCapture (CaptureManager.EvRelease t)])
              end
          | _ => ((this, n), [])
          end
        else ((this, n), [])
    end.
Proof.
  unfold frame_arrived.
  destruct (m_captureManager this) as [c|]; [|reflexivity].
  rewrite OnFrameArrived_run. unfold events at 1. cbn [snd].
  destruct (CaptureManager.m_running c); [|reflexivity].
  destruct a; try reflexivity.
  destruct (CaptureManager.m_frameCallback c) as [cb|]; [|reflexivity].
  cbn [app dispatch]. cbv zeta.
  destruct ((if Nat.eqb cb frame_lambda
             then frame_callback env texture this else ret this) n)
    as [[t1 n1] ev1] eqn:E.
  rewrite !emit_then, (bind_run _ _ _ _ _ _ E).
  unfold value, events. cbn. reflexivity.
Qed.

(** *** Guarded calls on the capture manager and the overlay *)

Lemma controller_eta (this : Controller) :
  set_captureManager (m_captureManager this) this = this /\
  set_overlayWindow (m_overlayWindow this) this = this.
Proof. now destruct this. Qed.

Lemma capture_call (this : Controller)
    (m : CaptureManager.CaptureManager
         -> M CaptureManager.Event CaptureManager.CaptureManager)
    (n : Handle) :
  exists ev,
    match m_captureManager this with
    | Some capture =>
        c <- on EvCapture (m capture) ;;
        ret (set_captureManager (Some c) this)
    | None => ret this
    end n
    = ((set_captureManager
          (option_map (fun c => value (m c n)) (m_captureManager this)) this,
        match m_captureManager this with
        | Some c => snd (fst (m c n))
        | None => n
        end),
       map EvCapture ev).
Proof.
  destruct (m_captureManager this) as [c|] eqn:Ec.
  - destruct (m c n) as [[c' n'] ev] eqn:E. exists ev.
    rewrite (on_then EvCapture _ _ _ _ _ _ E). cbn [option_map].
    now rewrite ?E.
  - exists []. cbn [option_map]. rewrite <- Ec.
    now rewrite (proj1 (controller_eta this)).
Qed.

Lemma overlay_call (this : Controller)
    (m : OverlayWindow.OverlayWindow
         -> M OverlayWindow.Event OverlayWindow.OverlayWindow)
    (n : Handle) :
  exists ev,
    match m_overlayWindow this with
    | Some overlay =>
        o <- on EvOverlay (m overlay) ;;
        ret (set_overlayWindow (Some o) this)
    | None => ret this
    end n
    = ((set_overlayWindow
          (option_map (fun o => value (m o n)) (m_overlayWindow this)) this,
        match m_overlayWindow this with
        | Some o => snd (fst (m o n))
        | None => n
        end),
       map EvOverlay ev) /\
    ev = match m_overlayWindow this with
         | Some o => events (m o n)
         | None => []
         end.
Proof.
  destruct (m_overlayWindow this) as [o|] eqn:Eo.
  - destruct (m o n) as [[o' n'] ev] eqn:E. exists ev.
    rewrite (on_then EvOverlay _ _ _ _ _ _ E). cbn [option_map].
    now rewrite ?E.
  - exists []. cbn [option_map]. rewrite <- Eo.
    now rewrite (proj2 (controller_eta this)).
Qed.

Lemma start_call (env : Env) (this : Controller) (n : Handle) :
  exists ev,
    match m_captureManager this with
    | Some capture =>
        r <- on EvCapture
               (CaptureManager.Start (capture_env env) capture) ;;
        ret (set_captureManager (Some (snd r)) this)
    | None => ret this
    end n
    = ((set_captureManager
          (option_map
             (fun c => snd (value (CaptureManager.Start (capture_env env) c n)))
             (m_captureManager this)) this,
        match m_captureManager this with
        | Some c => snd (fst (CaptureManager.Start (capture_env env) c n))
        | None => n
        end),
       map EvCapture ev).
Proof.
  destruct (m_captureManager this) as [c|] eqn:Ec.
  - destruct (CaptureManager.Start (capture_env env) c n)
      as [[[ok c'] n'] ev] eqn:E.
    exists ev.
    rewrite (on_then EvCapture _ (fun r => set_captureManager
                                            (Some (snd r)) this)
               _ _ _ _ E).
    cbn [option_map]. now rewrite ?E.
  - exists []. cbn [option_map]. rewrite <- Ec.
    now rewrite (proj1 (controller_eta this)).
Qed.

(** What the capture manager's calls keep and leave. *)

Lemma Stop_value (c : CaptureManager.CaptureManager) (n : Handle) :
  CaptureManager.m_running (value (CaptureManager.Stop c n)) = false /\
  CaptureManager.m_frameCallback (value (CaptureManager.Stop c n))
  = CaptureManager.m_frameCallback c /\
  snd (fst (CaptureManager.Stop c n)) = n.
Proof.
  destruct (Stop_facts c n) as (c' & ev & E & R & F). now rewrite E.
Qed.

Lemma Start_value (env : CaptureManager.Env)
    (c : CaptureManager.CaptureManager) (n : Handle) :
  CaptureManager.m_running (snd (value (CaptureManager.Start env c n)))
  = CaptureManager.m_running c
    || CaptureManager.graphics_capture_available env /\
  CaptureManager.m_frameCallback (snd (value (CaptureManager.Start env c n)))
  = CaptureManager.m_frameCallback c.
Proof.
  destruct (Start_facts env c n) as (ok & c' & n' & ev & E & R & F).
  now rewrite E.
Qed.

Lemma Restart_value (env : CaptureManager.Env)
    (c : CaptureManager.CaptureManager) (n : Handle) :
  CaptureManager.m_running (value (CaptureManager.Restart env c n))
  = CaptureManager.graphics_capture_available env /\
  CaptureManager.m_frameCallback (value (CaptureManager.Restart env c n))
  = CaptureManager.m_frameCallback c.
Proof.
  destruct (Restart_facts env c n) as (c' & n' & ev & E & R & F).
  now rewrite E.
Qed.

(** *** Display changes and resume *)

Lemma OnDisplayChange_run (env : Env) (this : Controller) (n : Handle) :
  exists this' n' ev,
    OnDisplayChange env this n = ((this', n'), ev) /\
    forallb quiet ev = true /\
    m_safeMode this' = m_safeMode this /\
    m_enhancementEnabled this' = m_enhancementEnabled this /\
    m_magnifierEnabled this' = m_magnifierEnabled this /\
    m_shaderPipeline this' = m_shaderPipeline this /\
    callback_registered this' = callback_registered this /\
    capturing this'
    = is_object (m_captureManager this)
      && CaptureManager.graphics_capture_available (capture_env env).
Proof.
  unfold OnDisplayChange, CaptureManager.OnDisplayChange.
  destruct (capture_call this (CaptureManager.Restart (capture_env env)) n)
    as (ev1 & E1).
  rewrite (bind_run _ _ _ _ _ _ E1). cbn [fst snd].
  match goal with
  | |- context [bind (match m_overlayWindow ?t with _ => _ end) _ ?k] =>
      destruct (overlay_call t (OverlayWindow.OnDisplayChange
                                  (overlay_env env)) k) as (ev2 & E2 & V2)
  end.
  rewrite (bind_run _ _ _ _ _ _ E2). cbn [fst snd].
  rewrite (bind_run _ _ _ _ _ _ (when_run _ _ _)). cbn [fst snd].
  unfold ret. cbn [fst snd]. rewrite app_nil_r.
  eexists _, _, _. split; [reflexivity|]. fields.
  split.
  { rewrite !forallb_app, quiet_capture. cbn [andb].
    assert (Q : forallb quiet (map EvOverlay ev2) = true).
    { rewrite V2. fields.
      destruct (m_overlayWindow this) as [o|]; [|reflexivity].
      match goal with
      | |- context [OverlayWindow.OnDisplayChange ?e o ?k] =>
          destruct (OnDisplayChange_quiet e o k) as (o' & n' & ev & E & Q)
      end.
      now rewrite E. }
    rewrite Q. now destruct (m_magnifierController this). }
  repeat (split; [reflexivity|]).
  unfold callback_registered, capturing. fields.
  destruct (m_captureManager this) as [c|]; cbn [option_map is_object andb];
    [|split; reflexivity].
  destruct (Restart_value (capture_env env) c n) as [R F].
  now rewrite R, F.
Qed.

Lemma OnDpiChange_run (env : Env) (dpi : Z) (this : Controller) (n : Handle) :
  exists this' n' ev,
    OnDpiChange env dpi this n = ((this', n'), ev) /\
    forallb quiet ev = true /\
    m_safeMode this' = m_safeMode this /\
    m_enhancementEnabled this' = m_enhancementEnabled this /\
    m_magnifierEnabled this' = m_magnifierEnabled this /\
    m_shaderPipeline this' = m_shaderPipeline this /\
    m_captureManager this' = m_captureManager this.
Proof.
  unfold OnDpiChange, OverlayWindow.OnDpiChange.
  destruct (overlay_call this (OverlayWindow.OnDisplayChange
                                 (overlay_env env)) n) as (ev2 & E2 & V2).
  rewrite E2. eexists _, _, _. split; [reflexivity|]. fields.
  split; [|now repeat split].
  rewrite V2. destruct (m_overlayWindow this) as [o|]; [|reflexivity].
  destruct (OnDisplayChange_quiet (overlay_env env) o n)
    as (o' & n' & ev & E & Q).
  now rewrite E.
Qed.

Lemma OnSystemResume_run (env : Env) (this : Controller) (n : Handle) :
  exists this' n' ev,
    OnSystemResume env this n = ((this', n'), ev) /\
    forallb quiet ev = true /\
    m_safeMode this' = m_safeMode this /\
    m_enhancementEnabled this' = m_enhancementEnabled this /\
    m_magnifierEnabled this' = m_magnifierEnabled this /\
    m_shaderPipeline this' = m_shaderPipeline this /\
    m_overlayWindow this' = m_overlayWindow this /\
    callback_registered this' = callback_registered this /\
    capturing this'
    = (if m_enhancementEnabled this
       then is_object (m_captureManager this)
            && CaptureManager.graphics_capture_available (capture_env env)
       else capturing this) /\
    (m_enhancementEnabled this = false -> this' = this /\ ev = []).
Proof.
  unfold OnSystemResume.
  destruct (m_captureManager this) as [c|] eqn:Ec.
  2:{ eexists _, _, _. split; [reflexivity|]. unfold callback_registered, capturing. fields. rewrite ?Ec.
      repeat split. now destruct (m_enhancementEnabled this). }
  destruct (m_enhancementEnabled this) eqn:Ee.
  2:{ eexists _, _, _. split; [reflexivity|]. unfold callback_registered, capturing. fields. rewrite ?Ec.
      now repeat split. }
  destruct (CaptureManager.Restart (capture_env env) c n)
    as [[c' n'] ev] eqn:E.
  rewrite (on_then EvCapture _ _ _ _ _ _ E).
  eexists _, _, _. split; [reflexivity|]. unfold callback_registered, capturing. fields. rewrite ?Ec.
  destruct (Restart_value (capture_env env) c n) as [R F].
  rewrite E in R, F. unfold value in R, F. cbn [fst] in R, F.
  rewrite R, F. split; [apply quiet_capture|].
  repeat split; first [reflexivity | assumption | congruence].
Qed.

(** *** Enabling and disabling *)

Lemma Show_value (o : OverlayWindow.OverlayWindow) (n : Handle) :
  OverlayWindow.Show o n
  = ((value (OverlayWindow.Show o n), n),
     if is_object (OverlayWindow.m_hwnd o)
        && negb (OverlayWindow.m_visible o)
     then [OverlayWindow.EvShowWindow OverlayWindow.SW_SHOWNOACTIVATE]
     else []) /\
  OverlayWindow.m_visible (value (OverlayWindow.Show o n))
  = (if is_object (OverlayWindow.m_hwnd o) then true
     else OverlayWindow.m_visible o) /\
  OverlayWindow.m_hwnd (value (OverlayWindow.Show o n))
  = OverlayWindow.m_hwnd o.
Proof.
  rewrite OverlayLifecycle.Show_run.
  destruct (OverlayWindow.m_hwnd o) eqn:W,
           (OverlayWindow.m_visible o) eqn:V;
    cbn; now rewrite ?V, ?W.
Qed.

Lemma Hide_value (o : OverlayWindow.OverlayWindow) (n : Handle) :
  OverlayWindow.Hide o n
  = ((value (OverlayWindow.Hide o n), n),
     if is_object (OverlayWindow.m_hwnd o) && OverlayWindow.m_visible o
     then [OverlayWindow.EvShowWindow OverlayWindow.SW_HIDE]
     else []) /\
  OverlayWindow.m_visible (value (OverlayWindow.Hide o n))
  = (if is_object (OverlayWindow.m_hwnd o) then false
     else OverlayWindow.m_visible o) /\
  OverlayWindow.m_hwnd (value (OverlayWindow.Hide o n))
  = OverlayWindow.m_hwnd o.
Proof.
  rewrite OverlayLifecycle.Hide_explicit.
  destruct (OverlayWindow.m_hwnd o) eqn:W,
           (OverlayWindow.m_visible o) eqn:V;
    cbn; now rewrite ?V, ?W.
Qed.

Lemma EnableEnhancement_run (env : Env) (enable : bool) (this : Controller)
    (n : Handle) :
  exists this' n' ev,
    EnableEnhancement env enable this n = ((this', n'), ev) /\
    forallb (fun e => negb (is_draw e)) ev = true /\
    m_safeMode this' = m_safeMode this /\
    m_magnifierEnabled this' = m_magnifierEnabled this /\
    m_shaderPipeline this' = m_shaderPipeline this /\
    callback_registered this' = callback_registered this /\
    (if Bool.eqb (m_enhancementEnabled this) enable
        || (m_safeMode this && enable)
     then this' = this /\ n' = n /\ ev = []
     else
       m_enhancementEnabled this' = enable /\
       sounds ev = [if enable then Enable else Disable] /\
       capturing this'
       = enable
         && match m_captureManager this with
            | Some c =>
                CaptureManager.m_running c
                || CaptureManager.graphics_capture_available (capture_env env)
            | None => false
            end /\
       shows_overlay ev
       = enable
         && match m_overlayWindow this with
            | Some o =>
                is_object (OverlayWindow.m_hwnd o)
                && negb (OverlayWindow.m_visible o)
            | None => false
            end /\
       overlay_visible this'
       = match m_overlayWindow this with
         | Some o =>
             if is_object (OverlayWindow.m_hwnd o) then enable
             else OverlayWindow.m_visible o
         | None => false
         end /\
       option_map OverlayWindow.m_hwnd (m_overlayWindow this')
       = option_map OverlayWindow.m_hwnd (m_overlayWindow this)).
Proof.
  unfold EnableEnhancement, IsInSafeMode.
  destruct (Bool.eqb (m_enhancementEnabled this) enable) eqn:Q.
  { eexists _, _, _. split; [reflexivity|]. cbn [orb]. now repeat split. }
  destruct (m_safeMode this && enable) eqn:S.
  { eexists _, _, _. split; [reflexivity|]. cbn [orb]. now repeat split. }
  cbn [orb]. cbv zeta.
  set (t0 := set_enabled enable (m_magnifierEnabled this) this).
  destruct enable.
  - rewrite !bind_assoc.
    destruct (start_call env t0 n) as (ev1 & E1).
    rewrite (bind_run _ _ _ _ _ _ E1). cbn [fst snd].
    rewrite !bind_assoc.
    match goal with
    | |- context [bind (match m_overlayWindow ?t with _ => _ end) _ ?k] =>
        destruct (overlay_call t OverlayWindow.Show k) as (ev2 & E2 & V2)
    end.
    rewrite (bind_run _ _ _ _ _ _ E2). cbn [fst snd].
    rewrite !bind_assoc, emit_then. cbn beta. rewrite !ret_then.
    rewrite (bind_run _ _ _ _ _ _ (when_run _ _ _)). cbn [fst snd].
    unfold ret. cbn [fst snd].
    eexists _, _, _. split; [reflexivity|].
    subst t0. fields_in V2. unfold callback_registered, capturing,
      overlay_visible. fields.
    assert (D : forallb (fun e => negb (is_draw e)) (map EvOverlay ev2)
                = true
                /\ sounds (map EvOverlay ev2) = []
                /\ shows_overlay (map EvOverlay ev2)
                   = match m_overlayWindow this with
                     | Some o =>
                         is_object (OverlayWindow.m_hwnd o)
                         && negb (OverlayWindow.m_visible o)
                     | None => false
                     end).
    { rewrite V2. destruct (m_overlayWindow this) as [o|];
        [|now repeat split].
      rewrite (proj1 (Show_value o _)). unfold events. cbn [snd].
      now destruct (is_object (OverlayWindow.m_hwnd o)
                    && negb (OverlayWindow.m_visible o)). }
    destruct D as (D1 & D2 & D3).
    split.
    { rewrite !forallb_app, no_draw_capture, D1.
      now destruct (m_trayIcon this). }
    repeat (split; [reflexivity|]).
    split.
    { destruct (m_captureManager this) as [c|]; [|reflexivity].
      cbn [option_map].
      now rewrite (proj2 (Start_value (capture_env env) c n)). }
    split; [reflexivity|].
    split.
    { rewrite !sounds_app, sounds_capture, D2.
      now destruct (m_trayIcon this). }
    split.
    { destruct (m_captureManager this) as [c|]; [|reflexivity].
      cbn [option_map andb].
      now rewrite (proj1 (Start_value (capture_env env) c n)). }
    split.
    { unfold shows_overlay in *. rewrite !existsb_app, D3.
      assert (Z : existsb
                    (fun e =>
                       match e with
                       | EvOverlay (OverlayWindow.EvShowWindow
                                      OverlayWindow.SW_SHOWNOACTIVATE) =>
                           true
                       | _ => false
                       end) (map EvCapture ev1) = false).
      { clear. induction ev1; [reflexivity|exact IHev1]. }
      rewrite Z. cbn [orb andb].
      destruct (m_trayIcon this); cbn; now rewrite orb_false_r. }
    destruct (m_overlayWindow this) as [o|]; [|now split].
    cbn [option_map].
    now rewrite (proj1 (proj2 (Show_value o _))),
      (proj2 (proj2 (Show_value o _))).
  - rewrite !bind_assoc.
    destruct (capture_call t0 CaptureManager.Stop n) as (ev1 & E1).
    rewrite (bind_run _ _ _ _ _ _ E1). cbn [fst snd].
    rewrite !bind_assoc.
    match goal with
    | |- context [bind (match m_overlayWindow ?t with _ => _ end) _ ?k] =>
        destruct (overlay_call t OverlayWindow.Hide k) as (ev2 & E2 & V2)
    end.
    rewrite (bind_run _ _ _ _ _ _ E2). cbn [fst snd].
    rewrite !bind_assoc, emit_then. cbn beta. rewrite !ret_then.
    rewrite (bind_run _ _ _ _ _ _ (when_run _ _ _)). cbn [fst snd].
    unfold ret. cbn [fst snd].
    eexists _, _, _. split; [reflexivity|].
    subst t0. fields_in V2. unfold callback_registered, capturing,
      overlay_visible. fields.
    assert (D : forallb quiet (map EvOverlay ev2) = true
                /\ sounds (map EvOverlay ev2) = []).
    { rewrite V2. destruct (m_overlayWindow this) as [o|];
        [|now repeat split].
      rewrite (proj1 (Hide_value o _)). unfold events. cbn [snd].
      now destruct (is_object (OverlayWindow.m_hwnd o)
                    && OverlayWindow.m_visible o). }
    destruct D as (D1 & D2).
    assert (QQ : forallb quiet
                   (map EvCapture ev1 ++
                    map EvOverlay ev2 ++
                    EvPlay Disable
                    :: (if m_trayIcon this then [EvTrayUpdateState] else [])
                       ++ []) = true).
    { rewrite !forallb_app, quiet_capture, D1.
      now destruct (m_trayIcon this). }
    split; [now apply quiet_no_draw|].
    repeat (split; [reflexivity|]).
    split.
    { destruct (m_captureManager this) as [c|]; [|reflexivity].
      cbn [option_map].
      now rewrite (proj1 (proj2 (Stop_value c n))). }
    split; [reflexivity|].
    split.
    { rewrite !sounds_app, sounds_capture, D2.
      now destruct (m_trayIcon this). }
    split.
    { destruct (m_captureManager this) as [c|]; [|reflexivity].
      cbn [option_map andb].
      now rewrite (proj1 (Stop_value c n)). }
    split; [now apply quiet_shows|].
    destruct (m_overlayWindow this) as [o|]; [|now split].
    cbn [option_map].
    now rewrite (proj1 (proj2 (Hide_value o _))),
      (proj2 (proj2 (Hide_value o _))).
Qed.

Lemma EnableMagnifier_run (enable : bool) (this : Controller) (n : Handle) :
  exists this' ev,
    EnableMagnifier enable this n = ((this', n), ev) /\
    forallb quiet ev = true /\
    m_safeMode this' = m_safeMode this /\
    m_enhancementEnabled this' = m_enhancementEnabled this /\
    m_shaderPipeline this' = m_shaderPipeline this /\
    m_captureManager this' = m_captureManager this /\
    m_overlayWindow this' = m_overlayWindow this.
Proof.
  unfold EnableMagnifier, IsInSafeMode.
  destruct (Bool.eqb (m_magnifierEnabled this) enable);
    [eexists _, _; split; [reflexivity|]; now repeat split|].
  destruct (m_safeMode this && enable);
    [eexists _, _; split; [reflexivity|]; now repeat split|].
  cbv zeta. fields.
  destruct (m_magnifierController this), enable, (m_trayIcon this);
    eexists _, _; (split; [reflexivity|]); now repeat split.
Qed.

(** *** What a frame does *)

Lemma existsb_tagged {X} (f : Event -> bool) (tag : X -> Event)
    (l : list X) :
  (forall x, f (tag x) = false) -> existsb f (map tag l) = false.
Proof.
  intros H. induction l as [|x l IH]; [reflexivity|].
  cbn [map existsb]. now rewrite H, IH.
Qed.

Lemma drawn_pipeline (l : list ShaderPipeline.Event) :
  drawn (map EvPipeline l) = [].
Proof. apply no_draw_drawn, quiet_no_draw, quiet_pipeline. Qed.

Lemma frame_callback_cases (env : Env) (t : Handle) (this : Controller)
    (n : Handle) :
  exists this' n' ev,
    frame_callback env t this n = ((this', n'), ev ++ [EvHeartbeat]) /\
    (List.length (drawn ev) <= 1)%nat /\
    (drawn ev <> [] ->
     m_enhancementEnabled this = true /\ overlay_visible this = true /\
     is_object (m_shaderPipeline this) = true) /\
    existsb is_present ev = false /\
    shows_overlay ev = false /\
    existsb is_heartbeat ev = false /\
    existsb is_lambda_call ev = false /\
    (m_enhancementEnabled this = false ->
     this' = this /\ n' = n /\ ev = []) /\
    m_captureManager this' = m_captureManager this /\
    m_overlayWindow this' = m_overlayWindow this /\
    m_safeMode this' = m_safeMode this /\
    m_enhancementEnabled this' = m_enhancementEnabled this /\
    m_magnifierEnabled this' = m_magnifierEnabled this.
Proof.
  destruct (m_enhancementEnabled this) eqn:Ee.
  2:{ rewrite (frame_callback_disabled env t this n Ee).
      exists this, n, []. cbn. repeat split; auto; try congruence; lia. }
  destruct (m_overlayWindow this) as [o|] eqn:Eo.
  2:{ unfold frame_callback. rewrite Ee, Eo.
      exists this, n, []. cbn. repeat split; auto; try congruence; lia. }
  destruct (m_shaderPipeline this) as [p|] eqn:Ep.
  2:{ unfold frame_callback. rewrite Ee, Eo, Ep.
      exists this, n, []. cbn. repeat split; auto; try congruence; lia. }
  rewrite (frame_callback_run env t this o p n Ee Eo Ep). cbv zeta.
  set (pr := ShaderPipeline.Process (pipeline_env env) _ p n).
  destruct (RenderFrame_run (overlay_env env)
              (option_map ShaderPipeline.tex_id (fst (value pr))) o
              (snd (fst pr))) as (n2 & R).
  rewrite R. unfold events at 2. cbn [fst snd].
  eexists _, _, _. split; [now rewrite app_assoc|].
  unfold shows_overlay, overlay_visible. rewrite Eo.
  rewrite drawn_app, drawn_pipeline, !existsb_app,
    !(existsb_tagged _ EvPipeline) by reflexivity.
  cbn [app orb]. fields.
  destruct (option_map ShaderPipeline.tex_id (fst (value pr))) as [out|];
    [destruct (OverlayWindow.m_visible o) eqn:V;
     [destruct (negb (FAILED _))|]|];
    cbn; repeat split; auto; try congruence; try lia.
Qed.

(** X22: a frame-arrived event draws at most one texture, and only when
    enhancement is enabled, capture is running, the frame callback is
    registered, the overlay is visible and the pipeline exists.  It never
    presents the swap chain and never shows the window.  The heartbeat of
    the watchdog is sent exactly when the frame callback is called.  With
    enhancement off the controller is unchanged and the pipeline is not
    called. *)
Theorem frame_is_drawn_only_when_enhancing (env : Env)
    (a : CaptureManager.Arrival) (this : Controller) (n : Handle) :
  overlay_usable this ->
  let r := frame_arrived env a this n in
  (List.length (drawn (events r)) <= 1)%nat /\
  (drawn (events r) <> [] ->
   m_enhancementEnabled this = true /\ capturing this = true /\
   callback_registered this = true /\ overlay_visible this = true /\
   is_object (m_shaderPipeline this) = true) /\
  existsb is_present (events r) = false /\
  shows_overlay (events r) = false /\
  existsb is_heartbeat (events r) = existsb is_lambda_call (events r) /\
  (m_enhancementEnabled this = false ->
   value r = this /\ pipeline_calls (events r) = []) /\
  m_captureManager (value r) = m_captureManager this /\
  m_overlayWindow (value r) = m_overlayWindow this /\
  m_safeMode (value r) = m_safeMode this /\
  m_enhancementEnabled (value r) = m_enhancementEnabled this /\
  m_magnifierEnabled (value r) = m_magnifierEnabled this.
Proof.
  intros _. cbv zeta. rewrite frame_arrived_run.
  unfold capturing, callback_registered.
  destruct (m_captureManager this) as [c|] eqn:Ec;
    [|cbn; repeat split; auto; try congruence; lia].
  destruct (CaptureManager.m_running c) eqn:Rn;
    [|cbn; repeat split; auto; try congruence; lia].
  destruct a; try (cbn; repeat split; auto; try congruence; lia).
  destruct (CaptureManager.m_frameCallback c) as [cb|] eqn:Ef;
    [|cbn; repeat split; auto; try congruence; lia].
  cbv zeta. destruct (Nat.eqb cb frame_lambda) eqn:L.
  2:{ unfold value, events, shows_overlay. cbn. rewrite L.
      repeat split; auto; try congruence; lia. }
  destruct (frame_callback_cases env texture this n)
    as (t1 & n1 & ev & E & D1 & D2 & P & S & H & LC & Dis & K1 & K2 & K3
        & K4 & K5).
  rewrite E. unfold value, events. cbn [fst snd].
  unfold shows_overlay in *. cbn [drawn existsb is_present is_heartbeat
                                   is_lambda_call orb].
  rewrite L, !drawn_app, !existsb_app, P, S, H, LC. cbn.
  rewrite !app_nil_r.
  split; [exact D1|].
  split.
  { intros Hd. destruct (D2 Hd) as (A & B & C). now repeat split. }
  repeat (split; [reflexivity|]).
  split.
  { intros Hd. destruct (Dis Hd) as (-> & -> & ->). now split. }
  rewrite K1. now repeat split.
Qed.

Lemma pipeline_calls_app (l1 l2 : list Event) :
  pipeline_calls (l1 ++ l2) = pipeline_calls l1 ++ pipeline_calls l2.
Proof.
  induction l1 as [|e l1 IH]; [reflexivity|].
  destruct e; cbn [pipeline_calls app]; now rewrite ?IH.
Qed.

Lemma pipeline_calls_pipeline (l : list ShaderPipeline.Event) :
  pipeline_calls (map EvPipeline l) = l.
Proof. induction l as [|e l IH]; [reflexivity|]. cbn. now rewrite IH. Qed.

Lemma pipeline_calls_overlay (l : list OverlayWindow.Event) :
  pipeline_calls (map EvOverlay l) = [].
Proof. induction l; [reflexivity|exact IHl]. Qed.

Lemma drawn_overlay_draw (l : list Handle) :
  drawn (map EvOverlay (map OverlayWindow.EvDraw l)) = l.
Proof. induction l as [|e l IH]; [reflexivity|]. cbn. now rewrite IH. Qed.

(** X23: while enhancing, a captured frame is held by a reference, handed to
    [Process], and the texture [Process] returns is the one [RenderFrame]
    draws (none when the overlay is hidden or the view on it cannot be
    created); the heartbeat follows, then the reference is released.  The
    pipeline that [Process] leaves is the one the next frame finds. *)
Theorem enhanced_frame_is_processed_then_drawn (env : Env) (frame : Handle)
    (this : Controller) (c : CaptureManager.CaptureManager)
    (o : OverlayWindow.OverlayWindow) (p : ShaderPipeline.ShaderPipeline)
    (n : Handle) :
  m_captureManager this = Some c ->
  CaptureManager.m_running c = true ->
  CaptureManager.m_frameCallback c = Some frame_lambda ->
  m_enhancementEnabled this = true ->
  m_overlayWindow this = Some o -> OverlayWindow.usable o ->
  m_shaderPipeline this = Some p ->
  let input :=
    {| ShaderPipeline.tex_id := frame;
       ShaderPipeline.Width := fst (frame_size env frame);
       ShaderPipeline.Height := snd (frame_size env frame) |} in
  let pr := ShaderPipeline.Process (pipeline_env env) (Some input) p n in
  let shown :=
    match fst (value pr) with
    | Some out =>
        if OverlayWindow.m_visible o
           && negb (FAILED (OverlayWindow.hr (overlay_env env)
                              OverlayWindow.CreateShaderResourceView))
        then [ShaderPipeline.tex_id out] else []
    | None => []
    end in
  let r := frame_arrived env (CaptureManager.Texture frame) this n in
  events r
  = EvCapture (CaptureManager.EvAddRef frame)
    :: EvCapture (CaptureManager.EvFrameCallback frame_lambda frame)
    :: map EvPipeline (events pr)
    ++ map EvOverlay (map OverlayWindow.EvDraw shown)
    ++ [EvHeartbeat; EvCapture (CaptureManager.EvRelease frame)] /\
  pipeline_calls (events r) = events pr /\
  drawn (events r) = shown /\
  m_shaderPipeline (value r) = Some (snd (value pr)) /\
  m_overlayWindow (value r) = Some o /\
  m_captureManager (value r) = Some c.
Proof.
  intros Ec Rn Ef Ee Eo _ Ep. cbv zeta.
  rewrite frame_arrived_run, Ec, Rn, Ef. cbv zeta.
  rewrite Nat.eqb_refl.
  rewrite (frame_callback_run env frame this o p n Ee Eo Ep). cbv zeta.
  set (pr := ShaderPipeline.Process (pipeline_env env) _ p n).
  destruct (RenderFrame_run (overlay_env env)
              (option_map ShaderPipeline.tex_id (fst (value pr))) o
              (snd (fst pr))) as (n2 & R).
  rewrite R. set (evp := events pr). set (vp := value pr).
  clearbody evp vp. unfold value, events. cbn [fst snd]. fields.
  assert (D : match option_map ShaderPipeline.tex_id (fst vp) with
              | Some t =>
                  if OverlayWindow.m_visible o
                     && negb (FAILED (OverlayWindow.hr (overlay_env env)
                                OverlayWindow.CreateShaderResourceView))
                  then [OverlayWindow.EvDraw t] else []
              | None => []
              end
              = map OverlayWindow.EvDraw
                  match fst vp with
                  | Some out =>
                      if OverlayWindow.m_visible o
                         && negb (FAILED (OverlayWindow.hr (overlay_env env)
                                    OverlayWindow.CreateShaderResourceView))
                      then [ShaderPipeline.tex_id out] else []
                  | None => []
                  end).
  { destruct (fst vp); [|reflexivity]. cbn [option_map].
    now destruct (OverlayWindow.m_visible o && _). }
  rewrite D. clear D.
  split.
  { cbn [app]. now rewrite <- !app_assoc. }
  cbn [pipeline_calls drawn].
  rewrite !pipeline_calls_app, !drawn_app, pipeline_calls_pipeline,
    pipeline_calls_overlay, drawn_pipeline, drawn_overlay_draw.
  cbn. rewrite !app_nil_r. now repeat split.
Qed.

Lemma enhanced_frame_is_processed_then_drawn_witness :
  let input :=
    {| ShaderPipeline.tex_id := 500%nat;
       ShaderPipeline.Width := fst (frame_size env_works 500%nat);
       ShaderPipeline.Height := snd (frame_size env_works 500%nat) |} in
  let pr := ShaderPipeline.Process (pipeline_env env_works) (Some input)
              pipeline_enhancing 100%nat in
  let shown :=
    match fst (value pr) with
    | Some out =>
        if OverlayWindow.m_visible overlay_enhancing
           && negb (FAILED (OverlayWindow.hr (overlay_env env_works)
                              OverlayWindow.CreateShaderResourceView))
        then [ShaderPipeline.tex_id out] else []
    | None => []
    end in
  let r := frame_arrived env_works (CaptureManager.Texture 500%nat)
             controller_enhancing 100%nat in
  events r
  = EvCapture (CaptureManager.EvAddRef 500%nat)
    :: EvCapture (CaptureManager.EvFrameCallback frame_lambda 500%nat)
    :: map EvPipeline (events pr)
    ++ map EvOverlay (map OverlayWindow.EvDraw shown)
    ++ [EvHeartbeat; EvCapture (CaptureManager.EvRelease 500%nat)] /\
  pipeline_calls (events r) = events pr /\
  drawn (events r) = shown /\
  m_shaderPipeline (value r) = Some (snd (value pr)) /\
  m_overlayWindow (value r) = Some overlay_enhancing /\
  m_captureManager (value r) = Some capture_enhancing.
Proof.
  apply (enhanced_frame_is_processed_then_drawn env_works 500%nat
           controller_enhancing capture_enhancing overlay_enhancing
           pipeline_enhancing 100%nat);
    try (vm_compute; reflexivity).
  vm_compute. repeat split; discriminate.
Defined.

Lemma frame_is_drawn_only_when_enhancing_witness :
  let r := frame_arrived env_works (CaptureManager.Texture 500%nat)
             controller_enhancing 100%nat in
  (List.length (drawn (events r)) <= 1)%nat /\
  (drawn (events r) <> [] ->
   m_enhancementEnabled controller_enhancing = true /\
   capturing controller_enhancing = true /\
   callback_registered controller_enhancing = true /\
   overlay_visible controller_enhancing = true /\
   is_object (m_shaderPipeline controller_enhancing) = true) /\
  existsb is_present (events r) = false /\
  shows_overlay (events r) = false /\
  existsb is_heartbeat (events r) = existsb is_lambda_call (events r) /\
  (m_enhancementEnabled controller_enhancing = false ->
   value r = controller_enhancing /\ pipeline_calls (events r) = []) /\
  m_captureManager (value r) = m_captureManager controller_enhancing /\
  m_overlayWindow (value r) = m_overlayWindow controller_enhancing /\
  m_safeMode (value r) = m_safeMode controller_enhancing /\
  m_enhancementEnabled (value r)
  = m_enhancementEnabled controller_enhancing /\
  m_magnifierEnabled (value r) = m_magnifierEnabled controller_enhancing.
Proof.
  apply (frame_is_drawn_only_when_enhancing env_works
           (CaptureManager.Texture 500%nat) controller_enhancing 100%nat).
  vm_compute. repeat split; discriminate.
Defined.

(** *** Sequences of calls *)

Lemma frame_arrived_facts (env : Env) (a : CaptureManager.Arrival)
    (this : Controller) (n : Handle) :
  exists this' n' ev,
    frame_arrived env a this n = ((this', n'), ev) /\
    m_safeMode this' = m_safeMode this /\
    m_enhancementEnabled this' = m_enhancementEnabled this /\
    m_magnifierEnabled this' = m_magnifierEnabled this /\
    callback_registered this' = callback_registered this /\
    (m_enhancementEnabled this = false \/ callback_registered this = false ->
     forallb quiet ev = true).
Proof.
  rewrite frame_arrived_run. unfold callback_registered.
  destruct (m_captureManager this) as [c|] eqn:Ec.
  2:{ eexists _, _, _. split; [reflexivity|]. rewrite Ec. now repeat split. }
  destruct (CaptureManager.m_running c).
  2:{ eexists _, _, _. split; [reflexivity|]. rewrite Ec. now repeat split. }
  destruct a;
    try (eexists _, _, _; split; [reflexivity|]; rewrite Ec;
         now repeat split).
  destruct (CaptureManager.m_frameCallback c) as [cb|] eqn:Ef.
  2:{ eexists _, _, _. split; [reflexivity|]. rewrite Ec, Ef.
      now repeat split. }
  cbv zeta. destruct (Nat.eqb cb frame_lambda).
  2:{ eexists _, _, _. split; [reflexivity|]. cbn. rewrite Ec, Ef.
      now repeat split. }
  destruct (frame_callback_cases env texture this n)
    as (t1 & n1 & ev & E & _ & _ & _ & _ & _ & _ & Dis & K1 & K2 & K3
        & K4 & K5).
  rewrite E. unfold value, events. cbn [fst snd].
  eexists _, _, _. split; [reflexivity|]. rewrite K1, Ec, Ef.
  repeat (split; [assumption|]). split; [reflexivity|].
  intros [Hd|Hd]; [|discriminate Hd].
  destruct (Dis Hd) as (_ & _ & ->). reflexivity.
Qed.

Lemma apply_op_unconnected (env : Env) (op : Op) (this : Controller)
    (n : Handle) :
  callback_registered this = false ->
  exists this' n' ev,
    apply_op env op this n = ((this', n'), ev) /\
    callback_registered this' = false /\
    forallb (fun e => negb (is_draw e)) ev = true.
Proof.
  intros U. destruct op; cbn [apply_op].
  - destruct (EnableEnhancement_run env enable this n)
      as (t & n' & ev & E & D & _ & _ & _ & C & _).
    exists t, n', ev. rewrite C. auto.
  - destruct (EnableMagnifier_run enable this n)
      as (t & ev & E & Q & _ & _ & _ & C & _).
    exists t, n, ev. unfold callback_registered in *. rewrite C.
    auto using quiet_no_draw.
  - destruct (DisableAllEffects_run this n)
      as (t & ev & E & _ & _ & _ & _ & C & Q & _).
    exists t, n, ev. rewrite C. auto using quiet_no_draw.
  - destruct (ActivatePanicOff_run this n)
      as (t & ev & E & _ & _ & C & Q & _).
    eexists t, n, _. split; [exact E|]. rewrite C. split; [exact U|].
    apply quiet_no_draw. cbn [forallb]. now rewrite forallb_app, Q.
  - exists (ExitSafeMode this), n, []. split; [reflexivity|].
    split; [|reflexivity]. unfold ExitSafeMode.
    now destruct (negb (m_safeMode this)).
  - destruct (OnDisplayChange_run env this n)
      as (t & n' & ev & E & Q & _ & _ & _ & _ & C & _).
    exists t, n', ev. rewrite C. auto using quiet_no_draw.
  - destruct (OnDpiChange_run env dpi this n)
      as (t & n' & ev & E & Q & _ & _ & _ & _ & C).
    exists t, n', ev. unfold callback_registered in *. rewrite C.
    auto using quiet_no_draw.
  - destruct (OnSystemResume_run env this n)
      as (t & n' & ev & E & Q & _ & _ & _ & _ & _ & C & _).
    exists t, n', ev. rewrite C. auto using quiet_no_draw.
  - destruct (frame_arrived_facts env arrival this n)
      as (t & n' & ev & E & _ & _ & _ & C & Q).
    exists t, n', ev. rewrite C. repeat split; auto.
    apply quiet_no_draw, Q. now right.
Qed.

Lemma apply_op_switched_off (env : Env) (op : Op) (this : Controller)
    (n : Handle) :
  switched_off this -> is_exit op = false ->
  exists this' n' ev,
    apply_op env op this n = ((this', n'), ev) /\
    switched_off this' /\ forallb quiet ev = true.
Proof.
  intros (S1 & S2 & S3) X. unfold switched_off, IsInSafeMode in *.
  destruct op; try discriminate X; cbn [apply_op].
  - rewrite (EnableEnhancement_blocked env this n enable S1 S2).
    now exists this, n, [].
  - rewrite (EnableMagnifier_blocked this n enable S1 S3).
    now exists this, n, [].
  - destruct (DisableAllEffects_run this n)
      as (t & ev & E & A & B & C & _ & _ & Q & _).
    exists t, n, ev. rewrite A, B, C. auto.
  - destruct (ActivatePanicOff_run this n)
      as (t & ev & E & S' & _ & _ & Q & _).
    eexists t, n, _. split; [exact E|]. split; [exact S'|].
    cbn [forallb]. now rewrite forallb_app, Q.
  - destruct (OnDisplayChange_run env this n)
      as (t & n' & ev & E & Q & A & B & C & _).
    exists t, n', ev. rewrite A, B, C. auto.
  - destruct (OnDpiChange_run env dpi this n)
      as (t & n' & ev & E & Q & A & B & C & _).
    exists t, n', ev. rewrite A, B, C. auto.
  - destruct (OnSystemResume_run env this n)
      as (t & n' & ev & E & Q & A & B & C & _).
    exists t, n', ev. rewrite A, B, C. auto.
  - destruct (frame_arrived_facts env arrival this n)
      as (t & n' & ev & E & A & B & C & _ & Q).
    exists t, n', ev. rewrite A, B, C. repeat split; auto.
Qed.

Lemma run_ops_unconnected (env : Env) (ops : list Op) :
  forall (this : Controller) (n : Handle),
    callback_registered this = false ->
    exists this' n' ev,
      run_ops env ops this n = ((this', n'), ev) /\
      callback_registered this' = false /\
      forallb (fun e => negb (is_draw e)) ev = true.
Proof.
  induction ops as [|op ops IH]; intros this n U.
  - now exists this, n, [].
  - cbn [run_ops].
    destruct (apply_op_unconnected env op this n U)
      as (t1 & n1 & ev1 & E1 & U1 & D1).
    destruct (IH t1 n1 U1) as (t2 & n2 & ev2 & E2 & U2 & D2).
    rewrite (bind_run _ _ _ _ _ _ E1), E2. cbn [fst snd].
    exists t2, n2, (ev1 ++ ev2). rewrite forallb_app, D1, D2. auto.
Qed.

Lemma run_ops_switched_off (env : Env) (ops : list Op) :
  forall (this : Controller) (n : Handle),
    switched_off this -> existsb is_exit ops = false ->
    exists this' n' ev,
      run_ops env ops this n = ((this', n'), ev) /\
      switched_off this' /\ forallb quiet ev = true.
Proof.
  induction ops as [|op ops IH]; intros this n S X.
  - now exists this, n, [].
  - cbn [run_ops]. cbn [existsb] in X. apply orb_false_iff in X.
    destruct X as [X1 X2].
    destruct (apply_op_switched_off env op this n S X1)
      as (t1 & n1 & ev1 & E1 & S1 & Q1).
    destruct (IH t1 n1 S1 X2) as (t2 & n2 & ev2 & E2 & S2 & Q2).
    rewrite (bind_run _ _ _ _ _ _ E1), E2. cbn [fst snd].
    exists t2, n2, (ev1 ++ ev2). rewrite forallb_app, Q1, Q2. auto.
Qed.

(** X24: from a state in safe mode with both effects off, no sequence of
    controller calls without [ExitSafeMode] (enabling, disabling,
    panic-off, display and DPI changes, resume, frame arrivals) draws a
    frame or shows the overlay, and the state stays in safe mode with
    both effects off. *)
Theorem nothing_is_drawn_in_safe_mode (env : Env) (ops : list Op)
    (this : Controller) (n : Handle) :
  switched_off this -> existsb is_exit ops = false ->
  let r := run_ops env ops this n in
  switched_off (value r) /\
  drawn (events r) = [] /\ shows_overlay (events r) = false.
Proof.
  intros S X. cbv zeta.
  destruct (run_ops_switched_off env ops this n S X)
    as (t & n' & ev & E & S' & Q).
  rewrite E. unfold value, events. cbn [fst snd].
  split; [exact S'|].
  split; [now apply no_draw_drawn, quiet_no_draw|now apply quiet_shows].
Qed.

Lemma nothing_is_drawn_in_safe_mode_witness :
  let r := run_ops env_works calls_after_panic controller_panicked 200%nat in
  switched_off (value r) /\
  drawn (events r) = [] /\ shows_overlay (events r) = false.
Proof.
  apply (nothing_is_drawn_in_safe_mode env_works calls_after_panic
           controller_panicked 200%nat).
  - repeat split; reflexivity.
  - reflexivity.
Defined.

(** *** Initialising the overlay subsystem *)

(** X25: [InitializeOverlay] on a new controller succeeds exactly when the
    overlay window and the shader pipeline can be initialised, and the
    frame callback is registered exactly when it succeeds.  It enables,
    shows and captures nothing.  On success the capture manager and the
    pipeline use the device of the overlay and the pipeline is ready.
    After a failure no later sequence of controller calls draws a
    frame. *)
Theorem InitializeOverlay_connects_only_on_success (env : Env)
    (overlayShaders shadersPath : string) (hInstance : option Handle)
    (n : Handle) :
  let r := InitializeOverlay env overlayShaders shadersPath
             (new_controller hInstance) n in
  let this := snd (value r) in
  fst (value r)
  = OverlayWindow.initialization_succeeds (overlay_env env)
    && ShaderPipeline.required_resources (pipeline_env env) /\
  callback_registered this = fst (value r) /\
  m_enhancementEnabled this = false /\ IsInSafeMode this = false /\
  capturing this = false /\ overlay_visible this = false /\
  (fst (value r) = true ->
   exists overlay capture pipeline,
     m_overlayWindow this = Some overlay /\
     m_captureManager this = Some capture /\
     m_shaderPipeline this = Some pipeline /\
     OverlayWindow.usable overlay /\
     CaptureManager.m_device capture = OverlayWindow.m_device overlay /\
     ShaderPipeline.m_device pipeline = OverlayWindow.m_device overlay /\
     ShaderPipeline.m_ready pipeline = true /\
     CaptureManager.m_frameCallback capture = Some frame_lambda /\
     CaptureManager.m_captures capture = [] /\
     drawn (events r) = [] /\ shows_overlay (events r) = false) /\
  (fst (value r) = false ->
   forall env' ops n',
     let later := run_ops env' ops this n' in
     drawn (events later) = [] /\ callback_registered (value later) = false).
Proof.
  cbv zeta. unfold InitializeOverlay.
  cbn [m_hInstance new_controller].
  pose proof (OverlayLifecycle.Initialize_overlay_run (overlay_env env)
                hInstance overlayShaders n) as H1.
  cbv zeta in H1.
  destruct (OverlayWindow.Initialize (overlay_env env) hInstance
              overlayShaders OverlayWindow.new_overlay n)
    as [[[ok1 o] n1] ev1] eqn:E1.
  unfold value, events in H1. cbn [fst snd] in H1.
  destruct H1 as (K1 & V1 & _ & _ & S1).
  rewrite (bind_run _ _ _ _ _ _ (on_run EvOverlay _ _ _ _ _ E1)).
  cbn [fst snd]. rewrite <- K1.
  assert (F : forall (t : Controller) (m : Handle) (ev : list Event),
            callback_registered t = false ->
            m_enhancementEnabled t = false -> IsInSafeMode t = false ->
            capturing t = false -> overlay_visible t = false ->
            let r := ((false, t, m), ev) in
            false = fst (value r) /\
            callback_registered (snd (value r)) = fst (value r) /\
            m_enhancementEnabled (snd (value r)) = false /\
            IsInSafeMode (snd (value r)) = false /\
            capturing (snd (value r)) = false /\
            overlay_visible (snd (value r)) = false /\
            (fst (value r) = true ->
             exists overlay capture pipeline,
               m_overlayWindow (snd (value r)) = Some overlay /\
               m_captureManager (snd (value r)) = Some capture /\
               m_shaderPipeline (snd (value r)) = Some pipeline /\
               OverlayWindow.usable overlay /\
               CaptureManager.m_device capture
               = OverlayWindow.m_device overlay /\
               ShaderPipeline.m_device pipeline
               = OverlayWindow.m_device overlay /\
               ShaderPipeline.m_ready pipeline = true /\
               CaptureManager.m_frameCallback capture = Some frame_lambda /\
               CaptureManager.m_captures capture = [] /\
               drawn (events r) = [] /\ shows_overlay (events r) = false) /\
            (fst (value r) = false ->
             forall env' ops n',
               let later := run_ops env' ops (snd (value r)) n' in
               drawn (events later) = [] /\
               callback_registered (value later) = false)).
  { intros t m ev C A B D V. cbv zeta. unfold value, events. cbn [fst snd].
    repeat (split; [assumption || reflexivity|]).
    split; [discriminate|]. intros _ env' ops n'.
    destruct (run_ops_unconnected env' ops t n' C)
      as (t' & n'' & ev' & E & C' & D').
    rewrite E. cbn [fst snd]. split; [now apply no_draw_drawn|exact C']. }
  destruct ok1; cbn [negb andb].
  2:{ unfold ret. apply F; try reflexivity. cbn. exact V1. }
  destruct (S1 eq_refl) as (U & W & tearing & Ev).
  destruct (OverlayWindow.m_device o) as [dev|] eqn:Ed;
    [|now destruct U as [U _]].
  unfold CaptureManager.Initialize.
  match goal with
  | |- context [on EvCapture ?m] =>
      assert (E2 : m n1
                   = ((true, CaptureManager.EnumerateMonitors
                               (capture_env env)
                               (CaptureManager.Build_CaptureManager
                                  (Some dev) (Some n1) [] [] None false)),
                       S n1, []))
        by reflexivity
  end.
  rewrite (bind_run _ _ _ _ _ _ (on_run EvCapture _ _ _ _ _ E2)).
  cbn [fst snd negb map app].
  pose proof (ShaderPipelineSetup.Initialize_pipeline_run (pipeline_env env)
                (Some dev) shadersPath (S n1)) as H3.
  cbv zeta in H3.
  destruct (ShaderPipeline.Initialize (pipeline_env env) (Some dev)
              shadersPath ShaderPipeline.new_pipeline (S n1))
    as [[[ok3 p] n3] ev3] eqn:E3.
  unfold value, events in H3. cbn [fst snd] in H3.
  destruct H3 as (K3 & R3 & Ev3 & S3). cbn [is_object andb] in K3.
  rewrite (bind_run _ _ _ _ _ _ (on_run EvPipeline _ _ _ _ _ E3)).
  cbn [fst snd]. rewrite <- K3.
  destruct ok3; cbn [negb andb].
  2:{ unfold ret. rewrite !app_nil_r.
      apply F; try reflexivity. cbn. exact V1. }
  unfold ret, value, events. cbn [fst snd]. fields.
  unfold callback_registered, capturing, overlay_visible. fields.
  cbn [CaptureManager.SetFrameCallback CaptureManager.m_frameCallback
       CaptureManager.m_running CaptureManager.EnumerateMonitors
       CaptureManager.set_monitors is_object].
  repeat (split; [assumption || reflexivity|]).
  split; [|discriminate]. intros _.
  eexists _, _, _. repeat (split; [reflexivity|]).
  split; [exact U|].
  split; [cbn; now rewrite Ed|].
  split; [rewrite Ed; exact (proj1 (S3 eq_refl))|].
  split; [exact R3|]. split; [reflexivity|]. split; [reflexivity|].
  subst ev3. rewrite Ev. split; reflexivity.
Qed.

(** *** Enabling, disabling, display changes *)

(** X26: outside safe mode, [EnableEnhancement(true)] sets the flag, plays
    the enable sound and shows the overlay window whatever [Start]
    returns: capture runs afterwards only if there is a capture manager
    and graphics capture is available (or it ran already).  A repeated
    call does nothing.  [EnableEnhancement(false)] then clears the flag,
    stops capture, hides the window and plays the disable sound.  Neither
    call draws; the frame callback and the pipeline are kept. *)
Theorem EnableEnhancement_on_then_off (env : Env) (this : Controller)
    (n n' : Handle) :
  IsInSafeMode this = false -> m_enhancementEnabled this = false ->
  let r1 := EnableEnhancement env true this n in
  let on_ := value r1 in
  let r2 := EnableEnhancement env false on_ n' in
  let off := value r2 in
  m_enhancementEnabled on_ = true /\
  sounds (events r1) = [Enable] /\
  capturing on_
  = match m_captureManager this with
    | Some c =>
        CaptureManager.m_running c
        || CaptureManager.graphics_capture_available (capture_env env)
    | None => false
    end /\
  overlay_visible on_
  = match m_overlayWindow this with
    | Some o =>
        if is_object (OverlayWindow.m_hwnd o) then true
        else OverlayWindow.m_visible o
    | None => false
    end /\
  drawn (events r1) = [] /\
  EnableEnhancement env true on_ n' = ((on_, n'), []) /\
  m_enhancementEnabled off = false /\
  sounds (events r2) = [Disable] /\
  capturing off = false /\
  overlay_visible off
  = match m_overlayWindow this with
    | Some o =>
        if is_object (OverlayWindow.m_hwnd o) then false
        else OverlayWindow.m_visible o
    | None => false
    end /\
  drawn (events r2) = [] /\ shows_overlay (events r2) = false /\
  callback_registered off = callback_registered this /\
  m_shaderPipeline off = m_shaderPipeline this.
Proof.
  intros S E. cbv zeta. unfold IsInSafeMode in S.
  destruct (EnableEnhancement_run env true this n)
    as (t1 & n1 & ev1 & E1 & D1 & A1 & B1 & P1 & C1 & G1).
  rewrite S, E in G1. cbn [Bool.eqb andb orb] in G1.
  destruct G1 as (F1 & So1 & Cp1 & Sh1 & V1 & W1).
  rewrite E1. unfold value, events. cbn [fst snd].
  destruct (EnableEnhancement_run env false t1 n')
    as (t2 & n2 & ev2 & E2 & D2 & A2 & B2 & P2 & C2 & G2).
  rewrite F1, A1, S in G2. cbn [Bool.eqb andb orb] in G2.
  destruct G2 as (F2 & So2 & Cp2 & Sh2 & V2 & W2).
  rewrite E2. cbn [fst snd].
  split; [exact F1|]. split; [exact So1|].
  split; [rewrite Cp1; reflexivity|]. split; [exact V1|].
  split; [now apply no_draw_drawn|].
  split.
  { unfold EnableEnhancement. now rewrite F1. }
  split; [exact F2|]. split; [exact So2|]. split; [exact Cp2|].
  split.
  { rewrite V2. unfold overlay_visible in V1.
    destruct (m_overlayWindow t1) as [o1|] eqn:O1,
             (m_overlayWindow this) as [o|] eqn:O;
      try reflexivity; try discriminate W1.
    cbn [option_map] in W1. injection W1 as W1. rewrite W1, V1.
    now destruct (is_object (OverlayWindow.m_hwnd o)). }
  split; [now apply no_draw_drawn|]. split; [exact Sh2|].
  split; [now rewrite C2, C1|]. now rewrite P2, P1.
Qed.

Lemma EnableEnhancement_on_then_off_witness :
  let r1 := EnableEnhancement env_works true controller_connected 50%nat in
  let on_ := value r1 in
  let r2 := EnableEnhancement env_works false on_ 60%nat in
  let off := value r2 in
  m_enhancementEnabled on_ = true /\
  sounds (events r1) = [Enable] /\
  capturing on_
  = match m_captureManager controller_connected with
    | Some c =>
        CaptureManager.m_running c
        || CaptureManager.graphics_capture_available
             (capture_env env_works)
    | None => false
    end /\
  overlay_visible on_
  = match m_overlayWindow controller_connected with
    | Some o =>
        if is_object (OverlayWindow.m_hwnd o) then true
        else OverlayWindow.m_visible o
    | None => false
    end /\
  drawn (events r1) = [] /\
  EnableEnhancement env_works true on_ 60%nat = ((on_, 60%nat), []) /\
  m_enhancementEnabled off = false /\
  sounds (events r2) = [Disable] /\
  capturing off = false /\
  overlay_visible off
  = match m_overlayWindow controller_connected with
    | Some o =>
        if is_object (OverlayWindow.m_hwnd o) then false
        else OverlayWindow.m_visible o
    | None => false
    end /\
  drawn (events r2) = [] /\ shows_overlay (events r2) = false /\
  callback_registered off = callback_registered controller_connected /\
  m_shaderPipeline off = m_shaderPipeline controller_connected.
Proof.
  apply (EnableEnhancement_on_then_off env_works controller_connected
           50%nat 60%nat); vm_compute; reflexivity.
Defined.

(** X27: [Controller::OnDisplayChange] restarts capture without a look at the
    enhancement flag or at safe mode: afterwards capture runs exactly when
    there is a capture manager and graphics capture is available.
    [OnSystemResume] restarts it only when enhancement is enabled and
    otherwise does nothing.  Neither changes the flags or the callback,
    and neither draws or shows the overlay. *)
Theorem OnDisplayChange_restarts_capture_whatever_the_flag (env : Env)
    (this : Controller) (n : Handle) :
  let r := OnDisplayChange env this n in
  let s := OnSystemResume env this n in
  capturing (value r)
  = is_object (m_captureManager this)
    && CaptureManager.graphics_capture_available (capture_env env) /\
  capturing (value s)
  = (if m_enhancementEnabled this
     then is_object (m_captureManager this)
          && CaptureManager.graphics_capture_available (capture_env env)
     else capturing this) /\
  (m_enhancementEnabled this = false -> value s = this /\ events s = []) /\
  m_enhancementEnabled (value r) = m_enhancementEnabled this /\
  IsInSafeMode (value r) = IsInSafeMode this /\
  callback_registered (value r) = callback_registered this /\
  m_enhancementEnabled (value s) = m_enhancementEnabled this /\
  IsInSafeMode (value s) = IsInSafeMode this /\
  callback_registered (value s) = callback_registered this /\
  drawn (events r) = [] /\ shows_overlay (events r) = false /\
  drawn (events s) = [] /\ shows_overlay (events s) = false.
Proof.
  cbv zeta. unfold IsInSafeMode.
  destruct (OnDisplayChange_run env this n)
    as (t1 & n1 & ev1 & E1 & Q1 & A1 & B1 & _ & _ & C1 & R1).
  destruct (OnSystemResume_run env this n)
    as (t2 & n2 & ev2 & E2 & Q2 & A2 & B2 & _ & _ & _ & C2 & R2 & I2).
  rewrite E1, E2. unfold value, events. cbn [fst snd].
  repeat (split; [assumption|]).
  split; [now apply no_draw_drawn, quiet_no_draw|].
  split; [now apply quiet_shows|].
  split; [now apply no_draw_drawn, quiet_no_draw|now apply quiet_shows].
Qed.

End ControllerFacts.
